(** * Confluence Label Lifecycle Manager: a shallow embedding of [main.py]

    The program labels the pages of a Confluence space as fresh, stale or
    rotten from the date of their last edit.  This development embeds
    [discover_all_pages_in_space], [discover_page_labels],
    [discover_page_state], [action_set_page_label] and
    [manage_pages_in_space] as functions in a state-and-exception monad
    over a model of the Confluence client, and proves properties of them. *)

From Stdlib Require Import ZArith List String Ascii Bool Lia Permutation.
Import ListNotations.

Local Open Scope string_scope.
Local Open Scope Z_scope.

(** ** Python strings *)

Module Py.

(** [s.startswith(p)] *)
Definition startswith (s p : string) : bool := String.prefix p s.

(** [s.count(c)] for a one-character [c]. *)
Fixpoint count (s : string) (c : ascii) : Z :=
  match s with
  | EmptyString => 0
  | String a s' => (if Ascii.eqb a c then 1 else 0) + count s' c
  end.

(** [s.split(c)] for a one-character separator [c]. *)
Fixpoint split (s : string) (c : ascii) : list string :=
  match s with
  | EmptyString => [EmptyString]
  | String a s' =>
      if Ascii.eqb a c then EmptyString :: split s' c
      else match split s' c with
           | [] => [String a EmptyString]
           | h :: t => String a h :: t
           end
  end.

(** [s.replace(old, new)] for a non-empty [old]: the occurrences are
    replaced from left to right and do not overlap.  [skip] counts the
    characters of an occurrence that were matched and are still to be
    dropped. *)
Fixpoint replace_from (skip : nat) (old new s : string) : string :=
  match s with
  | EmptyString => EmptyString
  | String a s' =>
      match skip with
      | S k => replace_from k old new s'
      | O =>
          if String.prefix old s
          then new ++ replace_from (Nat.pred (String.length old)) old new s'
          else String a (replace_from O old new s')
      end
  end.

Definition replace (s old new : string) : string := replace_from O old new s.

(** [x in l] for a list of strings. *)
Definition mem (x : string) (l : list string) : bool :=
  existsb (String.eqb x) l.

(** [len(l)] *)
Definition len {A : Type} (l : list A) : Z := Z.of_nat (List.length l).

End Py.

(** ** Exceptions and results *)

(** The exceptions the program can meet.  [ApiError] and [HTTPError] are the
    two classes its handlers name; [ConnectionError] stands for a fault of
    the store that is neither.  [NoProgress] is not a Python exception: it
    marks a [while] loop whose iteration bound ran out (shown unreachable
    below). *)
Inductive exn : Type :=
| ApiError | HTTPError | ConnectionError
| ParserError | ValueError | OverflowError | IndexError
| NoProgress.

Inductive result (A : Type) : Type :=
| Ok (a : A)
| Raise (e : exn).
Arguments Ok {A} a.
Arguments Raise {A} e.

(** ** The Confluence store behind [client] *)

(** A page summary as [get_all_pages_from_space] lists it. *)
Record PageSummary : Type := { id : string; title : string }.

(** A label record as [get_page_labels] lists it under ['results']. *)
Record Label : Type :=
  { label_prefix : string; label_name : string; label_id : string;
    label : string }.

(** The answer of [client.history]. *)
Record Account : Type :=
  { accountId : string; publicName : string; email : string }.
Record LastUpdated : Type := { by_ : Account; when : string }.
Record History : Type := { createdBy : Account; lastUpdated : LastUpdated }.

(** The values substituted into the body of the report page. *)
Record Report : Type :=
  { freshPages : Z; stalePages : Z; rottenPages : Z;
    freshPagesChanged : Z; stalePagesChanged : Z; rottenPagesChanged : Z;
    freshPagesLifecycleTrigger : Z; stalePagesLifecycleTrigger : Z;
    rottenPagesLifecycleTrigger : Z;
    totalPagesManaged : Z }.

(** The calls made on [client]. *)
Inductive Call : Type :=
| GetAllPagesFromSpace (space : string) (start limit : Z)
| GetPageLabels (page_id : string)
| GetHistory (page_id : string)
| RemovePageLabel (page_id lbl : string)
| SetPageLabel (page_id lbl : string)
| AttachFile (filename page_id : string)
| UpdatePage (page_id title_ : string) (body : Report).

Definition is_mutation (c : Call) : bool :=
  match c with
  | RemovePageLabel _ _ | SetPageLabel _ _ | AttachFile _ _
  | UpdatePage _ _ _ => true
  | _ => false
  end.

(** The state a run works on: the content of the store, the wall clock, the
    faults the store will answer mutations with, and the calls made so far.
    - [clock n] is what the [n]-th call of [datetime.now()] returns, in
      microseconds since 0001-01-01T00:00:00, and [ticks] counts the calls;
    - [mutation_fault n] is the exception, if any, the store raises when the
      [n]-th call of the run (counting every call on [client]) is a mutation;
    - [calls] lists the calls on [client], oldest first. *)
Record World : Type :=
  { space_content : string -> list PageSummary;
    page_labels : string -> list Label;
    page_history : string -> History;
    clock : nat -> Z;
    ticks : nat;
    mutation_fault : nat -> option exn;
    calls : list Call }.

Definition with_calls (w : World) (cs : list Call) : World :=
  {| space_content := space_content w; page_labels := page_labels w;
     page_history := page_history w; clock := clock w; ticks := ticks w;
     mutation_fault := mutation_fault w; calls := cs |}.

Definition with_labels (w : World) (f : string -> list Label) : World :=
  {| space_content := space_content w; page_labels := f;
     page_history := page_history w; clock := clock w; ticks := ticks w;
     mutation_fault := mutation_fault w; calls := calls w |}.

Definition tick (w : World) : World :=
  {| space_content := space_content w; page_labels := page_labels w;
     page_history := page_history w; clock := clock w; ticks := S (ticks w);
     mutation_fault := mutation_fault w; calls := calls w |}.

Definition record (c : Call) (w : World) : World :=
  with_calls w (calls w ++ [c])%list.

Definition mutations (w : World) : list Call := filter is_mutation (calls w).

(** ** The monad of the program: state and exceptions *)

Definition M (A : Type) : Type := World -> result A * World.

Definition ret {A : Type} (a : A) : M A := fun w => (Ok a, w).

Definition raise {A : Type} (e : exn) : M A := fun w => (Raise e, w).

Definition bind {A B : Type} (m : M A) (k : A -> M B) : M B :=
  fun w =>
    match m w with
    | (Ok a, w') => k a w'
    | (Raise e, w') => (Raise e, w')
    end.

(** [try: m  except (classes): h] *)
Definition try_except {A : Type} (m : M A) (caught : exn -> bool) (h : M A)
  : M A :=
  fun w =>
    match m w with
    | (Ok a, w') => (Ok a, w')
    | (Raise e, w') => if caught e then h w' else (Raise e, w')
    end.

Declare Scope py_scope.
Delimit Scope py_scope with py.
Notation "x <- m ;; k" := (bind m (fun x => k))
  (at level 61, m at next level, right associativity) : py_scope.
Notation "m ;;; k" := (bind m (fun _ => k))
  (at level 61, right associativity) : py_scope.
Local Open Scope py_scope.

(** [l[i]] *)
Definition index {A : Type} (l : list A) (i : nat) : M A :=
  match nth_error l i with
  | Some a => ret a
  | None => raise IndexError
  end.

(** [for x in l: body(x)] *)
Fixpoint for_each {A : Type} (l : list A) (body : A -> M unit) : M unit :=
  match l with
  | [] => ret tt
  | x :: l' => body x ;;; for_each l' body
  end.

(** [[f(x) for x in l]] *)
Fixpoint for_list {A B : Type} (l : list A) (f : A -> M B) : M (list B) :=
  match l with
  | [] => ret []
  | x :: l' => y <- f x ;; ys <- for_list l' f ;; ret (y :: ys)
  end.

(** ** The client *)

Module client.

(** The three reads are answered from the store as it is; a fault of the
    store on a read ends the run and is not modelled.  The server lists the
    pages of a space from offset [start], at most [limit] of them. *)
Definition get_all_pages_from_space (space : string) (start limit : Z)
  : M (list PageSummary) :=
  fun w =>
    (Ok (firstn (Z.to_nat limit) (skipn (Z.to_nat start) (space_content w space))),
     record (GetAllPagesFromSpace space start limit) w).

Definition get_page_labels (page_id : string) : M (list Label) :=
  fun w => (Ok (page_labels w page_id), record (GetPageLabels page_id) w).

Definition history (page_id : string) : M History :=
  fun w => (Ok (page_history w page_id), record (GetHistory page_id) w).

(** A mutation is recorded, then fails with the fault the store has for
    it, or takes effect. *)
Definition mutate (c : Call) (effect : World -> World) : M unit :=
  fun w =>
    match mutation_fault w (List.length (calls w)) with
    | Some e => (Raise e, record c w)
    | None => (Ok tt, effect (record c w))
    end.

Definition remove_page_label (page_id lbl : string) : M unit :=
  mutate (RemovePageLabel page_id lbl)
    (fun w => with_labels w (fun p =>
       if String.eqb p page_id
       then filter (fun l => negb (String.eqb (label l) lbl)) (page_labels w p)
       else page_labels w p)).

Definition set_page_label (page_id lbl : string) : M unit :=
  mutate (SetPageLabel page_id lbl)
    (fun w => with_labels w (fun p =>
       if String.eqb p page_id
       then if Py.mem lbl (map label (page_labels w p)) then page_labels w p
            else (page_labels w p ++
                  [{| label_prefix := "global"; label_name := lbl;
                      label_id := ""; label := lbl |}])%list
       else page_labels w p)).

Definition attach_file (filename page_id : string) : M unit :=
  mutate (AttachFile filename page_id) (fun w => w).

Definition update_page (page_id title_ : string) (body : Report) : M unit :=
  mutate (UpdatePage page_id title_ body) (fun w => w).

End client.

(** [datetime.now()] *)
Definition datetime_now : M Z :=
  fun w => (Ok (clock w (ticks w)), tick w).

(** ** Dates *)

(** Microseconds in a day, and the last instant a [datetime] can hold
    (9999-12-31T23:59:59.999999, day 3652059 of the calendar). *)
Definition DAY : Z := 86400000000.
Definition DATETIME_MAX : Z := 3652059 * DAY - 1.

(** [d - timedelta(days=n)]: [OverflowError] outside the range of
    [datetime]. *)
Definition minus_days (d n : Z) : M Z :=
  let r := d - n * DAY in
  if (0 <=? r) && (r <=? DATETIME_MAX) then ret r else raise OverflowError.

(** ** Globals of the module *)

Definition deprecated_labels : list string := ["fresh"; "stale"; "rotten"].

Definition lifecycle_ignore_tag : string := "lifecycle_ignore".

(** ** Page discovery *)

(** The [while count < max] loop of [discover_all_pages_in_space]: [fuel]
    bounds the number of iterations. *)
Fixpoint discover_loop (fuel : nat) (space : string) (max limit : Z)
  (start count : Z) (pages : list PageSummary) : M (list PageSummary) :=
  match fuel with
  | O => raise NoProgress
  | S fuel' =>
      if count <? max then
        all_pages <- client.get_all_pages_from_space space start limit ;;
        let count := Py.len all_pages in
        let start := start + limit in
        if count =? 0 then ret pages
        else (* count > 0 *)
          discover_loop fuel' space max limit start count (pages ++ all_pages)%list
      else ret pages
  end.

(** [discover_all_pages_in_space(space, max, limit)].  The loop is run for
    at most two iterations more than the space has pages, which it never
    needs (see [discover_all_pages_in_space_progress]). *)
Definition discover_all_pages_in_space (space : string) (max limit : Z)
  : M (list PageSummary) :=
  fun w =>
    let start := 0 in
    let pages := [] in
    let limit := if limit >? max then max else limit in
    let count := 0 in
    discover_loop (S (S (List.length (space_content w space))))
      space max limit start count pages w.

(** ** Labels of a page *)

Record PageLabels : Type :=
  { pl_page_id : string; pl_labels : option (list Label) }.

Definition discover_page_labels (page_id : string) : M PageLabels :=
  page_labels <- client.get_page_labels page_id ;;
  if Py.len page_labels =? 0
  then ret {| pl_page_id := page_id; pl_labels := None |}
  else ret {| pl_page_id := page_id; pl_labels := Some page_labels |}.

(** ** The program proper

    Three things come from outside [main.py] and are taken as given:
    - [strptime s] is [datetime.strptime(s, '%Y-%m-%d %H:%M:%S.%f')], in
      microseconds since 0001-01-01T00:00:00, [None] for its [ValueError];
    - [parse s] is [dateutil.parser.parse(s)] on the same scale, [None] for
      its [ParserError]; the date is one without time zone, as the label
      form [<YYYY><MM><DD>] that the module documents gives;
    - [target_labels] is the module's global of that name, which [main] sets
      to the fresh, stale and rotten labels, in this order. *)

Record Person : Type :=
  { person_id : string; person_name : string; person_email : string }.

Record LastEdited : Type :=
  { edited_by : Person; when_raw : string; edited_when : Z }.

(** The dictionary [discover_page_state] returns. *)
Record PageState : Type :=
  { page_id : string; created_by : Person; last_edited : LastEdited;
    state : string }.

(** The variables of [action_set_page_label]'s scan that the loop updates. *)
Record Scan : Type :=
  { labelling_required : bool;
    triggered_lifecycle_exception : bool;
    lifecycle_exception_until : string }.

(** How the body of a loop ends: [break], or on to the next element (by
    reaching its end or by [continue]). *)
Inductive Flow : Type := Break | Next.

(** The attributes of [arguments] that [manage_pages_in_space] reads. *)
Record Args : Type :=
  { space : string; maxpages : Z; rotten : Z; stale : Z;
    readonly : bool; updatepage : bool; pageid : string }.

(** The counts [manage_pages_in_space] ends with. *)
Record Tallies : Type :=
  { fresh_pages : Z; stale_pages : Z; rotten_pages : Z;
    total_pages_managed : Z }.

(** [except (ApiError, HTTPError)] *)
Definition api_or_http (e : exn) : bool :=
  match e with
  | ApiError | HTTPError => true
  | _ => false
  end.

(** [except ParserError] *)
Definition parser_error (e : exn) : bool :=
  match e with
  | ParserError => true
  | _ => false
  end.

Section Program.

(** The two library functions that read dates, and the global
    [target_labels].  [strptime s] is [datetime.strptime] with the format
    of the program, [None] when it raises [ValueError].  [parse s] is
    [dateutil.parser.parse], for the two answers the program provides
    for: [Some d] for a date without time zone, [None] when it raises
    [ParserError].  What else the library can do on a label (an
    [OverflowError] on a number too large, a date with a time zone, whose
    comparison with the clock raises [TypeError]) is not caught by the
    program and is outside the model: the properties of the scan speak of
    labels on which the parser gives one of the two answers. *)
Variable strptime : string -> option Z.
Variable parse : string -> option Z.
Variable target_labels : list string.

Definition datetime_strptime (s : string) : M Z :=
  match strptime s with
  | Some d => ret d
  | None => raise ValueError
  end.

Definition dateutil_parse (s : string) : M Z :=
  match parse s with
  | Some d => ret d
  | None => raise ParserError
  end.

(** *** State classifier *)

Definition discover_page_state (page_id : string) (rotten_days stale_days : Z)
  : M PageState :=
  page_properties <- client.history page_id ;;
  let last_updated_clean :=
    Py.replace (when (lastUpdated page_properties)) "T" " " in
  let last_updated_cleaner := Py.replace last_updated_clean "Z" "" in
  last_update <- datetime_strptime last_updated_cleaner ;;
  now_rotten <- datetime_now ;;
  date_rotten <- minus_days now_rotten rotten_days ;;
  now_stale <- datetime_now ;;
  date_stale <- minus_days now_stale stale_days ;;
  let created_by :=
    {| person_id := accountId (createdBy page_properties);
       person_name :=
         Py.replace (publicName (createdBy page_properties))
           " (Deactivated)" "";
       person_email := email (createdBy page_properties) |} in
  let last_edited :=
    {| edited_by :=
         {| person_id := accountId (by_ (lastUpdated page_properties));
            person_name :=
              Py.replace (publicName (by_ (lastUpdated page_properties)))
                " (Deactivated)" "";
            person_email := email (by_ (lastUpdated page_properties)) |};
       when_raw := when (lastUpdated page_properties);
       edited_when := last_update |} in
  state <- index target_labels 0 ;;
  state <- (if last_update <? date_rotten then index target_labels 2
            else if last_update <? date_stale then index target_labels 1
            else ret state) ;;
  ret {| page_id := page_id; created_by := created_by;
         last_edited := last_edited; state := state |}.

(** *** Label reconciler *)

(** The loop in a loop that removes the deprecated labels. *)
Definition remove_deprecated (page_id : string) (results : list Label)
  : M unit :=
  for_each results (fun lbl =>
    let current_label := label lbl in
    for_each deprecated_labels (fun deprecated =>
      if String.eqb deprecated current_label
      then client.remove_page_label page_id current_label
      else ret tt)).

(** The first part of the scan's body: the test for a lifecycle-ignore
    label. *)
Definition check_lifecycle_ignore (current_label : string) (st : Scan)
  : M (Flow * Scan) :=
  if Py.startswith current_label lifecycle_ignore_tag then
    if negb (Py.count current_label "="%char >? 0) then
      ret (Break,
           {| labelling_required := false;
              triggered_lifecycle_exception := true;
              lifecycle_exception_until := lifecycle_exception_until st |})
    else
      let split := Py.split current_label "="%char in
      split_1 <- index split 1 ;;
      if String.eqb split_1 "" then
        ret (Break,
             {| labelling_required := false;
                triggered_lifecycle_exception := true;
                lifecycle_exception_until := lifecycle_exception_until st |})
      else
        try_except
          (parsed_date <- dateutil_parse split_1 ;;
           now <- datetime_now ;;
           again <- dateutil_parse split_1 ;;
           if negb (now >? again) then
             ret (Break,
                  {| labelling_required := false;
                     triggered_lifecycle_exception := true;
                     lifecycle_exception_until := split_1 |})
           else ret (Next, st))
          parser_error
          (ret (Next, st))
  else ret (Next, st).

(** The body of the scan for one label. *)
Definition scan_label (page_id desired_label : string)
  (undesirable_labels : list string) (existing_label : Label) (st : Scan)
  : M (Flow * Scan) :=
  let current_label := label existing_label in
  r <- check_lifecycle_ignore current_label st ;;
  match r with
  | (Break, st) => ret (Break, st)
  | (Next, st) =>
      continue <-
        (if labelling_required st && Py.mem current_label undesirable_labels
         then try_except
                (client.remove_page_label page_id current_label ;;; ret false)
                api_or_http
                (ret true)
         else ret false) ;;
      if continue : bool then ret (Next, st)
      else if labelling_required st && String.eqb current_label desired_label
      then ret (Break,
                {| labelling_required := false;
                   triggered_lifecycle_exception :=
                     triggered_lifecycle_exception st;
                   lifecycle_exception_until :=
                     lifecycle_exception_until st |})
      else ret (Next, st)
  end.

Fixpoint scan_labels (page_id desired_label : string)
  (undesirable_labels : list string) (results : list Label) (st : Scan)
  : M Scan :=
  match results with
  | [] => ret st
  | existing_label :: rest =>
      r <- scan_label page_id desired_label undesirable_labels
             existing_label st ;;
      match r with
      | (Break, st) => ret st
      | (Next, st) =>
          scan_labels page_id desired_label undesirable_labels rest st
      end
  end.

(** [action_set_page_label] once the labels of the page are fetched. *)
Definition set_page_label_from (page_id desired_label : string)
  (results : list Label) : M (bool * bool) :=
  remove_deprecated page_id results ;;;
  let undesirable_labels :=
    filter (fun x => negb (String.eqb x desired_label)) target_labels in
  st <- scan_labels page_id desired_label undesirable_labels results
          {| labelling_required := true;
             triggered_lifecycle_exception := false;
             lifecycle_exception_until := "" |} ;;
  if labelling_required st then
    try_except
      (client.set_page_label page_id desired_label ;;; ret (true, false))
      api_or_http
      (ret (false, false))
  else if triggered_lifecycle_exception st then ret (false, true)
  else ret (false, false).

(** [action_set_page_label(page_id, desired_label)]: the pair
    (change, lifecycle_trigger). *)
Definition action_set_page_label (page_id desired_label : string)
  : M (bool * bool) :=
  existing_labels <- client.get_page_labels page_id ;;
  set_page_label_from page_id desired_label existing_labels.

(** *** Run orchestrator *)

(** Lines 298 to 305: discovery, labels and the state of every page.
    The pool of workers that computes the states is run here one page
    after the other, in the order the results are collected in.  The
    states and the first failure are those of the code; the order of the
    history calls, and the calls made after a failure, are those of this
    sequential run only. *)
Definition classify_pages (arguments : Args) : M (list PageState) :=
  all_pages_in_space <-
    discover_all_pages_in_space (space arguments) (maxpages arguments) 500 ;;
  all_pages_and_labels <-
    for_list all_pages_in_space (fun i => discover_page_labels (id i)) ;;
  for_list all_pages_and_labels (fun i =>
    discover_page_state (pl_page_id i) (rotten arguments) (stale arguments)).

(** [[i for i in pages_with_states if i['state'] == target_labels[k]]] *)
Fixpoint pages_in_state (k : nat) (pages_with_states : list PageState)
  : M (list PageState) :=
  match pages_with_states with
  | [] => ret []
  | i :: rest =>
      t <- index target_labels k ;;
      kept <- pages_in_state k rest ;;
      ret (if String.eqb (state i) t then i :: kept else kept)
  end.

(** One of the three loops over a bucket, with its two counters. *)
Fixpoint reconcile_pages (k : nat) (pages : list PageState)
  (updated lifecycle_triggers : Z) : M (Z * Z) :=
  match pages with
  | [] => ret (updated, lifecycle_triggers)
  | page :: rest =>
      t <- index target_labels k ;;
      r <- action_set_page_label (page_id page) t ;;
      let '(change, lifecycle_trigger) := r in
      reconcile_pages k rest
        (if change : bool then updated + 1 else updated)
        (if lifecycle_trigger : bool then lifecycle_triggers + 1
         else lifecycle_triggers)
  end.

(** Lines 308 to 310: the three buckets, rotten, stale and fresh. *)
Definition partition_pages (pages_with_states : list PageState)
  : M (list PageState * list PageState * list PageState) :=
  all_rotten_pages <- pages_in_state 2 pages_with_states ;;
  all_stale_pages <- pages_in_state 1 pages_with_states ;;
  all_fresh_pages <- pages_in_state 0 pages_with_states ;;
  ret (all_rotten_pages, all_stale_pages, all_fresh_pages).

(** Lines 319 to 349: the three loops of the run that is not read-only,
    with the counters of each (updated, lifecycle triggers). *)
Definition reconcile_buckets
  (buckets : list PageState * list PageState * list PageState)
  : M (Z * Z * (Z * Z) * (Z * Z)) :=
  let '(all_rotten_pages, all_stale_pages, all_fresh_pages) := buckets in
  r <- reconcile_pages 2 all_rotten_pages 0 0 ;;
  s <- reconcile_pages 1 all_stale_pages 0 0 ;;
  f <- reconcile_pages 0 all_fresh_pages 0 0 ;;
  ret (r, s, f).

(** Lines 351 to 354. *)
Definition count_pages
  (buckets : list PageState * list PageState * list PageState) : Tallies :=
  let '(all_rotten_pages, all_stale_pages, all_fresh_pages) := buckets in
  let fresh_pages := Py.len all_fresh_pages in
  let stale_pages := Py.len all_stale_pages in
  let rotten_pages := Py.len all_rotten_pages in
  let total_pages_managed := fresh_pages + stale_pages + rotten_pages in
  {| fresh_pages := fresh_pages; stale_pages := stale_pages;
     rotten_pages := rotten_pages;
     total_pages_managed := total_pages_managed |}.

(** Lines 367 to 484: the chart is attached, the report page is written
    and labelled.  The rendering of the chart and of the page body is
    left out, and so are its failures; the body is stood for by the
    values put into it. *)
Definition update_report (arguments : Args) (t : Tallies)
  (counters : Z * Z * (Z * Z) * (Z * Z)) : M unit :=
  let '(r, s, f) := counters in
  client.attach_file "pie.png" (pageid arguments) ;;;
  client.update_page (pageid arguments) "Confluence Page Lifecycle Report"
    {| freshPages := fresh_pages t; stalePages := stale_pages t;
       rottenPages := rotten_pages t;
       freshPagesChanged := fst f; stalePagesChanged := fst s;
       rottenPagesChanged := fst r;
       freshPagesLifecycleTrigger := snd f;
       stalePagesLifecycleTrigger := snd s;
       rottenPagesLifecycleTrigger := snd r;
       totalPagesManaged := total_pages_managed t |} ;;;
  client.set_page_label (pageid arguments) "lifecycle_ignore".

(** [manage_pages_in_space(arguments)].  The Python function returns
    nothing; the embedding returns the four counts it has computed when
    it ends.  The counters of the loops exist only in a run that is not
    read-only. *)
Definition manage_pages_in_space (arguments : Args) : M Tallies :=
  pages_with_states <- classify_pages arguments ;;
  buckets <- partition_pages pages_with_states ;;
  counters <-
    (if negb (readonly arguments) then
       c <- reconcile_buckets buckets ;; ret (Some c)
     else ret None) ;;
  let t := count_pages buckets in
  (if negb (readonly arguments) && updatepage arguments then
     match counters with
     | Some c => update_report arguments t c
     | None => ret tt
     end
   else ret tt) ;;;
  ret t.

End Program.

(** *** Entry point *)

(** The namespace [parse_args] returns: the attributes that
    [manage_pages_in_space] reads, and the others. *)
Record Namespace : Type :=
  { run : Args;
    username : string; password : string; hostname : string;
    pagetitle : string; cloud : bool; debug : bool; info : bool;
    freshlabel : string; stalelabel : string; rottenlabel : string }.

(** [main()], from the parsed arguments on: the global [target_labels] is
    set to the three labels, fresh, stale and rotten in this order, and the
    space is managed.  The parsing of the command line and
    [configure_atlassian_client], which builds the client and makes no call
    on it, are left out. *)
Definition main (strptime parse : string -> option Z) (arguments : Namespace)
  : M Tallies :=
  let target_labels :=
    [freshlabel arguments; stalelabel arguments; rottenlabel arguments] in
  manage_pages_in_space strptime parse target_labels (run arguments).

(** ** Instances used in the examples

    A reading of dates for the two outside parsers, on the forms the
    program documents (a label [lifecycle_ignore=<YYYY><MM><DD>]) and the
    store writes ([YYYY-MM-DDTHH:MM:SS.fffZ]), and small stores. *)

Module Sample.

Definition digit (c : ascii) : option Z :=
  let n := Z.of_nat (nat_of_ascii c) in
  if (48 <=? n) && (n <=? 57) then Some (n - 48) else None.

Fixpoint number_from (acc : Z) (s : string) : option Z :=
  match s with
  | EmptyString => Some acc
  | String c s' =>
      match digit c with
      | Some d => number_from (10 * acc + d) s'
      | None => None
      end
  end.

Definition number (s : string) : option Z :=
  match s with
  | EmptyString => None
  | _ => number_from 0 s
  end.

Definition is_leap (y : Z) : bool :=
  ((y mod 4 =? 0) && negb (y mod 100 =? 0)) || (y mod 400 =? 0).

Definition days_in_month (y m : Z) : Z :=
  if m =? 2 then (if is_leap y then 29 else 28)
  else if (m =? 4) || (m =? 6) || (m =? 9) || (m =? 11) then 30 else 31.

Definition days_before_year (y : Z) : Z :=
  let p := y - 1 in p * 365 + p / 4 - p / 100 + p / 400.

Fixpoint days_before_month (y : Z) (m : nat) : Z :=
  match m with
  | O => 0
  | S k => days_before_month y k + days_in_month y (Z.of_nat (S k))
  end.

(** Midnight of a calendar day, or nothing if there is no such day. *)
Definition midnight (y m d : Z) : option Z :=
  if (1 <=? y) && (y <=? 9999) && (1 <=? m) && (m <=? 12)
     && (1 <=? d) && (d <=? days_in_month y m)
  then Some ((days_before_year y + days_before_month y (Z.to_nat (m - 1))
              + (d - 1)) * DAY)
  else None.

(** [YYYYMMDD] *)
Definition parse (s : string) : option Z :=
  if Nat.eqb (String.length s) 8 then
    match number (substring 0 4 s), number (substring 4 2 s),
          number (substring 6 2 s) with
    | Some y, Some m, Some d => midnight y m d
    | _, _, _ => None
    end
  else None.

(** [YYYY-MM-DD HH:MM:SS.fff] *)
Definition strptime (s : string) : option Z :=
  if Nat.eqb (String.length s) 23
     && String.eqb (substring 4 1 s) "-" && String.eqb (substring 7 1 s) "-"
     && String.eqb (substring 10 1 s) " " && String.eqb (substring 13 1 s) ":"
     && String.eqb (substring 16 1 s) ":" && String.eqb (substring 19 1 s) "."
  then
    match number (substring 0 4 s), number (substring 5 2 s),
          number (substring 8 2 s), number (substring 11 2 s),
          number (substring 14 2 s), number (substring 17 2 s),
          number (substring 20 3 s) with
    | Some y, Some m, Some d, Some hh, Some mm, Some ss, Some ms =>
        match midnight y m d with
        | Some day =>
            if (hh <=? 23) && (mm <=? 59) && (ss <=? 59)
            then Some (day + ((hh * 60 + mm) * 60 + ss) * 1000000 + ms * 1000)
            else None
        | None => None
        end
    | _, _, _, _, _, _, _ => None
    end
  else None.

Definition target_labels : list string :=
  ["lifecycle_phase=fresh"; "lifecycle_phase=stale"; "lifecycle_phase=rotten"].

Definition lbl (s : string) : Label :=
  {| label_prefix := "global"; label_name := s; label_id := ""; label := s |}.

Definition nobody : Account :=
  {| accountId := "0"; publicName := "A. Writer (Deactivated)";
     email := "writer@example.org" |}.

Definition edited (ts : string) : History :=
  {| createdBy := nobody; lastUpdated := {| by_ := nobody; when := ts |} |}.

Definition page (n : nat) : PageSummary :=
  {| id := String (ascii_of_nat (65 + n)) EmptyString; title := "page" |}.

(** A store whose one space lists [pages], where every page has the
    labels [labels] and was last edited at [ts]; the clock stands at
    [now], and the store answers the mutations with [faults]. *)
Definition store (pages : list PageSummary) (labels : list Label)
  (ts : string) (now : Z) (faults : nat -> option exn) : World :=
  {| space_content := fun _ => pages;
     page_labels := fun _ => labels;
     page_history := fun _ => edited ts;
     clock := fun _ => now;
     ticks := 0;
     mutation_fault := faults;
     calls := [] |}.

Definition no_fault : nat -> option exn := fun _ => None.

(** 2024-01-01T00:00:00 *)
Definition new_year_2024 : Z := 738885 * DAY.

(** A space of three pages: A was edited 27 days before 2024-01-01 and
    has its label, B 118 days before and is to be ignored, C 361 days
    before and has a deprecated label. *)
Definition library : World :=
  {| space_content := fun _ => map page (seq 0 3);
     page_labels := fun p =>
       if String.eqb p "A" then [lbl "lifecycle_phase=fresh"]
       else if String.eqb p "B" then [lbl "fresh"; lbl "lifecycle_ignore"]
       else [lbl "rotten"];
     page_history := fun p =>
       edited (if String.eqb p "A" then "2023-12-05T08:30:00.000Z"
               else if String.eqb p "B" then "2023-09-05T08:30:00.000Z"
               else "2023-01-05T08:30:00.000Z");
     clock := fun _ => new_year_2024;
     ticks := 0;
     mutation_fault := no_fault;
     calls := [] |}.

Definition arguments (readonly updatepage : bool) : Args :=
  {| space := "AA"; maxpages := 2500; rotten := 180; stale := 90;
     readonly := readonly; updatepage := updatepage; pageid := "R" |}.

End Sample.

(** More instances: runs from [main] on the library, and a library with
    a timestamp that the store wrote without a fraction of a second. *)

Module Runs.


Definition broken_library : World :=
  {| space_content := space_content Sample.library;
     page_labels := page_labels Sample.library;
     page_history := fun p =>
       if String.eqb p "B" then Sample.edited "2023-09-05T08:30:00Z"
       else page_history Sample.library p;
     clock := clock Sample.library;
     ticks := 0;
     mutation_fault := Sample.no_fault;
     calls := [] |}.

(** A page with the labels [labels], on 2024-01-01. *)
Definition labelled (labels : list string) : World :=
  Sample.store [] (map Sample.lbl labels) "2023-07-05T00:00:00.000Z"
    Sample.new_year_2024 Sample.no_fault.

End Runs.

(** ** Vocabulary of the properties *)

(** What a request for the pages of a space returns. *)
Definition served (w : World) (space : string) (start limit : Z)
  : list PageSummary :=
  firstn (Z.to_nat limit) (skipn (Z.to_nat start) (space_content w space)).

(** [extends w w' cs]: [w'] is [w] after the calls [cs] on the client; the
    clock and the faults of the store are those of [w]. *)
Definition extends (w w' : World) (cs : list Call) : Prop :=
  calls w' = (calls w ++ cs)%list /\
  mutation_fault w' = mutation_fault w /\
  clock w' = clock w /\
  space_content w' = space_content w /\
  page_history w' = page_history w.

(** The store accepts every mutation. *)
Definition no_faults (w : World) : Prop :=
  forall n, mutation_fault w n = None.

(** The removals the first loop of [action_set_page_label] asks for. *)
Definition deprecated_calls (page_id : string) (results : list Label)
  : list Call :=
  map (RemovePageLabel page_id)
    (filter (fun l => Py.mem l deprecated_labels) (map label results)).

(** A scan that a lifecycle label has stopped. *)
Definition suppressed (st : Scan) : Prop :=
  labelling_required st = false /\ triggered_lifecycle_exception st = true.


(** The two tests of the scan that take a label for "ignore forever": the
    label starts with the tag and has no [=], or nothing follows its first
    [=]. *)
Definition ignore_forever (current_label : string) : bool :=
  Py.startswith current_label lifecycle_ignore_tag &&
  (negb (Py.count current_label "="%char >? 0) ||
   match nth_error (Py.split current_label "="%char) 1 with
   | Some split_1 => String.eqb split_1 ""
   | None => false
   end).

(** The label [lifecycle_ignore=<D>]. *)
Definition ignore_until (D : string) : string :=
  lifecycle_ignore_tag ++ "=" ++ D.

(** What the scan reads as the date of [lifecycle_ignore=<D>]: its
    [split[1]], the text of [D] up to the first [=] of [D]. *)
Definition directive_value (D : string) : string :=
  hd "" (Py.split D "="%char).

(** [undesirable_labels] of [action_set_page_label]. *)
Definition undesirable (target_labels : list string) (desired_label : string)
  : list string :=
  filter (fun x => negb (String.eqb x desired_label)) target_labels.

(** The removals the scan asks for on the labels [results] it goes
    through: one for each undesirable label, in the order of the labels. *)
Definition undesirable_calls (target_labels : list string)
  (page_id desired_label : string) (results : list Label) : list Call :=
  map (RemovePageLabel page_id)
    (filter (fun l => Py.mem l (undesirable target_labels desired_label))
       (map label results)).

(** A label that does not start with the ignore tag. *)
Definition plain (x : Label) : Prop :=
  Py.startswith (label x) lifecycle_ignore_tag = false.

(** What is left of the labels when the scan has stopped: nothing, or
    labels of which the first starts with the ignore tag. *)
Definition cut_at_ignore_label (rest : list Label) : Prop :=
  match rest with
  | [] => True
  | y :: _ => Py.startswith (label y) lifecycle_ignore_tag = true
  end.

(** A label that stops the scan as suppressed, in every world with the
    clock of [w]. *)
Definition stops_scan (parse : string -> option Z) (current_label : string)
  (w : World) : Prop :=
  forall (st : Scan) (w1 : World),
    clock w1 = clock w ->
    exists st' w2,
      check_lifecycle_ignore parse current_label st w1 =
        (Ok (Break, st'), w2) /\
      extends w1 w2 [] /\ suppressed st'.


(** A label the scan has nothing to do with: neither a lifecycle-ignore
    label nor an undesirable one. *)
Definition settled (target_labels : list string) (desired_label : string)
  (x : Label) : Prop :=
  plain x /\
  Py.mem (label x) (undesirable target_labels desired_label) = false.

(** The pages in the state [t]. *)
Definition bucket (t : string) (pages_with_states : list PageState)
  : list PageState :=
  filter (fun i => String.eqb (state i) t) pages_with_states.

(** A computation that makes no mutating call. *)
Definition reads_only {A : Type} (m : M A) : Prop :=
  forall w, mutations (snd (m w)) = mutations w.

(** [arguments] with its [readonly] attribute set to [b]. *)
Definition with_readonly (arguments : Args) (b : bool) : Args :=
  {| space := space arguments; maxpages := maxpages arguments;
     rotten := rotten arguments; stale := stale arguments;
     readonly := b; updatepage := updatepage arguments;
     pageid := pageid arguments |}.

(** What a computation does to the world [w] it starts in: the calls it
    makes all satisfy [P]; it leaves the faults of the store, the content
    of the spaces and the histories of the pages as they are; and an
    exception that leaves it is in [E] or is a fault of the store. *)
Definition confined_at {A : Type} (P : Call -> Prop) (E : exn -> Prop)
  (m : M A) (w : World) : Prop :=
  (exists cs, calls (snd (m w)) = (calls w ++ cs)%list /\ Forall P cs) /\
  mutation_fault (snd (m w)) = mutation_fault w /\
  space_content (snd (m w)) = space_content w /\
  page_history (snd (m w)) = page_history w /\
  (forall e, fst (m w) = Raise e ->
             E e \/ exists n, mutation_fault w n = Some e).

Definition confined {A : Type} (P : Call -> Prop) (E : exn -> Prop)
  (m : M A) : Prop :=
  forall w, confined_at P E m w.

(** A computation that makes no call when it returns. *)
Definition quiet {A : Type} (m : M A) : Prop :=
  forall w a w', m w = (Ok a, w') -> calls w' = calls w.

(** A computation that does not read the clock. *)
Definition keeps_clock {A : Type} (m : M A) : Prop :=
  forall w, ticks (snd (m w)) = ticks w /\ clock (snd (m w)) = clock w.

(** A call that reads the labels of a page or removes a label. *)
Definition fetch_or_removal (c : Call) : Prop :=
  match c with
  | GetPageLabels _ | RemovePageLabel _ _ => True
  | _ => False
  end.

(** No exception. *)
Definition never : exn -> Prop := fun _ => False.

(** The exceptions of the classification: a timestamp that does not read,
    a threshold date out of range. *)
Definition classification_error (e : exn) : Prop :=
  e = ValueError \/ e = OverflowError.

(** The calls [action_set_page_label(page_id, desired_label)] may make. *)
Definition label_call (target_labels : list string)
  (page_id desired_label : string) (c : Call) : Prop :=
  match c with
  | GetPageLabels p => p = page_id
  | RemovePageLabel p l =>
      p = page_id /\
      (In l deprecated_labels \/
       In l (undesirable target_labels desired_label))
  | SetPageLabel p l => p = page_id /\ l = desired_label
  | _ => False
  end.

(** The calls a run of [manage_pages_in_space(arguments)] may make, [ids]
    being the identifiers of the pages of the space. *)
Definition run_call (target_labels : list string) (arguments : Args)
  (ids : list string) (c : Call) : Prop :=
  match c with
  | GetAllPagesFromSpace s _ _ => s = space arguments
  | GetPageLabels p | GetHistory p => In p ids
  | RemovePageLabel p l =>
      readonly arguments = false /\ In p ids /\
      (In l deprecated_labels \/ In l target_labels)
  | SetPageLabel p l =>
      readonly arguments = false /\
      ((In p ids /\ In l target_labels) \/
       (updatepage arguments = true /\ p = pageid arguments /\
        l = "lifecycle_ignore"))
  | AttachFile f p =>
      readonly arguments = false /\ updatepage arguments = true /\
      f = "pie.png" /\ p = pageid arguments
  | UpdatePage p t _ =>
      readonly arguments = false /\ updatepage arguments = true /\
      p = pageid arguments /\ t = "Confluence Page Lifecycle Report"
  end.

(** The timestamp of a page as [discover_page_state] hands it to
    [strptime]. *)
Definition cleaned_timestamp (w : World) (page_id : string) : string :=
  Py.replace (Py.replace (when (lastUpdated (page_history w page_id)))
                "T" " ") "Z" "".

(** * Properties *)

(** ** The state classifier *)

Lemma minus_days_in_range (d n : Z) (w : World) :
  0 <= d - n * DAY <= DATETIME_MAX ->
  minus_days d n w = (Ok (d - n * DAY), w).
Proof.
  intros [Hlo Hhi]. unfold minus_days.
  apply Z.leb_le in Hlo. apply Z.leb_le in Hhi.
  now rewrite Hlo, Hhi.
Qed.

(** What [discover_page_state] computes when the timestamp of the page
    reads as [last_update] and both threshold dates are in range: the phase
    is decided by two strict comparisons of [last_update], first with the
    rotten date, then with the stale date. *)
Lemma discover_page_state_eq strptime fresh stale rotten
  (page_id : string) (rotten_days stale_days last_update : Z) (w : World) :
  let now_rotten := clock w (ticks w) in
  let now_stale := clock w (S (ticks w)) in
  strptime
    (Py.replace (Py.replace (when (lastUpdated (page_history w page_id)))
                   "T" " ") "Z" "") = Some last_update ->
  0 <= now_rotten - rotten_days * DAY <= DATETIME_MAX ->
  0 <= now_stale - stale_days * DAY <= DATETIME_MAX ->
  exists ps,
    fst (discover_page_state strptime [fresh; stale; rotten]
           page_id rotten_days stale_days w) = Ok ps /\
    edited_when (last_edited ps) = last_update /\
    state ps =
      if last_update <? now_rotten - rotten_days * DAY then rotten
      else if last_update <? now_stale - stale_days * DAY then stale
      else fresh.
Proof.
  intros now_rotten now_stale Hts Hr Hs.
  unfold discover_page_state, bind, client.history, datetime_strptime,
    datetime_now.
  cbn [fst snd]. rewrite Hts. unfold ret at 1.
  change (clock (record (GetHistory page_id) w)
            (ticks (record (GetHistory page_id) w))) with now_rotten.
  rewrite (minus_days_in_range _ _ _ Hr).
  change (clock (tick (record (GetHistory page_id) w))
            (ticks (tick (record (GetHistory page_id) w)))) with now_stale.
  rewrite (minus_days_in_range _ _ _ Hs).
  unfold index; cbn [nth_error]. unfold ret at 1.
  destruct (last_update <? now_rotten - rotten_days * DAY);
    [| destruct (last_update <? now_stale - stale_days * DAY)];
    unfold ret; cbn; eexists; (split; [reflexivity | split; reflexivity]).
Qed.

(** C1, as the code has it.  With the age of the page measured at the clock
    reading each threshold date is computed from: an age above
    [rotten_days] gives rotten; otherwise an age above [stale_days] gives
    stale; otherwise the page is fresh.  Both comparisons are strict, so an
    age of exactly [rotten_days] is not rotten, and an age of exactly
    [stale_days] is fresh. *)
Theorem discover_page_state_phase strptime fresh stale rotten
  (page_id : string) (rotten_days stale_days last_update : Z) (w : World) :
  let age_rotten := clock w (ticks w) - last_update in
  let age_stale := clock w (S (ticks w)) - last_update in
  strptime
    (Py.replace (Py.replace (when (lastUpdated (page_history w page_id)))
                   "T" " ") "Z" "") = Some last_update ->
  0 <= clock w (ticks w) - rotten_days * DAY <= DATETIME_MAX ->
  0 <= clock w (S (ticks w)) - stale_days * DAY <= DATETIME_MAX ->
  exists ps,
    fst (discover_page_state strptime [fresh; stale; rotten]
           page_id rotten_days stale_days w) = Ok ps /\
    (rotten_days * DAY < age_rotten -> state ps = rotten) /\
    (age_rotten <= rotten_days * DAY -> stale_days * DAY < age_stale ->
     state ps = stale) /\
    (age_rotten <= rotten_days * DAY -> age_stale <= stale_days * DAY ->
     state ps = fresh).
Proof.
  intros age_rotten age_stale Hts Hr Hs.
  destruct (discover_page_state_eq strptime fresh stale rotten page_id
              rotten_days stale_days last_update w Hts Hr Hs)
    as (ps & Hrun & _ & Hstate).
  exists ps. split; [exact Hrun |].
  subst age_rotten age_stale.
  repeat split; intros; rewrite Hstate.
  - destruct (Z.ltb_spec last_update (clock w (ticks w) - rotten_days * DAY));
      [reflexivity | lia].
  - destruct (Z.ltb_spec last_update (clock w (ticks w) - rotten_days * DAY));
      [lia |].
    destruct (Z.ltb_spec last_update (clock w (S (ticks w)) - stale_days * DAY));
      [reflexivity | lia].
  - destruct (Z.ltb_spec last_update (clock w (ticks w) - rotten_days * DAY));
      [lia |].
    destruct (Z.ltb_spec last_update (clock w (S (ticks w)) - stale_days * DAY));
      [lia | reflexivity].
Qed.

(** A page last edited on 2023-07-05, classified on 2024-01-01 with the
    thresholds 180 and 90: its age is 180 days. *)
Lemma discover_page_state_phase_witness :
  exists ps,
    fst (discover_page_state Sample.strptime Sample.target_labels "A" 180 90
           (Sample.store [] [] "2023-07-05T00:00:00.000Z"
              Sample.new_year_2024 Sample.no_fault)) = Ok ps /\
    (180 * DAY < Sample.new_year_2024 - 63824112000000000 ->
     state ps = "lifecycle_phase=rotten") /\
    (Sample.new_year_2024 - 63824112000000000 <= 180 * DAY ->
     90 * DAY < Sample.new_year_2024 - 63824112000000000 ->
     state ps = "lifecycle_phase=stale") /\
    (Sample.new_year_2024 - 63824112000000000 <= 180 * DAY ->
     Sample.new_year_2024 - 63824112000000000 <= 90 * DAY ->
     state ps = "lifecycle_phase=fresh").
Proof.
  apply (discover_page_state_phase Sample.strptime
           "lifecycle_phase=fresh" "lifecycle_phase=stale"
           "lifecycle_phase=rotten" "A" 180 90 63824112000000000
           (Sample.store [] [] "2023-07-05T00:00:00.000Z"
              Sample.new_year_2024 Sample.no_fault)).
  - vm_compute. reflexivity.
  - vm_compute. split; discriminate.
  - vm_compute. split; discriminate.
Defined.

(** The same with one reading of the clock for both threshold dates, and
    [stale_days] not above [rotten_days]: the three ranges of the age. *)
Lemma discover_page_state_phase_one_clock strptime fresh stale rotten
  (page_id : string) (rotten_days stale_days last_update now : Z) (w : World) :
  let age := now - last_update in
  clock w (ticks w) = now ->
  clock w (S (ticks w)) = now ->
  stale_days <= rotten_days ->
  strptime
    (Py.replace (Py.replace (when (lastUpdated (page_history w page_id)))
                   "T" " ") "Z" "") = Some last_update ->
  0 <= now - rotten_days * DAY <= DATETIME_MAX ->
  0 <= now - stale_days * DAY <= DATETIME_MAX ->
  exists ps,
    fst (discover_page_state strptime [fresh; stale; rotten]
           page_id rotten_days stale_days w) = Ok ps /\
    (age <= stale_days * DAY -> state ps = fresh) /\
    (stale_days * DAY < age <= rotten_days * DAY -> state ps = stale) /\
    (rotten_days * DAY < age -> state ps = rotten).
Proof.
  intros age Hn1 Hn2 Hsr Hts Hr Hs. rewrite <- Hn1 in Hr. rewrite <- Hn2 in Hs.
  destruct (discover_page_state_eq strptime fresh stale rotten page_id
              rotten_days stale_days last_update w Hts Hr Hs)
    as (ps & Hrun & _ & Hstate).
  exists ps. split; [exact Hrun |].
  rewrite Hn1, Hn2 in Hstate. subst age.
  unfold DAY in *.
  repeat split; intros; rewrite Hstate;
    destruct (Z.ltb_spec last_update (now - rotten_days * 86400000000));
    destruct (Z.ltb_spec last_update (now - stale_days * 86400000000));
    try reflexivity; lia.
Qed.

(** Against C1 as the specification words it: at an age of exactly
    [rotten_days] (180 days) the page is stale, not rotten, and at an age of
    exactly [stale_days] (90 days) it is fresh, not stale. *)
Lemma discover_page_state_boundary_counterexample :
  (exists ps,
     fst (discover_page_state Sample.strptime Sample.target_labels "A" 180 90
            (Sample.store [] [] "2023-07-05T00:00:00.000Z"
               Sample.new_year_2024 Sample.no_fault)) = Ok ps /\
     Sample.new_year_2024 - edited_when (last_edited ps) = 180 * DAY /\
     state ps = "lifecycle_phase=stale" /\
     state ps <> "lifecycle_phase=rotten") /\
  (exists ps,
     fst (discover_page_state Sample.strptime Sample.target_labels "A" 180 90
            (Sample.store [] [] "2023-10-03T00:00:00.000Z"
               Sample.new_year_2024 Sample.no_fault)) = Ok ps /\
     Sample.new_year_2024 - edited_when (last_edited ps) = 90 * DAY /\
     state ps = "lifecycle_phase=fresh" /\
     state ps <> "lifecycle_phase=stale").
Proof.
  split; eexists; (split; [vm_compute; reflexivity |]);
    cbn [state last_edited edited_when];
    (split; [vm_compute; reflexivity | split; [reflexivity | discriminate]]).
Qed.

(** ** Page discovery *)


Lemma get_all_pages_from_space_eq (space : string) (start limit : Z) (w : World) :
  client.get_all_pages_from_space space start limit w =
  (Ok (served w space start limit),
   record (GetAllPagesFromSpace space start limit) w).
Proof. reflexivity. Qed.

Lemma discover_loop_step (fuel : nat) (space : string)
  (max limit start count : Z) (pages : list PageSummary) (w : World) :
  discover_loop (S fuel) space max limit start count pages w =
  if count <? max then
    if Py.len (served w space start limit) =? 0
    then (Ok pages, record (GetAllPagesFromSpace space start limit) w)
    else discover_loop fuel space max limit (start + limit)
           (Py.len (served w space start limit))
           (pages ++ served w space start limit)
           (record (GetAllPagesFromSpace space start limit) w)
  else (Ok pages, w).
Proof.
  cbn [discover_loop]. destruct (count <? max); [| reflexivity].
  unfold bind. rewrite get_all_pages_from_space_eq.
  destruct (Py.len (served w space start limit) =? 0); reflexivity.
Qed.

(** Early termination: a request that returns nothing ends the loop, and
    the pages found so far are the result. *)
Lemma discover_loop_stops_on_empty (fuel : nat) (space : string)
  (max limit start count : Z) (pages : list PageSummary) (w : World) :
  count < max ->
  served w space start limit = [] ->
  discover_loop (S fuel) space max limit start count pages w =
  (Ok pages, record (GetAllPagesFromSpace space start limit) w).
Proof.
  intros Hc He. rewrite discover_loop_step, He.
  apply Z.ltb_lt in Hc. now rewrite Hc.
Qed.

Lemma served_nonempty (w : World) (space : string) (start limit : Z) :
  served w space start limit <> [] ->
  1 <= limit /\
  (Z.to_nat start < List.length (space_content w space))%nat.
Proof.
  unfold served. intros Hne. split.
  - destruct (Z.to_nat limit) eqn:E; [now cbn in Hne | lia].
  - destruct (Nat.lt_ge_cases (Z.to_nat start)
                (List.length (space_content w space))) as [Hlt | Hge];
      [exact Hlt |].
    rewrite (skipn_all2 _ Hge), firstn_nil in Hne. now elim Hne.
Qed.

Lemma len_zero {A : Type} (l : list A) : (Py.len l =? 0) = true <-> l = [].
Proof.
  unfold Py.len. rewrite Z.eqb_eq. destruct l; cbn; split; intros H;
    try reflexivity; try discriminate; lia.
Qed.

(** The loop ends before its bound runs out: every request that returns a
    page moves the offset on by at least one. *)
Lemma discover_loop_progress (space : string) (max limit : Z) (fuel : nat) :
  forall (start count : Z) (pages : list PageSummary) (w : World),
    0 <= start ->
    (Z.to_nat (Z.of_nat (List.length (space_content w space)) - start) + 2
     <= fuel)%nat ->
    exists found w',
      discover_loop fuel space max limit start count pages w = (Ok found, w').
Proof.
  induction fuel as [| fuel IH]; intros start count pages w Hs Hf; [lia |].
  rewrite discover_loop_step.
  destruct (count <? max); [| now eauto].
  destruct (Py.len (served w space start limit) =? 0) eqn:E; [now eauto |].
  assert (Hne : served w space start limit <> []).
  { intros He. apply len_zero in He. congruence. }
  destruct (served_nonempty _ _ _ _ Hne) as [Hl Hlt].
  apply IH; [lia |]. cbn. lia.
Qed.

(** [discover_all_pages_in_space] always returns a list of pages. *)
Lemma discover_all_pages_in_space_progress (space : string) (max limit : Z)
  (w : World) :
  exists found w',
    discover_all_pages_in_space space max limit w = (Ok found, w').
Proof.
  unfold discover_all_pages_in_space.
  apply discover_loop_progress; lia.
Qed.

(** When the limit of a request is not below the maximum, at most [max]
    pages are returned. *)
Lemma discover_all_pages_in_space_clamped (space : string) (max limit : Z)
  (w : World) (found : list PageSummary) (w' : World) :
  max <= limit ->
  discover_all_pages_in_space space max limit w = (Ok found, w') ->
  Py.len found <= Z.max 0 max.
Proof.
  intros Hml. unfold discover_all_pages_in_space.
  replace (if limit >? max then max else limit) with max
    by (destruct (Z.gtb_spec limit max); lia).
  rewrite discover_loop_step.
  destruct (Z.ltb_spec 0 max) as [Hpos | Hnpos].
  2:{ intros [= <- _]. unfold Py.len; cbn; lia. }
  destruct (Py.len (served w space 0 max) =? 0) eqn:E.
  { intros [= <- _]. unfold Py.len; cbn; lia. }
  cbn [app Z.add].
  set (first := served w space 0 max).
  set (w1 := record (GetAllPagesFromSpace space 0 max) w).
  assert (Hfirst : Py.len first <= max).
  { subst first. unfold served, Py.len. rewrite length_firstn. lia. }
  destruct (List.length (space_content w space)) as [| n] eqn:En.
  { (* no page at all: the first request cannot have returned one *)
    exfalso. apply length_zero_iff_nil in En.
    subst first. unfold served in E. rewrite En in E.
    rewrite skipn_nil, firstn_nil in E. now cbn in E. }
  rewrite discover_loop_step.
  destruct (Z.ltb_spec (Py.len first) max) as [Hshort | Hfull].
  2:{ intros [= <- _]. lia. }
  assert (Hend : served w1 space max max = []).
  { unfold served. subst w1; cbn [record with_calls space_content].
    subst first. unfold served, Py.len in Hshort.
    rewrite length_firstn, skipn_O in Hshort.
    rewrite skipn_all2 by lia. apply firstn_nil. }
  rewrite Hend. cbn. intros [= <- _]. lia.
Qed.

(** C2, on the code.  With [max = 2] and [limit = 1] on a space of three
    pages the loop compares the size of the last answer, 1, with [max] and
    goes on until an answer is empty: four requests are made and three
    pages are returned, one more than [max]. *)
Theorem discover_all_pages_in_space_exceeds_max :
  let w := Sample.store (map Sample.page (seq 0 3)) []
             "2023-07-05T00:00:00.000Z" Sample.new_year_2024 Sample.no_fault in
  exists found w',
    discover_all_pages_in_space "AA" 2 1 w = (Ok found, w') /\
    found = map Sample.page (seq 0 3) /\
    2 < Py.len found /\
    calls w' = [GetAllPagesFromSpace "AA" 0 1; GetAllPagesFromSpace "AA" 1 1;
                GetAllPagesFromSpace "AA" 2 1; GetAllPagesFromSpace "AA" 3 1].
Proof.
  cbv zeta. eexists. eexists.
  split; [vm_compute; reflexivity |].
  split; [reflexivity |]. split; [vm_compute; reflexivity | reflexivity].
Qed.

(** A space with fewer pages than the maximum, requested with a limit above
    the maximum: the limit is clamped to [max], the first request returns
    every page, and a second request, from offset [max], returns nothing
    and ends the loop. *)
Lemma discover_all_pages_in_space_small_space (space : string) (max limit : Z)
  (w : World) :
  max < limit ->
  (0 < List.length (space_content w space))%nat ->
  Py.len (space_content w space) < max ->
  discover_all_pages_in_space space max limit w =
  (Ok (space_content w space),
   with_calls w (calls w ++ [GetAllPagesFromSpace space 0 max;
                             GetAllPagesFromSpace space max max])).
Proof.
  intros Hlim Hpos Hsmall. unfold Py.len in Hsmall.
  unfold discover_all_pages_in_space.
  replace (if limit >? max then max else limit) with max
    by (destruct (Z.gtb_spec limit max); lia).
  rewrite discover_loop_step.
  replace (0 <? max) with true by (symmetry; apply Z.ltb_lt; lia).
  assert (Hfirst : served w space 0 max = space_content w space).
  { unfold served. rewrite skipn_O. apply firstn_all2. lia. }
  rewrite Hfirst.
  replace (Py.len (space_content w space) =? 0) with false
    by (symmetry; apply Z.eqb_neq; unfold Py.len; lia).
  destruct (List.length (space_content w space)) as [| n] eqn:En; [lia |].
  rewrite discover_loop_stops_on_empty.
  - cbn [app Z.add]. unfold record, with_calls; cbn.
    now rewrite <- app_assoc.
  - unfold Py.len. lia.
  - unfold served. cbn [record with_calls space_content].
    rewrite skipn_all2 by lia. apply firstn_nil.
Qed.

(** C3, as the code has it.  Called with [max = 50] and [limit = 500] on a
    space of 30 pages, [discover_all_pages_in_space] requests with the
    limit 50, returns exactly the 30 pages of the space, and makes two
    requests: the second one, from offset 50, returns nothing. *)
Theorem discover_all_pages_in_space_clamps (space : string) (w : World) :
  List.length (space_content w space) = 30%nat ->
  exists w',
    discover_all_pages_in_space space 50 500 w =
      (Ok (space_content w space), w') /\
    Py.len (space_content w space) = 30 /\
    calls w' = (calls w ++ [GetAllPagesFromSpace space 0 50;
                            GetAllPagesFromSpace space 50 50])%list.
Proof.
  intros H30. eexists. split; [| split].
  - apply discover_all_pages_in_space_small_space;
      unfold Py.len; rewrite ?H30; lia.
  - unfold Py.len. now rewrite H30.
  - reflexivity.
Qed.

Lemma discover_all_pages_in_space_clamps_witness :
  let w := Sample.store (map Sample.page (seq 0 30)) []
             "2023-07-05T00:00:00.000Z" Sample.new_year_2024 Sample.no_fault in
  exists w',
    discover_all_pages_in_space "AA" 50 500 w =
      (Ok (space_content w "AA"), w') /\
    Py.len (space_content w "AA") = 30 /\
    calls w' = (calls w ++ [GetAllPagesFromSpace "AA" 0 50;
                            GetAllPagesFromSpace "AA" 50 50])%list.
Proof.
  apply (discover_all_pages_in_space_clamps "AA"
           (Sample.store (map Sample.page (seq 0 30)) []
              "2023-07-05T00:00:00.000Z" Sample.new_year_2024 Sample.no_fault)).
  reflexivity.
Defined.

(** Against C3 as the specification words it: on the space of 30 pages the
    run makes two requests, not one. *)
Lemma discover_all_pages_in_space_calls_counterexample :
  let w := Sample.store (map Sample.page (seq 0 30)) []
             "2023-07-05T00:00:00.000Z" Sample.new_year_2024 Sample.no_fault in
  List.length (space_content w "AA") = 30%nat /\
  List.length (calls (snd (discover_all_pages_in_space "AA" 50 500 w))) = 2%nat /\
  List.length (calls (snd (discover_all_pages_in_space "AA" 50 500 w))) <> 1%nat.
Proof.
  cbv zeta. split; [reflexivity |].
  split; [vm_compute; reflexivity | vm_compute; discriminate].
Qed.

(** ** Worlds along a run *)


Lemma extends_refl (w : World) : extends w w [].
Proof. unfold extends. now rewrite app_nil_r. Qed.

Lemma extends_trans (w1 w2 w3 : World) (cs1 cs2 : list Call) :
  extends w1 w2 cs1 -> extends w2 w3 cs2 -> extends w1 w3 (cs1 ++ cs2).
Proof.
  unfold extends.
  intros (Hc1 & Hf1 & Hk1 & Hs1 & Hh1) (Hc2 & Hf2 & Hk2 & Hs2 & Hh2).
  rewrite Hc2, Hc1, app_assoc. repeat split; congruence.
Qed.

Lemma extends_tick (w : World) : extends w (tick w) [].
Proof. unfold extends; cbn. now rewrite app_nil_r. Qed.

Lemma extends_record (c : Call) (w : World) : extends w (record c w) [c].
Proof. unfold extends; cbn. repeat split. Qed.

Lemma extends_no_faults (w w' : World) (cs : list Call) :
  extends w w' cs -> no_faults w -> no_faults w'.
Proof. intros (_ & Hf & _) H n. rewrite Hf. apply H. Qed.

Create HintDb world.
#[local] Hint Resolve extends_refl extends_tick extends_record : world.

(** A mutation the store accepts. *)
Lemma mutate_accepted (c : Call) (effect : World -> World) (w : World) :
  mutation_fault w (List.length (calls w)) = None ->
  client.mutate c effect w = (Ok tt, effect (record c w)).
Proof. unfold client.mutate. now intros ->. Qed.

(** A mutation the store refuses. *)
Lemma mutate_refused (c : Call) (effect : World -> World) (w : World) (e : exn) :
  mutation_fault w (List.length (calls w)) = Some e ->
  client.mutate c effect w = (Raise e, record c w).
Proof. unfold client.mutate. now intros ->. Qed.

Lemma remove_page_label_accepted (page_id lbl : string) (w : World) :
  no_faults w ->
  exists w',
    client.remove_page_label page_id lbl w = (Ok tt, w') /\
    extends w w' [RemovePageLabel page_id lbl].
Proof.
  intros H. unfold client.remove_page_label.
  rewrite mutate_accepted by apply H.
  eexists. split; [reflexivity |]. unfold extends; cbn. repeat split.
Qed.

(** ** Strings of labels *)

Lemma split_nonempty (s : string) (c : ascii) : Py.split s c <> [].
Proof.
  destruct s as [| a s]; cbn; [discriminate |].
  destruct (Ascii.eqb a c); [discriminate |].
  destruct (Py.split s c); discriminate.
Qed.

(** A string with a separator in it splits in two parts at least. *)
Lemma split_second (s : string) (c : ascii) :
  0 < Py.count s c -> exists x, nth_error (Py.split s c) 1 = Some x.
Proof.
  induction s as [| a s IH]; cbn [Py.count Py.split]; [lia |].
  destruct (Ascii.eqb a c).
  - intros _. destruct (Py.split s c) as [| h t] eqn:E.
    + now apply split_nonempty in E.
    + now exists h.
  - intros H. destruct IH as [x Hx]; [lia |].
    destruct (Py.split s c) as [| h t]; [discriminate |].
    now exists x.
Qed.

Lemma count_nonneg (s : string) (c : ascii) : 0 <= Py.count s c.
Proof.
  induction s as [| a s IH]; cbn; [lia |]. destruct (Ascii.eqb a c); lia.
Qed.

(** The deprecated labels do not start with the ignore tag. *)
Lemma deprecated_not_ignore (l : string) :
  Py.mem l deprecated_labels = true ->
  Py.startswith l lifecycle_ignore_tag = false.
Proof.
  unfold Py.mem, deprecated_labels. cbn [existsb].
  rewrite !orb_true_iff, !String.eqb_eq.
  intros [-> | [-> | [-> | H]]]; [reflexivity .. | discriminate].
Qed.

(** ** The label reconciler *)



Lemma mem_In (x : string) (l : list string) : Py.mem x l = true <-> In x l.
Proof.
  unfold Py.mem. rewrite existsb_exists. split.
  - intros (y & Hy & E). apply String.eqb_eq in E. now subst.
  - intros H. exists x. split; [exact H | apply String.eqb_refl].
Qed.

Section Reconciler.

Variable parse : string -> option Z.
Variable target_labels : list string.
Variable page_id : string.
Variable desired_label : string.

Let undesirable_labels : list string :=
  filter (fun x => negb (String.eqb x desired_label)) target_labels.

(** The inner loop over [deprecated_labels], for one label of the page. *)
Lemma remove_deprecated_one (current_label : string) (w : World) :
  no_faults w ->
  exists w',
    for_each deprecated_labels (fun deprecated =>
      if String.eqb deprecated current_label
      then client.remove_page_label page_id current_label
      else ret tt) w = (Ok tt, w') /\
    extends w w'
      (if Py.mem current_label deprecated_labels
       then [RemovePageLabel page_id current_label] else []).
Proof.
  intros Hnf. unfold deprecated_labels, Py.mem.
  cbn [for_each existsb]. unfold bind.
  rewrite !(String.eqb_sym current_label).
  destruct (String.eqb_spec "fresh" current_label) as [<- | _].
  { destruct (remove_page_label_accepted page_id "fresh" w Hnf)
      as (w' & -> & Hext).
    cbn. exists w'. now split. }
  cbn [ret orb].
  destruct (String.eqb_spec "stale" current_label) as [<- | _].
  { destruct (remove_page_label_accepted page_id "stale" w Hnf)
      as (w' & -> & Hext).
    cbn. exists w'. now split. }
  cbn [ret orb].
  destruct (String.eqb_spec "rotten" current_label) as [<- | _].
  { destruct (remove_page_label_accepted page_id "rotten" w Hnf)
      as (w' & -> & Hext).
    cbn. exists w'. now split. }
  cbn. exists w. split; [reflexivity | apply extends_refl].
Qed.

(** The first loop removes every deprecated label of the page, in the
    order of the labels, when the store accepts the removals. *)
Lemma remove_deprecated_accepted (results : list Label) :
  forall w : World,
    no_faults w ->
    exists w',
      remove_deprecated page_id results w = (Ok tt, w') /\
      extends w w' (deprecated_calls page_id results).
Proof.
  unfold remove_deprecated, deprecated_calls.
  induction results as [| x rest IH]; intros w Hnf.
  - exists w. split; [reflexivity | apply extends_refl].
  - cbn [for_each map filter]. unfold bind at 1.
    destruct (remove_deprecated_one (label x) w Hnf) as (w1 & -> & H1).
    destruct (IH w1 (extends_no_faults _ _ _ H1 Hnf)) as (w2 & -> & H2).
    exists w2. split; [reflexivity |].
    pose proof (extends_trans _ _ _ _ _ H1 H2) as H.
    destruct (Py.mem (label x) deprecated_labels); exact H.
Qed.

(** The test for a lifecycle-ignore label never raises: it stops the
    scan as suppressed, or leaves the scan as it was. *)
Lemma check_lifecycle_ignore_cases (current_label : string) (st : Scan)
  (w : World) :
  exists fl st' w',
    check_lifecycle_ignore parse current_label st w = (Ok (fl, st'), w') /\
    extends w w' [] /\
    ((fl = Next /\ st' = st) \/ (fl = Break /\ suppressed st')).
Proof.
  unfold check_lifecycle_ignore, suppressed.
  destruct (Py.startswith current_label lifecycle_ignore_tag).
  2:{ exists Next, st, w. auto with world. }
  destruct (Z.gtb_spec (Py.count current_label "="%char) 0) as [Hc | Hc];
    cbn [negb].
  2:{ do 3 eexists. split; [reflexivity |]. auto with world. }
  destruct (split_second current_label "="%char) as [s1 Hs1]; [lia |].
  unfold bind at 1, index. rewrite Hs1. unfold ret at 1.
  destruct (String.eqb s1 "").
  { do 3 eexists. split; [reflexivity |]. auto with world. }
  unfold try_except, bind, dateutil_parse, datetime_now.
  destruct (parse s1) as [d |]; cbn.
  - destruct (clock w (ticks w) >? d); cbn;
      do 3 eexists; (split; [reflexivity |]); auto with world.
  - exists Next, st, w. auto with world.
Qed.




(** The same two lemmas with the calls of the scan in full: a label that
    is let through is removed exactly when it is undesirable, and only a
    label that starts with the ignore tag stops the scan. *)
Lemma scan_label_other_calls (x : Label) (st : Scan) (w : World) :
  labelling_required st = true ->
  no_faults w ->
  label x <> desired_label ->
  exists fl st' w',
    scan_label parse page_id desired_label undesirable_labels x st w =
      (Ok (fl, st'), w') /\
    ((fl = Next /\ st' = st /\
      extends w w'
        (if Py.mem (label x) undesirable_labels
         then [RemovePageLabel page_id (label x)] else [])) \/
     (fl = Break /\ suppressed st' /\ extends w w' [] /\
      Py.startswith (label x) lifecycle_ignore_tag = true)).
Proof.
  intros Hreq Hnf Hneq. unfold scan_label, bind at 1.
  destruct (check_lifecycle_ignore_cases (label x) st w)
    as (fl & st' & w1 & Hchk & H1 & [[-> ->] | [-> Hsup]]).
  2:{ rewrite Hchk. exists Break, st', w1. split; [reflexivity |]. right.
      split; [reflexivity |]. split; [exact Hsup |]. split; [exact H1 |].
      destruct (Py.startswith (label x) lifecycle_ignore_tag) eqn:Hs;
        [reflexivity |].
      unfold check_lifecycle_ignore in Hchk. rewrite Hs in Hchk.
      discriminate Hchk. }
  rewrite Hchk, Hreq. cbn [andb].
  apply String.eqb_neq in Hneq. rewrite Hneq.
  destruct (Py.mem (label x) undesirable_labels) eqn:Hmem.
  - destruct (remove_page_label_accepted page_id (label x) w1
                (extends_no_faults _ _ _ H1 Hnf)) as (w2 & Hrm & H2).
    unfold bind, try_except. rewrite Hrm. cbn.
    exists Next, st, w2. split; [reflexivity |]. left.
    split; [reflexivity |]. split; [reflexivity |].
    exact (extends_trans _ _ _ _ _ H1 H2).
  - unfold bind. cbn.
    exists Next, st, w1. split; [reflexivity |]. left. auto.
Qed.

Lemma scan_labels_reaches_calls (before : list Label) (d : Label)
  (after : list Label) (st : Scan) :
  forall w : World,
    labelling_required st = true ->
    no_faults w ->
    ~ In desired_label (map label before) ->
    stops_scan parse (label d) w ->
    exists st' w' scanned rest,
      scan_labels parse page_id desired_label undesirable_labels
        (before ++ d :: after) st w = (Ok st', w') /\
      suppressed st' /\
      before = (scanned ++ rest)%list /\
      cut_at_ignore_label rest /\
      extends w w'
        (map (RemovePageLabel page_id)
           (filter (fun l => Py.mem l undesirable_labels)
              (map label scanned))).
Proof.
  induction before as [| x before IH]; intros w Hreq Hnf Hnot Hstop.
  - cbn [app scan_labels]. unfold bind at 1, scan_label, bind at 1.
    destruct (Hstop st w eq_refl) as (st' & w' & -> & Hext & Hsup).
    exists st', w', [], []. split; [reflexivity |].
    split; [exact Hsup |]. split; [reflexivity |].
    split; [exact I | exact Hext].
  - cbn [app scan_labels map In] in *. unfold bind at 1.
    destruct (scan_label_other_calls x st w Hreq Hnf) as
      (fl & st' & w1 & -> &
         [(-> & -> & H1) | (-> & Hsup & H1 & Hs)]).
    { intros E. apply Hnot. now left. }
    + destruct (IH w1 Hreq (extends_no_faults _ _ _ H1 Hnf))
        as (st2 & w2 & scanned & rest & -> & Hsup & Hb & Hcut & H2).
      { intros Hin. apply Hnot. now right. }
      { intros st0 w0 Hclk. apply Hstop.
        destruct H1 as (_ & _ & Hc & _). congruence. }
      exists st2, w2, (x :: scanned), rest. split; [reflexivity |].
      split; [exact Hsup |]. split; [now rewrite Hb |].
      split; [exact Hcut |].
      pose proof (extends_trans _ _ _ _ _ H1 H2) as H12.
      cbn [map filter].
      destruct (Py.mem (label x) undesirable_labels); exact H12.
    + exists st', w1, [], (x :: before). split; [reflexivity |].
      split; [exact Hsup |]. split; [reflexivity |].
      split; [exact Hs | exact H1].
Qed.

End Reconciler.

(** ** Lifecycle-ignore labels *)


Lemma split_no_separator (s : string) (c : ascii) :
  Py.count s c = 0 -> Py.split s c = [s].
Proof.
  induction s as [| a s IH]; cbn [Py.count Py.split]; [reflexivity |].
  pose proof (count_nonneg s c) as Hpos.
  destruct (Ascii.eqb a c); [lia |].
  intros H0. now rewrite IH by lia.
Qed.

Lemma ignore_until_startswith (D : string) :
  Py.startswith (ignore_until D) lifecycle_ignore_tag = true.
Proof. reflexivity. Qed.

Lemma ignore_until_count (D : string) :
  Py.count (ignore_until D) "="%char = 1 + Py.count D "="%char.
Proof. reflexivity. Qed.

Lemma ignore_until_split (D : string) :
  Py.count D "="%char = 0 ->
  Py.split (ignore_until D) "="%char = [lifecycle_ignore_tag; D].
Proof.
  intros H. unfold ignore_until, lifecycle_ignore_tag.
  cbn. now rewrite (split_no_separator _ _ H).
Qed.


Lemma directive_value_no_separator (D : string) :
  Py.count D "="%char = 0 -> directive_value D = D.
Proof.
  intros H. unfold directive_value. now rewrite (split_no_separator _ _ H).
Qed.

Section Directives.

Variable parse : string -> option Z.

(** An "ignore forever" label stops the scan as suppressed, whatever the
    state of the scan and of the world, and makes no call. *)
Lemma check_ignore_forever (current_label : string) (st : Scan) (w : World) :
  ignore_forever current_label = true ->
  check_lifecycle_ignore parse current_label st w =
  (Ok (Break,
       {| labelling_required := false;
          triggered_lifecycle_exception := true;
          lifecycle_exception_until := lifecycle_exception_until st |}), w).
Proof.
  unfold ignore_forever, check_lifecycle_ignore.
  intros H. apply andb_true_iff in H as [-> H].
  destruct (Z.gtb_spec (Py.count current_label "="%char) 0) as [Hc | Hc];
    cbn [negb orb] in *; [| reflexivity].
  unfold bind, index.
  destruct (nth_error (Py.split current_label "="%char) 1) as [s1 |];
    [| discriminate].
  cbn. now rewrite H.
Qed.

Lemma ignore_forever_stops_scan (current_label : string) (w : World) :
  ignore_forever current_label = true ->
  stops_scan parse current_label w.
Proof.
  intros H st w1 _. do 2 eexists.
  split; [apply (check_ignore_forever _ _ _ H) |].
  split; [apply extends_refl | now split].
Qed.

(** The test on [lifecycle_ignore=<D>], for a [D] that is not empty and
    has no [=]: the clock is read only when [D] parses, and the scan is
    stopped unless the clock is past the date. *)
Lemma check_ignore_until (D : string) (st : Scan) (w : World) :
  D <> "" ->
  Py.count D "="%char = 0 ->
  check_lifecycle_ignore parse (ignore_until D) st w =
  match parse D with
  | None => (Ok (Next, st), w)
  | Some d =>
      if clock w (ticks w) >? d then (Ok (Next, st), tick w)
      else (Ok (Break,
                {| labelling_required := false;
                   triggered_lifecycle_exception := true;
                   lifecycle_exception_until := D |}), tick w)
  end.
Proof.
  intros Hne Hc. unfold check_lifecycle_ignore.
  rewrite ignore_until_startswith, ignore_until_count, Hc.
  cbn [Z.add Z.gtb Z.compare negb].
  rewrite (ignore_until_split _ Hc).
  unfold bind at 1, index; cbn [nth_error]. unfold ret at 1.
  apply String.eqb_neq in Hne. rewrite Hne.
  unfold try_except, bind, dateutil_parse, datetime_now.
  destruct (parse D) as [d |]; cbn; [| reflexivity].
  now destruct (clock w (ticks w) >? d).
Qed.



End Directives.

(** ** Reconciliation of a page with a lifecycle-ignore label *)


Section Suppression.

Variable parse : string -> option Z.
Variable target_labels : list string.


(** The same page, with the calls in full: the scan goes through the
    labels [scanned] before it stops, and removes the undesirable ones
    among them. *)
Lemma action_set_page_label_stopped_calls (page_id desired_label : string)
  (before : list Label) (d : Label) (after : list Label) (w : World) :
  page_labels w page_id = (before ++ d :: after)%list ->
  ~ In desired_label (map label before) ->
  no_faults w ->
  stops_scan parse (label d) w ->
  exists w' scanned rest,
    action_set_page_label parse target_labels page_id desired_label w =
      (Ok (false, true), w') /\
    before = (scanned ++ rest)%list /\
    cut_at_ignore_label rest /\
    calls w' =
      (calls w ++ GetPageLabels page_id ::
         deprecated_calls page_id (before ++ d :: after) ++
         undesirable_calls target_labels page_id desired_label scanned)%list.
Proof.
  intros Hl Hnot Hnf Hstop.
  unfold action_set_page_label, bind at 1, client.get_page_labels.
  rewrite Hl. unfold set_page_label_from, bind at 1.
  set (w0 := record (GetPageLabels page_id) w).
  assert (H0 : extends w w0 [GetPageLabels page_id])
    by apply extends_record.
  destruct (remove_deprecated_accepted page_id (before ++ d :: after) w0)
    as (w1 & -> & H1); [exact (extends_no_faults _ _ _ H0 Hnf) |].
  pose proof (extends_trans _ _ _ _ _ H0 H1) as H01.
  destruct (scan_labels_reaches_calls parse target_labels page_id
              desired_label before d after
              {| labelling_required := true;
                 triggered_lifecycle_exception := false;
                 lifecycle_exception_until := "" |} w1)
    as (st & w2 & scanned & rest & Hscan & [Hreq Htrig] & Hb & Hcut & H2);
    [reflexivity | exact (extends_no_faults _ _ _ H01 Hnf) | exact Hnot | |].
  { intros st0 w3 Hclk. apply Hstop.
    destruct H01 as (_ & _ & Hc & _). congruence. }
  unfold bind. rewrite Hscan, Hreq, Htrig.
  exists w2, scanned, rest. split; [reflexivity |].
  split; [exact Hb |]. split; [exact Hcut |].
  destruct (extends_trans _ _ _ _ _ H01 H2) as (Hcalls & _).
  rewrite Hcalls. reflexivity.
Qed.

(** C4, as the code has it.  A page with an "ignore forever" label (the
    bare [lifecycle_ignore], or one with nothing after its [=]) is left
    with the outcome (no change, suppressed), whatever the desired label
    and the labels after it, when no label before it in the order of the
    scan is the desired label and the store accepts the mutations.  The
    calls are the fetch of the labels, the removal of every deprecated
    label of the page, and the removal of every undesirable label among
    the labels [scanned] the scan goes through before it stops: all the
    labels before the directive, or those before an earlier label that
    starts with the ignore tag and stops the scan first. *)
Theorem ignore_forever_suppresses (page_id desired_label : string)
  (before : list Label) (d : Label) (after : list Label) (w : World) :
  ignore_forever (label d) = true ->
  page_labels w page_id = (before ++ d :: after)%list ->
  ~ In desired_label (map label before) ->
  no_faults w ->
  exists w' scanned rest,
    action_set_page_label parse target_labels page_id desired_label w =
      (Ok (false, true), w') /\
    before = (scanned ++ rest)%list /\
    cut_at_ignore_label rest /\
    calls w' =
      (calls w ++ GetPageLabels page_id ::
         deprecated_calls page_id (before ++ d :: after) ++
         undesirable_calls target_labels page_id desired_label scanned)%list.
Proof.
  intros Hd Hl Hnot Hnf.
  apply action_set_page_label_stopped_calls; auto.
  now apply ignore_forever_stops_scan.
Qed.


End Suppression.

(** On 2024-01-01, a page due to be stale that carries the deprecated
    label [fresh] and the label of the fresh phase before
    [lifecycle_ignore]: both are removed, and the page is left alone. *)
Lemma ignore_forever_suppresses_witness :
  let w := Sample.store []
             (map Sample.lbl ["fresh"; "lifecycle_phase=fresh";
                              "lifecycle_ignore"; "lifecycle_phase=stale"])
             "2023-07-05T00:00:00.000Z" Sample.new_year_2024 Sample.no_fault in
  exists w',
    action_set_page_label Sample.parse Sample.target_labels "A"
      "lifecycle_phase=stale" w = (Ok (false, true), w') /\
    calls w' =
      [GetPageLabels "A"; RemovePageLabel "A" "fresh";
       RemovePageLabel "A" "lifecycle_phase=fresh"].
Proof.
  cbv zeta.
  destruct (ignore_forever_suppresses Sample.parse Sample.target_labels
              "A" "lifecycle_phase=stale"
              (map Sample.lbl ["fresh"; "lifecycle_phase=fresh"])
              (Sample.lbl "lifecycle_ignore")
              (map Sample.lbl ["lifecycle_phase=stale"])
              (Sample.store []
                 (map Sample.lbl ["fresh"; "lifecycle_phase=fresh";
                                  "lifecycle_ignore"; "lifecycle_phase=stale"])
                 "2023-07-05T00:00:00.000Z" Sample.new_year_2024
                 Sample.no_fault))
    as (w' & scanned & rest & Hrun & Hb & Hcut & Hcalls).
  - reflexivity.
  - reflexivity.
  - cbn. intros [H | [H | []]]; discriminate H.
  - intros n. reflexivity.
  - exists w'. split; [exact Hrun |]. rewrite Hcalls.
    destruct scanned as [| a [| b [| c scanned]]]; cbn in Hb.
    + subst rest. vm_compute in Hcut. discriminate Hcut.
    + injection Hb as <- <-. vm_compute in Hcut. discriminate Hcut.
    + injection Hb as <- <- <-. reflexivity.
    + injection Hb as _ _ Hb. discriminate Hb.
Defined.

(** Against C4 as the specification words it: on a page that carries the
    desired label before [lifecycle_ignore], the scan stops at the desired
    label and the outcome is (no change, not suppressed). *)
Lemma ignore_forever_after_desired_counterexample :
  let w := Sample.store []
             (map Sample.lbl ["lifecycle_phase=fresh"; "lifecycle_ignore"])
             "2023-07-05T00:00:00.000Z" Sample.new_year_2024 Sample.no_fault in
  ignore_forever "lifecycle_ignore" = true /\
  fst (action_set_page_label Sample.parse Sample.target_labels "A"
         "lifecycle_phase=fresh" w) = Ok (false, false) /\
  fst (action_set_page_label Sample.parse Sample.target_labels "A"
         "lifecycle_phase=fresh" w) <> Ok (false, true).
Proof.
  cbv zeta. split; [reflexivity |].
  split; [vm_compute; reflexivity | vm_compute; discriminate].
Qed.



(** ** Reconciliation of a page on which no label suppresses *)

Section Normal.

Variable parse : string -> option Z.
Variable target_labels : list string.
Variable page_id : string.
Variable desired_label : string.







End Normal.

(** ** The dated ignore label *)






(** ** Sequencing *)

Lemma bind_ok {A B : Type} (m : M A) (k : A -> M B) (w : World) (a : A)
  (w' : World) :
  m w = (Ok a, w') -> bind m k w = k a w'.
Proof. unfold bind. now intros ->. Qed.

Lemma bind_raise {A B : Type} (m : M A) (k : A -> M B) (w : World) (e : exn)
  (w' : World) :
  m w = (Raise e, w') -> bind m k w = (Raise e, w').
Proof. unfold bind. now intros ->. Qed.

(** ** Errors of the store during reconciliation *)

(** C6, on the code.  The removal of a deprecated label is not guarded by
    a handler: when the store answers it with an [ApiError], the error
    leaves [action_set_page_label] and there is no outcome. *)
Theorem deprecated_removal_error_propagates :
  let w := Sample.store [] [Sample.lbl "fresh"]
             "2023-07-05T00:00:00.000Z" Sample.new_year_2024
             (fun _ => Some ApiError) in
  fst (action_set_page_label Sample.parse Sample.target_labels "A"
         "lifecycle_phase=fresh" w) = Raise ApiError /\
  calls (snd (action_set_page_label Sample.parse Sample.target_labels "A"
                "lifecycle_phase=fresh" w)) =
    [GetPageLabels "A"; RemovePageLabel "A" "fresh"].
Proof. cbv zeta. split; vm_compute; reflexivity. Qed.

(** The two guarded mutations, for comparison.  An [ApiError] or an
    [HTTPError] on the application of the desired label gives the outcome
    (no change, not suppressed). *)
Lemma set_page_label_error_is_no_change (parse : string -> option Z)
  (target_labels : list string) (page_id desired_label : string)
  (w : World) (e : exn) :
  page_labels w page_id = [] ->
  mutation_fault w (S (List.length (calls w))) = Some e ->
  api_or_http e = true ->
  action_set_page_label parse target_labels page_id desired_label w =
  (Ok (false, false),
   record (SetPageLabel page_id desired_label)
     (record (GetPageLabels page_id) w)).
Proof.
  intros Hl Hf He.
  unfold action_set_page_label, bind at 1, client.get_page_labels.
  rewrite Hl. unfold set_page_label_from. cbn [remove_deprecated for_each].
  unfold bind at 1, ret at 1. cbn [scan_labels].
  unfold bind at 1, ret at 1. cbn [labelling_required].
  unfold try_except, bind, client.set_page_label.
  rewrite (mutate_refused _ _ _ e).
  - now rewrite He.
  - cbn. rewrite length_app, Nat.add_1_r. exact Hf.
Qed.

(** An [ApiError] on the removal of an undesirable label is swallowed, the
    scan goes on, and the desired label is applied. *)
Lemma undesirable_removal_error_is_swallowed :
  let w := Sample.store [] [Sample.lbl "lifecycle_phase=fresh"]
             "2023-07-05T00:00:00.000Z" Sample.new_year_2024
             (fun n => if Nat.eqb n 1 then Some ApiError else None) in
  fst (action_set_page_label Sample.parse Sample.target_labels "A"
         "lifecycle_phase=rotten" w) = Ok (true, false) /\
  calls (snd (action_set_page_label Sample.parse Sample.target_labels "A"
                "lifecycle_phase=rotten" w)) =
    [GetPageLabels "A"; RemovePageLabel "A" "lifecycle_phase=fresh";
     SetPageLabel "A" "lifecycle_phase=rotten"].
Proof. cbv zeta. split; vm_compute; reflexivity. Qed.

(** ** Idempotence *)

Section Idempotence.

Variable parse : string -> option Z.
Variable target_labels : list string.
Variable page_id : string.
Variable desired_label : string.


Lemma remove_deprecated_nothing (results : list Label) (w : World) :
  Forall (fun x => Py.mem (label x) deprecated_labels = false) results ->
  remove_deprecated page_id results w = (Ok tt, w).
Proof.
  unfold remove_deprecated.
  induction 1 as [| x rest Hx _ IH]; [reflexivity |].
  cbn [for_each]. unfold bind at 1.
  unfold Py.mem, deprecated_labels in Hx. cbn [existsb] in Hx.
  rewrite !(String.eqb_sym (label x)) in Hx.
  apply orb_false_iff in Hx as [H1 Hx].
  apply orb_false_iff in Hx as [H2 Hx].
  apply orb_false_iff in Hx as [H3 _].
  unfold deprecated_labels. cbn [for_each]. unfold bind.
  rewrite H1, H2, H3. cbn. exact IH.
Qed.

(** The scan of settled labels among which the desired one is found:
    labelling is no longer required, nothing else changes, no call is
    made. *)
Lemma scan_labels_finds_desired (results : list Label) (st : Scan)
  (w : World) :
  labelling_required st = true ->
  Forall (settled target_labels desired_label) results ->
  In desired_label (map label results) ->
  scan_labels parse page_id desired_label
    (undesirable target_labels desired_label) results st w =
  (Ok {| labelling_required := false;
         triggered_lifecycle_exception := triggered_lifecycle_exception st;
         lifecycle_exception_until := lifecycle_exception_until st |}, w).
Proof.
  intros Hreq Hall. induction Hall as [| x rest [Hp Hu] _ IH];
    intros Hin; [now elim Hin |].
  cbn [scan_labels]. unfold bind at 1, scan_label, bind at 1.
  unfold check_lifecycle_ignore. unfold plain in Hp. rewrite Hp.
  unfold ret at 1. rewrite Hreq, Hu. cbn [andb].
  unfold bind at 1, ret at 1.
  destruct (String.eqb_spec (label x) desired_label) as [E | E].
  - reflexivity.
  - unfold ret at 1. apply IH.
    cbn [map In] in Hin. destruct Hin as [Hin | Hin];
      [now elim E | exact Hin].
Qed.

(** C7, as the code has it.  A page that has the desired label and
    settled labels only, and so no undesirable and no lifecycle-ignore
    label:
    - without deprecated labels, the outcome is (no change, not
      suppressed) and the only call is the fetch of the labels;
    - with deprecated labels, on a store that accepts the removals, the
      outcome is the same and the calls after the fetch are exactly the
      removals of the deprecated labels. *)
Theorem action_set_page_label_idempotent (w : World) :
  In desired_label (map label (page_labels w page_id)) ->
  Forall (settled target_labels desired_label) (page_labels w page_id) ->
  (Forall (fun x => Py.mem (label x) deprecated_labels = false)
     (page_labels w page_id) ->
   action_set_page_label parse target_labels page_id desired_label w =
     (Ok (false, false), record (GetPageLabels page_id) w) /\
   mutations (record (GetPageLabels page_id) w) = mutations w) /\
  (no_faults w ->
   exists w',
     action_set_page_label parse target_labels page_id desired_label w =
       (Ok (false, false), w') /\
     calls w' =
       (calls w ++ GetPageLabels page_id ::
          deprecated_calls page_id (page_labels w page_id))%list).
Proof.
  intros Hin Hall.
  unfold action_set_page_label, bind at 1, client.get_page_labels.
  unfold set_page_label_from.
  fold (undesirable target_labels desired_label).
  split.
  - intros Hnd. split.
    + unfold bind at 1. rewrite (remove_deprecated_nothing _ _ Hnd).
      unfold bind.
      now rewrite (scan_labels_finds_desired _
                     {| labelling_required := true;
                        triggered_lifecycle_exception := false;
                        lifecycle_exception_until := "" |}
                     _ eq_refl Hall Hin).
    + unfold mutations, record, with_calls; cbn [calls].
      rewrite filter_app. cbn. apply app_nil_r.
  - intros Hnf. unfold bind at 1.
    destruct (remove_deprecated_accepted page_id (page_labels w page_id)
                (record (GetPageLabels page_id) w))
      as (w1 & Hrd & H1).
    { exact (extends_no_faults _ _ _ (extends_record _ w) Hnf). }
    rewrite (bind_ok _ _ _ _ _ Hrd). unfold bind.
    rewrite (scan_labels_finds_desired _
               {| labelling_required := true;
                  triggered_lifecycle_exception := false;
                  lifecycle_exception_until := "" |}
               _ eq_refl Hall Hin).
    exists w1. split; [reflexivity |].
    destruct H1 as (Hc & _). rewrite Hc. cbn [record with_calls calls].
    now rewrite <- app_assoc.
Qed.

End Idempotence.

(** A fresh page that has its label already, once with nothing else of
    note and once with the deprecated label [stale] as well. *)
Lemma action_set_page_label_idempotent_witness :
  (let w := Sample.store []
              (map Sample.lbl ["documentation"; "lifecycle_phase=fresh"])
              "2023-12-05T00:00:00.000Z" Sample.new_year_2024
              (fun _ => Some ApiError) in
   action_set_page_label Sample.parse Sample.target_labels "A"
     "lifecycle_phase=fresh" w =
     (Ok (false, false), record (GetPageLabels "A") w) /\
   mutations (record (GetPageLabels "A") w) = mutations w) /\
  (let w := Sample.store []
              (map Sample.lbl ["stale"; "lifecycle_phase=fresh"])
              "2023-12-05T00:00:00.000Z" Sample.new_year_2024
              Sample.no_fault in
   exists w',
     action_set_page_label Sample.parse Sample.target_labels "A"
       "lifecycle_phase=fresh" w = (Ok (false, false), w') /\
     calls w' =
       (calls w ++ GetPageLabels "A" ::
          deprecated_calls "A" (page_labels w "A"))%list).
Proof.
  split.
  - apply (proj1 (action_set_page_label_idempotent Sample.parse
                    Sample.target_labels "A" "lifecycle_phase=fresh"
                    (Sample.store []
                       (map Sample.lbl
                          ["documentation"; "lifecycle_phase=fresh"])
                       "2023-12-05T00:00:00.000Z" Sample.new_year_2024
                       (fun _ => Some ApiError))
                    ltac:(cbn; auto)
                    ltac:(repeat constructor))).
    repeat constructor.
  - apply (proj2 (action_set_page_label_idempotent Sample.parse
                    Sample.target_labels "A" "lifecycle_phase=fresh"
                    (Sample.store []
                       (map Sample.lbl ["stale"; "lifecycle_phase=fresh"])
                       "2023-12-05T00:00:00.000Z" Sample.new_year_2024
                       Sample.no_fault)
                    ltac:(cbn; auto)
                    ltac:(repeat constructor))).
    intros n. reflexivity.
Defined.

(** Against C7 as it is worded.  The labels [lifecycle_ignore] and the
    desired [lifecycle_phase=fresh] are neither deprecated nor
    undesirable, yet the page is reported as suppressed, not as (no
    change, not suppressed): the scan stops at [lifecycle_ignore] before
    it meets the desired label.  And on a page with the deprecated label
    [stale] beside the desired one, a store that refuses the removal
    leaves no outcome at all. *)
Lemma action_set_page_label_idempotent_counterexample :
  (let w := Sample.store []
              (map Sample.lbl ["lifecycle_ignore"; "lifecycle_phase=fresh"])
              "2023-12-05T00:00:00.000Z" Sample.new_year_2024
              Sample.no_fault in
   In "lifecycle_phase=fresh" (map label (page_labels w "A")) /\
   Forall (fun x =>
             Py.mem (label x) deprecated_labels = false /\
             Py.mem (label x)
               (undesirable Sample.target_labels "lifecycle_phase=fresh") =
               false) (page_labels w "A") /\
   fst (action_set_page_label Sample.parse Sample.target_labels "A"
          "lifecycle_phase=fresh" w) = Ok (false, true) /\
   fst (action_set_page_label Sample.parse Sample.target_labels "A"
          "lifecycle_phase=fresh" w) <> Ok (false, false) /\
   mutations (snd (action_set_page_label Sample.parse Sample.target_labels
                     "A" "lifecycle_phase=fresh" w)) = []) /\
  (let w := Sample.store []
              (map Sample.lbl ["stale"; "lifecycle_phase=fresh"])
              "2023-12-05T00:00:00.000Z" Sample.new_year_2024
              (fun _ => Some ApiError) in
   fst (action_set_page_label Sample.parse Sample.target_labels "A"
          "lifecycle_phase=fresh" w) = Raise ApiError /\
   fst (action_set_page_label Sample.parse Sample.target_labels "A"
          "lifecycle_phase=fresh" w) <> Ok (false, false)).
Proof.
  cbv zeta. split.
  - split; [cbn; auto |].
    split; [repeat constructor |].
    split; [vm_compute; reflexivity |].
    split; [vm_compute; discriminate | vm_compute; reflexivity].
  - split; [vm_compute; reflexivity | vm_compute; discriminate].
Qed.

(** ** Computations that only read the store *)


Lemma reads_only_ret {A : Type} (a : A) : reads_only (ret a).
Proof. now intros w. Qed.

Lemma reads_only_raise {A : Type} (e : exn) : reads_only (@raise A e).
Proof. now intros w. Qed.

Lemma reads_only_bind {A B : Type} (m : M A) (k : A -> M B) :
  reads_only m -> (forall a, reads_only (k a)) -> reads_only (bind m k).
Proof.
  intros Hm Hk w. unfold bind. specialize (Hm w).
  destruct (m w) as [[a | e] w1]; cbn [snd] in *.
  - now rewrite (Hk a w1).
  - exact Hm.
Qed.

Lemma mutations_record_read (c : Call) (w : World) :
  is_mutation c = false -> mutations (record c w) = mutations w.
Proof.
  intros H. unfold mutations, record, with_calls; cbn [calls].
  rewrite filter_app. cbn. rewrite H. apply app_nil_r.
Qed.

Lemma reads_only_get_all_pages_from_space (space : string) (start limit : Z) :
  reads_only (client.get_all_pages_from_space space start limit).
Proof. intros w. now apply mutations_record_read. Qed.

Lemma reads_only_get_page_labels (page_id : string) :
  reads_only (client.get_page_labels page_id).
Proof. intros w. now apply mutations_record_read. Qed.

Lemma reads_only_history (page_id : string) :
  reads_only (client.history page_id).
Proof. intros w. now apply mutations_record_read. Qed.

Lemma reads_only_datetime_now : reads_only datetime_now.
Proof. now intros w. Qed.

Lemma reads_only_minus_days (d n : Z) : reads_only (minus_days d n).
Proof.
  unfold minus_days.
  destruct ((0 <=? d - n * DAY) && (d - n * DAY <=? DATETIME_MAX));
    [apply reads_only_ret | apply reads_only_raise].
Qed.

Lemma reads_only_index {A : Type} (l : list A) (i : nat) :
  reads_only (index l i).
Proof.
  unfold index. destruct (nth_error l i);
    [apply reads_only_ret | apply reads_only_raise].
Qed.

Lemma reads_only_for_list {A B : Type} (l : list A) (f : A -> M B) :
  (forall x, reads_only (f x)) -> reads_only (for_list l f).
Proof.
  intros Hf. induction l as [| x l IH]; cbn [for_list].
  - apply reads_only_ret.
  - apply reads_only_bind; [apply Hf | intros y].
    apply reads_only_bind; [exact IH | intros ys]. apply reads_only_ret.
Qed.

Create HintDb reads.
#[local] Hint Resolve reads_only_ret reads_only_raise
  reads_only_get_all_pages_from_space reads_only_get_page_labels
  reads_only_history reads_only_datetime_now reads_only_minus_days
  reads_only_index : reads.

(** Splits a sequence of steps into its steps and closes those that are
    calls known to read only. *)
Ltac reads :=
  repeat first
    [ apply reads_only_bind; [| intros ?]
    | match goal with
      | |- reads_only (if ?b then _ else _) => destruct b
      | |- reads_only (match ?x with Some _ => _ | None => _ end) =>
          destruct x
      end
    | solve [auto with reads] ].

Lemma reads_only_discover_loop (space : string) (max limit : Z) (fuel : nat) :
  forall start count pages,
    reads_only (discover_loop fuel space max limit start count pages).
Proof.
  induction fuel as [| fuel IH]; intros start count pages;
    cbn [discover_loop]; [apply reads_only_raise |].
  destruct (count <? max); [| apply reads_only_ret].
  apply reads_only_bind; [auto with reads | intros all_pages].
  destruct (Py.len all_pages =? 0); [apply reads_only_ret | apply IH].
Qed.

Lemma reads_only_discover_all_pages_in_space (space : string) (max limit : Z) :
  reads_only (discover_all_pages_in_space space max limit).
Proof.
  intros w. unfold discover_all_pages_in_space.
  apply reads_only_discover_loop.
Qed.

Lemma reads_only_discover_page_labels (page_id : string) :
  reads_only (discover_page_labels page_id).
Proof. unfold discover_page_labels. reads. Qed.

Section ReadsOnly.

Variable strptime : string -> option Z.
Variable target_labels : list string.

Lemma reads_only_discover_page_state (page_id : string)
  (rotten_days stale_days : Z) :
  reads_only
    (discover_page_state strptime target_labels page_id
       rotten_days stale_days).
Proof. unfold discover_page_state, datetime_strptime. reads. Qed.

Lemma reads_only_classify_pages (arguments : Args) :
  reads_only (classify_pages strptime target_labels arguments).
Proof.
  unfold classify_pages.
  apply reads_only_bind;
    [apply reads_only_discover_all_pages_in_space | intros ps].
  apply reads_only_bind; apply reads_only_for_list || intros ls.
  - intros x. apply reads_only_discover_page_labels.
  - apply reads_only_for_list. intros x.
    apply reads_only_discover_page_state.
Qed.

Lemma reads_only_pages_in_state (k : nat) (pages : list PageState) :
  reads_only (pages_in_state target_labels k pages).
Proof. induction pages as [| i rest IH]; cbn [pages_in_state]; reads. Qed.

Lemma reads_only_partition_pages (pages : list PageState) :
  reads_only (partition_pages target_labels pages).
Proof.
  unfold partition_pages.
  repeat (apply reads_only_bind;
          [apply reads_only_pages_in_state | intros ?]).
  apply reads_only_ret.
Qed.

End ReadsOnly.

(** ** The run orchestrator *)

Lemma bind_inv_ok {A B : Type} (m : M A) (k : A -> M B) (w : World) (b : B)
  (w' : World) :
  bind m k w = (Ok b, w') ->
  exists a w1, m w = (Ok a, w1) /\ k a w1 = (Ok b, w').
Proof.
  unfold bind. destruct (m w) as [[a | e] w1]; [| discriminate].
  intros H. now exists a, w1.
Qed.

Ltac bind_inv H :=
  let a := fresh "a" in
  let w := fresh "w" in
  let H1 := fresh "H" in
  apply bind_inv_ok in H; destruct H as (a & w & H1 & H).

Lemma for_list_ok {A B : Type} (P : B -> Prop) (f : A -> M B) :
  (forall x w y w', f x w = (Ok y, w') -> P y) ->
  forall l w ys w', for_list l f w = (Ok ys, w') -> Forall P ys.
Proof.
  intros Hf. induction l as [| x l IH]; intros w ys w' H; cbn [for_list] in H.
  - injection H as <- _. constructor.
  - bind_inv H. bind_inv H. injection H as <- _.
    constructor; [eapply Hf; eassumption | eapply IH; eassumption].
Qed.

Section Orchestrator.

Variable strptime : string -> option Z.
Variable parse : string -> option Z.
Variables fresh stale rotten : string.

Let target_labels : list string := [fresh; stale; rotten].

(** The state of a classified page is one of the three target labels. *)
Lemma discover_page_state_label (page_id : string)
  (rotten_days stale_days : Z) (w : World) (ps : PageState) (w' : World) :
  discover_page_state strptime target_labels page_id rotten_days stale_days w
    = (Ok ps, w') ->
  state ps = fresh \/ state ps = stale \/ state ps = rotten.
Proof.
  unfold discover_page_state. intros H.
  do 7 bind_inv H.
  unfold index, target_labels in *. cbn [nth_error] in *.
  bind_inv H. injection H as <- _. cbn [state].
  match goal with
  | Hf : ret fresh _ = (Ok _, _) |- _ => injection Hf as <- _
  end.
  match goal with
  | Hi : (if ?a then _ else if ?b then _ else _) _ = _ |- _ =>
      destruct a; [| destruct b]; injection Hi as <- _
  end; auto.
Qed.

Lemma classify_pages_labels (arguments : Args) (w : World)
  (pages_with_states : list PageState) (w' : World) :
  classify_pages strptime target_labels arguments w =
    (Ok pages_with_states, w') ->
  Forall (fun i => state i = fresh \/ state i = stale \/ state i = rotten)
    pages_with_states.
Proof.
  unfold classify_pages. intros H. do 2 bind_inv H.
  eapply for_list_ok; [| exact H].
  intros x w2 y w3. apply discover_page_state_label.
Qed.

(** A bucket is the list of the pages in the state of its label. *)
Lemma pages_in_state_filter (k : nat) (t : string)
  (pages_with_states : list PageState) (w : World) :
  nth_error target_labels k = Some t ->
  pages_in_state target_labels k pages_with_states w =
  (Ok (filter (fun i => String.eqb (state i) t) pages_with_states), w).
Proof.
  intros Hk. induction pages_with_states as [| i rest IH];
    cbn [pages_in_state filter]; [reflexivity |].
  unfold bind, index. rewrite Hk. unfold ret at 1. rewrite IH.
  unfold ret. now destruct (String.eqb (state i) t).
Qed.


Lemma partition_pages_buckets (pages_with_states : list PageState)
  (w : World) :
  partition_pages target_labels pages_with_states w =
  (Ok (bucket rotten pages_with_states, bucket stale pages_with_states,
       bucket fresh pages_with_states), w).
Proof.
  unfold partition_pages, bind.
  rewrite (pages_in_state_filter 2 rotten) by reflexivity.
  rewrite (pages_in_state_filter 1 stale) by reflexivity.
  rewrite (pages_in_state_filter 0 fresh) by reflexivity.
  reflexivity.
Qed.

Lemma In_bucket (t : string) (pages : list PageState) (p : PageState) :
  In p (bucket t pages) <-> In p pages /\ state p = t.
Proof.
  unfold bucket. rewrite filter_In. now rewrite String.eqb_eq.
Qed.

Hypothesis fresh_stale : fresh <> stale.
Hypothesis fresh_rotten : fresh <> rotten.
Hypothesis stale_rotten : stale <> rotten.

(** With distinct labels the three buckets hold the classified pages,
    each of them once. *)
Lemma buckets_permutation (pages : list PageState) :
  Forall (fun i => state i = fresh \/ state i = stale \/ state i = rotten)
    pages ->
  Permutation (bucket rotten pages ++ bucket stale pages ++ bucket fresh pages)
    pages.
Proof.
  unfold bucket.
  induction 1 as [| i rest Hi _ IH]; cbn [filter]; [constructor |].
  destruct Hi as [E | [E | E]]; rewrite E.
  - rewrite String.eqb_refl.
    replace (String.eqb fresh rotten) with false
      by (symmetry; now apply String.eqb_neq).
    replace (String.eqb fresh stale) with false
      by (symmetry; now apply String.eqb_neq).
    rewrite app_assoc. apply Permutation_sym, Permutation_cons_app.
    rewrite <- app_assoc. now apply Permutation_sym.
  - rewrite String.eqb_refl.
    replace (String.eqb stale rotten) with false
      by (symmetry; now apply String.eqb_neq).
    replace (String.eqb stale fresh) with false
      by (symmetry; apply String.eqb_neq; congruence).
    apply Permutation_sym, Permutation_cons_app. now apply Permutation_sym.
  - rewrite String.eqb_refl.
    replace (String.eqb rotten stale) with false
      by (symmetry; apply String.eqb_neq; congruence).
    replace (String.eqb rotten fresh) with false
      by (symmetry; apply String.eqb_neq; congruence).
    cbn [app]. now constructor.
Qed.

(** C9.  With three distinct target labels the buckets of the
    orchestrator are a partition of the classified pages: put together
    they are a rearrangement of the classified pages, every classified
    page is in one bucket and in no other, and the total of a run that
    ends is the number of classified pages and the sum of the three
    counts. *)
Theorem buckets_are_a_partition (arguments : Args) (w : World)
  (pages_with_states : list PageState) (w1 : World) :
  classify_pages strptime target_labels arguments w =
    (Ok pages_with_states, w1) ->
  let all_rotten_pages := bucket rotten pages_with_states in
  let all_stale_pages := bucket stale pages_with_states in
  let all_fresh_pages := bucket fresh pages_with_states in
  partition_pages target_labels pages_with_states w1 =
    (Ok (all_rotten_pages, all_stale_pages, all_fresh_pages), w1) /\
  Permutation (all_rotten_pages ++ all_stale_pages ++ all_fresh_pages)
    pages_with_states /\
  (forall p, In p pages_with_states ->
     (In p all_rotten_pages /\ ~ In p all_stale_pages /\
      ~ In p all_fresh_pages) \/
     (~ In p all_rotten_pages /\ In p all_stale_pages /\
      ~ In p all_fresh_pages) \/
     (~ In p all_rotten_pages /\ ~ In p all_stale_pages /\
      In p all_fresh_pages)) /\
  (forall t w',
     manage_pages_in_space strptime parse target_labels arguments w =
       (Ok t, w') ->
     total_pages_managed t = Py.len pages_with_states /\
     total_pages_managed t = fresh_pages t + stale_pages t + rotten_pages t /\
     fresh_pages t = Py.len all_fresh_pages /\
     stale_pages t = Py.len all_stale_pages /\
     rotten_pages t = Py.len all_rotten_pages).
Proof.
  intros Hc rp sp fp.
  pose proof (classify_pages_labels _ _ _ _ Hc) as Hlabels.
  pose proof (buckets_permutation _ Hlabels) as Hperm.
  split; [apply partition_pages_buckets |].
  split; [exact Hperm |]. split.
  - intros p Hp. subst rp sp fp. rewrite !In_bucket.
    rewrite Forall_forall in Hlabels.
    destruct (Hlabels p Hp) as [E | [E | E]].
    + right; right. repeat split; auto; intros [_ E']; congruence.
    + right; left. repeat split; auto; intros [_ E']; congruence.
    + left. repeat split; auto; intros [_ E']; congruence.
  - intros t w' Hrun. unfold manage_pages_in_space in Hrun.
    bind_inv Hrun. rewrite Hc in H. injection H as <- <-.
    bind_inv Hrun. rewrite partition_pages_buckets in H.
    injection H as <- <-.
    do 2 bind_inv Hrun. injection Hrun as <- _.
    cbn [count_pages total_pages_managed fresh_pages stale_pages
           rotten_pages].
    fold rp sp fp. repeat split; try reflexivity.
    apply Permutation_length in Hperm. fold rp sp fp in Hperm.
    unfold Py.len. rewrite <- Hperm, !length_app. lia.
Qed.

End Orchestrator.

(** The library of three pages: one page in each bucket, three in all. *)
Lemma buckets_are_a_partition_witness :
  exists pages_with_states w1,
    classify_pages Sample.strptime Sample.target_labels
      (Sample.arguments false true) Sample.library =
      (Ok pages_with_states, w1) /\
    Permutation
      (bucket "lifecycle_phase=rotten" pages_with_states ++
       bucket "lifecycle_phase=stale" pages_with_states ++
       bucket "lifecycle_phase=fresh" pages_with_states)
      pages_with_states /\
    (forall t w',
       manage_pages_in_space Sample.strptime Sample.parse Sample.target_labels
         (Sample.arguments false true) Sample.library = (Ok t, w') ->
       total_pages_managed t = Py.len pages_with_states /\
       total_pages_managed t = fresh_pages t + stale_pages t + rotten_pages t /\
       fresh_pages t = Py.len (bucket "lifecycle_phase=fresh" pages_with_states) /\
       stale_pages t = Py.len (bucket "lifecycle_phase=stale" pages_with_states) /\
       rotten_pages t =
         Py.len (bucket "lifecycle_phase=rotten" pages_with_states)).
Proof.
  do 2 eexists. split; [vm_compute; reflexivity |].
  refine (let H := buckets_are_a_partition Sample.strptime Sample.parse
                     "lifecycle_phase=fresh" "lifecycle_phase=stale"
                     "lifecycle_phase=rotten" _ _ _
                     (Sample.arguments false true) Sample.library _ _ _ in
          conj (proj1 (proj2 H)) (proj2 (proj2 (proj2 H))));
    try discriminate.
  vm_compute. reflexivity.
Defined.

(** ** Read-only mode *)


Section ReadOnly.

Variable strptime : string -> option Z.
Variable parse : string -> option Z.
Variable target_labels : list string.

(** A read-only run is the classification and the partition, then the
    counts. *)
Lemma manage_pages_in_space_readonly (arguments : Args) (w : World) :
  manage_pages_in_space strptime parse target_labels
    (with_readonly arguments true) w =
  bind (classify_pages strptime target_labels arguments)
    (fun pages_with_states =>
       bind (partition_pages target_labels pages_with_states)
         (fun buckets => ret (count_pages buckets))) w.
Proof.
  unfold manage_pages_in_space, bind. cbn [readonly with_readonly negb andb].
  change (classify_pages strptime target_labels
            (with_readonly arguments true))
    with (classify_pages strptime target_labels arguments).
  destruct (classify_pages strptime target_labels arguments w)
    as [[pws | e] w1]; [| reflexivity].
  destruct (partition_pages target_labels pws w1) as [[b | e] w2];
    reflexivity.
Qed.

(** A run that is not read-only and ends has the counts of the buckets
    of its classification. *)
Lemma manage_pages_in_space_counts (arguments : Args) (w : World)
  (t : Tallies) (w' : World) :
  manage_pages_in_space strptime parse target_labels arguments w =
    (Ok t, w') ->
  exists pages_with_states w1 buckets w2,
    classify_pages strptime target_labels arguments w =
      (Ok pages_with_states, w1) /\
    partition_pages target_labels pages_with_states w1 = (Ok buckets, w2) /\
    t = count_pages buckets.
Proof.
  unfold manage_pages_in_space. intros H.
  bind_inv H. bind_inv H. bind_inv H. bind_inv H. injection H as <- _.
  eauto 8.
Qed.

(** C8.  On the same store, clock and arguments, the run with the
    read-only flag makes no mutating call, and it computes the counts of
    the run without the flag: whenever that run ends with counts, the
    read-only run ends with the same counts, and whenever the read-only
    run ends with counts, the other run ends with the same counts unless
    an exception stops it. *)
Theorem readonly_run_same_tallies (arguments : Args) (w : World) :
  let ro := manage_pages_in_space strptime parse target_labels
              (with_readonly arguments true) w in
  let rw := manage_pages_in_space strptime parse target_labels
              (with_readonly arguments false) w in
  mutations (snd ro) = mutations w /\
  (forall t, fst rw = Ok t -> fst ro = Ok t) /\
  (forall t, fst ro = Ok t -> fst rw = Ok t \/ exists e, fst rw = Raise e).
Proof.
  intros ro rw.
  assert (Hro : ro =
            bind (classify_pages strptime target_labels arguments)
              (fun pages_with_states =>
                 bind (partition_pages target_labels pages_with_states)
                   (fun buckets => ret (count_pages buckets))) w)
    by apply manage_pages_in_space_readonly.
  assert (Hsame : forall t, fst rw = Ok t -> fst ro = Ok t).
  { intros t Ht. destruct rw as [r w'] eqn:Erw. cbn [fst] in Ht. subst r.
    destruct (manage_pages_in_space_counts _ _ _ _ Erw)
      as (pws & w1 & b & w2 & Hc & Hp & ->).
    change (classify_pages strptime target_labels
              (with_readonly arguments false))
      with (classify_pages strptime target_labels arguments) in Hc.
    rewrite Hro. rewrite (bind_ok _ _ _ _ _ Hc).
    now rewrite (bind_ok _ _ _ _ _ Hp). }
  split; [| split].
  - rewrite Hro.
    apply (reads_only_bind
             (classify_pages strptime target_labels arguments)).
    + apply reads_only_classify_pages.
    + intros pws. apply reads_only_bind.
      * apply reads_only_partition_pages.
      * intros b. apply reads_only_ret.
  - exact Hsame.
  - intros t Ht. destruct (fst rw) as [t' | e] eqn:E.
    + left. specialize (Hsame t' eq_refl). congruence.
    + right. now exists e.
Qed.

End ReadOnly.

(** The library of three pages, with and without the flag: one page in
    each bucket in both runs, and no mutation in the read-only run. *)
Lemma readonly_run_same_tallies_witness :
  let ro := manage_pages_in_space Sample.strptime Sample.parse
              Sample.target_labels (Sample.arguments true true)
              Sample.library in
  mutations (snd ro) = [] /\
  fst ro = Ok {| fresh_pages := 1; stale_pages := 1; rotten_pages := 1;
                 total_pages_managed := 3 |}.
Proof.
  cbv zeta. split.
  - apply (proj1 (readonly_run_same_tallies Sample.strptime Sample.parse
                    Sample.target_labels (Sample.arguments false true)
                    Sample.library)).
  - apply (proj1 (proj2 (readonly_run_same_tallies Sample.strptime
                    Sample.parse Sample.target_labels
                    (Sample.arguments false true) Sample.library))).
    vm_compute. reflexivity.
Defined.

(** * Further properties of the code *)

(** ** What page discovery returns *)

Lemma firstn_plus {A : Type} (a b : nat) (l : list A) :
  firstn (a + b) l = (firstn a l ++ firstn b (skipn a l))%list.
Proof.
  revert l. induction a as [| a IH]; intros l; [reflexivity |].
  destruct l as [| x l]; cbn [Nat.add firstn skipn app].
  - now rewrite firstn_nil.
  - now rewrite IH.
Qed.

(** Along the loop the pages found are the first [start] pages of the
    space, so the result is a prefix of the space. *)
Lemma discover_loop_prefix (space : string) (max limit : Z) (fuel : nat) :
  forall (start count : Z) (pages : list PageSummary) (w : World)
         (found : list PageSummary) (w' : World),
    0 <= start ->
    pages = firstn (Z.to_nat start) (space_content w space) ->
    discover_loop fuel space max limit start count pages w = (Ok found, w') ->
    exists n, found = firstn n (space_content w space).
Proof.
  induction fuel as [| fuel IH]; intros start count pages w found w' Hs Hp;
    [discriminate |].
  rewrite discover_loop_step.
  destruct (count <? max).
  2:{ intros [= <- _]. now exists (Z.to_nat start). }
  destruct (Py.len (served w space start limit) =? 0) eqn:E.
  { intros [= <- _]. now exists (Z.to_nat start). }
  assert (Hne : served w space start limit <> []).
  { intros He. apply len_zero in He. congruence. }
  destruct (served_nonempty _ _ _ _ Hne) as [Hl _].
  intros H.
  apply (IH _ _ _ (record (GetAllPagesFromSpace space start limit) w))
    in H; [exact H | lia |].
  cbn [record with_calls space_content]. subst pages. unfold served.
  rewrite Z2Nat.inj_add by lia. now rewrite firstn_plus.
Qed.

(** With a limit from 1 on and below the maximum, the size of an answer
    never reaches the maximum: the loop ends on the empty answer only,
    with every page of the space. *)
Lemma discover_loop_whole_space (space : string) (max limit : Z) (fuel : nat) :
  forall (start count : Z) (pages : list PageSummary) (w : World)
         (found : list PageSummary) (w' : World),
    1 <= limit < max ->
    0 <= start ->
    count < max ->
    pages = firstn (Z.to_nat start) (space_content w space) ->
    discover_loop fuel space max limit start count pages w = (Ok found, w') ->
    found = space_content w space.
Proof.
  induction fuel as [| fuel IH];
    intros start count pages w found w' Hl Hs Hc Hp; [discriminate |].
  rewrite discover_loop_step.
  replace (count <? max) with true by (symmetry; now apply Z.ltb_lt).
  destruct (Py.len (served w space start limit) =? 0) eqn:E.
  - intros [= <- _]. apply len_zero in E. unfold served in E.
    assert (Hskip : skipn (Z.to_nat start) (space_content w space) = []).
    { destruct (skipn (Z.to_nat start) (space_content w space)) eqn:Es;
        [reflexivity |].
      destruct (Z.to_nat limit) eqn:El; [lia | discriminate E]. }
    subst pages.
    rewrite <- (firstn_skipn (Z.to_nat start) (space_content w space)) at 2.
    now rewrite Hskip, app_nil_r.
  - intros H.
    apply (IH _ _ _ (record (GetAllPagesFromSpace space start limit) w))
      in H; [exact H | exact Hl | lia | |].
    + unfold served, Py.len. rewrite length_firstn. lia.
    + cbn [record with_calls space_content]. subst pages. unfold served.
      rewrite Z2Nat.inj_add by lia. now rewrite firstn_plus.
Qed.

(** X1.  Whatever the maximum and the limit, [discover_all_pages_in_space]
    ends and returns a prefix of the pages of the space: pages in the order
    of the server, none twice, none skipped. *)
Theorem discover_all_pages_in_space_prefix (space : string) (max limit : Z)
  (w : World) :
  exists n w',
    discover_all_pages_in_space space max limit w =
    (Ok (firstn n (space_content w space)), w').
Proof.
  destruct (discover_all_pages_in_space_progress space max limit w)
    as (found & w' & H).
  pose proof H as H0. unfold discover_all_pages_in_space in H0.
  apply discover_loop_prefix in H0; [| lia | reflexivity].
  destruct H0 as [n ->]. now exists n, w'.
Qed.

(** X2.  With a limit from 1 on and below the maximum, the maximum has no
    effect: every page of the space is returned, however many there are. *)
Theorem discover_all_pages_in_space_ignores_max (space : string)
  (max limit : Z) (w : World) :
  1 <= limit < max ->
  exists w',
    discover_all_pages_in_space space max limit w =
    (Ok (space_content w space), w').
Proof.
  intros Hl.
  destruct (discover_all_pages_in_space_progress space max limit w)
    as (found & w' & H).
  pose proof H as H0. unfold discover_all_pages_in_space in H0.
  replace (if limit >? max then max else limit) with limit in H0
    by (destruct (Z.gtb_spec limit max); lia).
  apply discover_loop_whole_space in H0; [| lia | lia | lia | reflexivity].
  subst found. now exists w'.
Qed.

(** The defaults of the command line, 2500 pages at most and 500 a
    request, on a space of three pages. *)
Lemma discover_all_pages_in_space_ignores_max_witness :
  exists w',
    discover_all_pages_in_space "AA" 2500 500 Sample.library =
    (Ok (space_content Sample.library "AA"), w').
Proof.
  apply (discover_all_pages_in_space_ignores_max "AA" 2500 500
           Sample.library).
  lia.
Defined.

(** X3.  With a limit that is not below the maximum, the function keeps
    its promise: it ends with at most [max] pages. *)
Theorem discover_all_pages_in_space_within_max (space : string)
  (max limit : Z) (w : World) :
  max <= limit ->
  exists found w',
    discover_all_pages_in_space space max limit w = (Ok found, w') /\
    Py.len found <= Z.max 0 max.
Proof.
  intros Hl.
  destruct (discover_all_pages_in_space_progress space max limit w)
    as (found & w' & H).
  exists found, w'. split; [exact H |].
  eapply discover_all_pages_in_space_clamped; eassumption.
Qed.

Lemma discover_all_pages_in_space_within_max_witness :
  exists found w',
    discover_all_pages_in_space "AA" 2 500 Sample.library = (Ok found, w') /\
    Py.len found <= Z.max 0 2.
Proof.
  apply (discover_all_pages_in_space_within_max "AA" 2 500 Sample.library).
  lia.
Defined.

(** ** The calls and the exceptions of a computation *)

Lemma confined_at_ret {A : Type} (P : Call -> Prop) (E : exn -> Prop)
  (a : A) (w : World) :
  confined_at P E (ret a) w.
Proof.
  unfold confined_at, ret; cbn [fst snd].
  split; [exists []; split; [now rewrite app_nil_r | constructor] |].
  repeat split; try reflexivity. discriminate.
Qed.

Lemma confined_at_raise {A : Type} (P : Call -> Prop) (E : exn -> Prop)
  (e : exn) (w : World) :
  E e -> confined_at P E (@raise A e) w.
Proof.
  intros He. unfold confined_at, raise; cbn [fst snd].
  split; [exists []; split; [now rewrite app_nil_r | constructor] |].
  repeat split; try reflexivity. intros e' [= <-]. now left.
Qed.

Lemma confined_at_bind {A B : Type} (P : Call -> Prop) (E : exn -> Prop)
  (m : M A) (k : A -> M B) (w : World) :
  confined_at P E m w ->
  (forall a w1, m w = (Ok a, w1) -> confined_at P E (k a) w1) ->
  confined_at P E (bind m k) w.
Proof.
  unfold confined_at, bind.
  intros ((cs1 & Hc1 & Hp1) & Hf1 & Hs1 & Hh1 & He1) Hk.
  destruct (m w) as [[a | e] w1] eqn:Em; cbn [fst snd] in *.
  - destruct (Hk a w1 eq_refl) as ((cs2 & Hc2 & Hp2) & Hf2 & Hs2 & Hh2 & He2).
    split; [exists (cs1 ++ cs2)%list; split |].
    + now rewrite Hc2, Hc1, app_assoc.
    + apply Forall_app. now split.
    + repeat split; try congruence.
      intros e He. destruct (He2 e He) as [H | [n H]]; [now left |].
      right. exists n. now rewrite <- Hf1.
  - split; [now exists cs1 |]. repeat split; auto.
    intros e' [= <-]. now apply He1.
Qed.

Lemma confined_bind {A B : Type} (P : Call -> Prop) (E : exn -> Prop)
  (m : M A) (k : A -> M B) :
  confined P E m -> (forall a, confined P E (k a)) ->
  confined P E (bind m k).
Proof.
  intros Hm Hk w. apply confined_at_bind; [apply Hm |].
  intros a w1 _. apply Hk.
Qed.

Lemma confined_at_weaken {A : Type} (P P' : Call -> Prop)
  (E E' : exn -> Prop) (m : M A) (w : World) :
  (forall c, P c -> P' c) -> (forall e, E e -> E' e) ->
  confined_at P E m w -> confined_at P' E' m w.
Proof.
  unfold confined_at.
  intros HP HE ((cs & Hc & Hp) & Hf & Hs & Hh & He).
  split; [exists cs; split; [exact Hc |] |].
  - eapply Forall_impl; [| exact Hp]. exact HP.
  - repeat split; auto.
    intros e H. destruct (He e H) as [H1 | H1]; [left; now apply HE | now right].
Qed.

(** A handler takes the exceptions it names, those of the store among
    them, out of what leaves the guarded computation. *)
Lemma confined_at_try_except {A : Type} (P : Call -> Prop)
  (E1 E : exn -> Prop) (m : M A) (caught : exn -> bool) (h : M A)
  (w : World) :
  confined_at P E1 m w ->
  (forall e, E1 e -> caught e = true \/ E e) ->
  (forall e w1, m w = (Raise e, w1) -> caught e = true ->
                confined_at P E h w1) ->
  confined_at P E (try_except m caught h) w.
Proof.
  unfold confined_at, try_except.
  intros ((cs1 & Hc1 & Hp1) & Hf1 & Hs1 & Hh1 & He1) Hcaught Hh.
  destruct (m w) as [[a | e] w1] eqn:Em; cbn [fst snd] in *.
  - split; [now exists cs1 |]. repeat split; auto. discriminate.
  - destruct (caught e) eqn:Ec.
    + destruct (Hh e w1 eq_refl Ec)
        as ((cs2 & Hc2 & Hp2) & Hf2 & Hs2 & Hh2 & He2).
      split; [exists (cs1 ++ cs2)%list; split |].
      * now rewrite Hc2, Hc1, app_assoc.
      * apply Forall_app. now split.
      * repeat split; try congruence.
        intros e' He'. destruct (He2 e' He') as [H | [n H]]; [now left |].
        right. exists n. now rewrite <- Hf1.
    + split; [now exists cs1 |]. repeat split; auto.
      intros e' [= <-]. destruct (He1 e eq_refl) as [H | H]; [| now right].
      destruct (Hcaught e H) as [H1 | H1]; [congruence | now left].
Qed.

(** A computation that makes no call and always returns. *)
Lemma confined_at_silent {A : Type} (P : Call -> Prop) (E : exn -> Prop)
  (m : M A) (w : World) (a : A) (w' : World) :
  m w = (Ok a, w') -> extends w w' [] -> confined_at P E m w.
Proof.
  intros Hm (Hc & Hf & _ & Hs & Hh). unfold confined_at. rewrite Hm.
  cbn [fst snd].
  split; [exists []; split; [exact Hc | constructor] |].
  repeat split; auto. discriminate.
Qed.

Lemma confined_at_read {A : Type} (P : Call -> Prop) (E : exn -> Prop)
  (c : Call) (a : World -> A) (w : World) :
  P c -> confined_at P E (fun w => (Ok (a w), record c w)) w.
Proof.
  intros Hc. unfold confined_at; cbn [fst snd].
  split; [exists [c]; split; [reflexivity | now constructor] |].
  repeat split; try reflexivity. discriminate.
Qed.

Lemma confined_at_datetime_now (P : Call -> Prop) (E : exn -> Prop)
  (w : World) :
  confined_at P E datetime_now w.
Proof.
  eapply confined_at_silent; [reflexivity | apply extends_tick].
Qed.

Lemma confined_at_minus_days (P : Call -> Prop) (E : exn -> Prop) (d n : Z)
  (w : World) :
  E OverflowError -> confined_at P E (minus_days d n) w.
Proof.
  intros He. unfold minus_days.
  destruct ((0 <=? d - n * DAY) && (d - n * DAY <=? DATETIME_MAX));
    [apply confined_at_ret | now apply confined_at_raise].
Qed.

(** A mutation whose effect is on the labels of the pages only. *)
Lemma confined_at_mutate (P : Call -> Prop) (E : exn -> Prop) (c : Call)
  (effect : World -> World) (w : World) :
  P c ->
  (forall w0, calls (effect w0) = calls w0 /\
              mutation_fault (effect w0) = mutation_fault w0 /\
              space_content (effect w0) = space_content w0 /\
              page_history (effect w0) = page_history w0) ->
  confined_at P E (client.mutate c effect) w.
Proof.
  intros Hc Heff. unfold confined_at, client.mutate.
  destruct (mutation_fault w (List.length (calls w))) as [e |] eqn:Ef;
    cbn [fst snd].
  - split; [exists [c]; split; [reflexivity | now constructor] |].
    repeat split; try reflexivity.
    intros e' [= <-]. right. now exists (List.length (calls w)).
  - destruct (Heff (record c w)) as (H1 & H2 & H3 & H4).
    split; [exists [c]; split; [now rewrite H1 | now constructor] |].
    repeat split; try assumption. discriminate.
Qed.

Lemma confined_at_remove_page_label (P : Call -> Prop) (E : exn -> Prop)
  (page_id lbl : string) (w : World) :
  P (RemovePageLabel page_id lbl) ->
  confined_at P E (client.remove_page_label page_id lbl) w.
Proof.
  intros H. apply confined_at_mutate; [exact H |]. intros w0. now cbn.
Qed.

Lemma confined_at_set_page_label (P : Call -> Prop) (E : exn -> Prop)
  (page_id lbl : string) (w : World) :
  P (SetPageLabel page_id lbl) ->
  confined_at P E (client.set_page_label page_id lbl) w.
Proof.
  intros H. apply confined_at_mutate; [exact H |]. intros w0. now cbn.
Qed.

Lemma confined_at_for_each {A : Type} (P : Call -> Prop) (E : exn -> Prop)
  (body : A -> M unit) (l : list A) :
  (forall x w, In x l -> confined_at P E (body x) w) ->
  forall w, confined_at P E (for_each l body) w.
Proof.
  induction l as [| x l IH]; intros Hb w; cbn [for_each].
  - apply confined_at_ret.
  - apply confined_at_bind; [apply Hb; now left |].
    intros _ w1 _. apply IH. intros y w2 Hy. apply Hb. now right.
Qed.

Lemma confined_at_for_list {A B : Type} (P : Call -> Prop) (E : exn -> Prop)
  (f : A -> M B) (l : list A) :
  (forall x w, In x l -> confined_at P E (f x) w) ->
  forall w, confined_at P E (for_list l f) w.
Proof.
  induction l as [| x l IH]; intros Hf w; cbn [for_list].
  - apply confined_at_ret.
  - apply confined_at_bind; [apply Hf; now left |].
    intros y w1 _. apply confined_at_bind.
    + apply IH. intros z w2 Hz. apply Hf. now right.
    + intros ys w2 _. apply confined_at_ret.
Qed.

(** ** The calls and the exceptions of each function *)

Lemma confined_at_discover_loop (space : string) (max limit : Z) (fuel : nat) :
  forall (start count : Z) (pages : list PageSummary) (w : World),
    confined_at
      (fun c => exists st li, c = GetAllPagesFromSpace space st li)
      (fun e => e = NoProgress)
      (discover_loop fuel space max limit start count pages) w.
Proof.
  induction fuel as [| fuel IH]; intros start count pages w;
    cbn [discover_loop]; [now apply confined_at_raise |].
  destruct (count <? max); [| apply confined_at_ret].
  apply confined_at_bind.
  - apply (confined_at_read _ _ (GetAllPagesFromSpace space start limit)).
    now exists start, limit.
  - intros all_pages w1 _.
    destruct (Py.len all_pages =? 0); [apply confined_at_ret | apply IH].
Qed.

(** Discovery asks for the pages of its space and does nothing else; no
    exception leaves it. *)
Lemma confined_discover_all_pages_in_space (space : string) (max limit : Z) :
  confined (fun c => exists st li, c = GetAllPagesFromSpace space st li)
    never (discover_all_pages_in_space space max limit).
Proof.
  intros w.
  destruct (discover_all_pages_in_space_progress space max limit w)
    as (found & w' & Hrun).
  pose proof (confined_at_discover_loop space max
                (if limit >? max then max else limit)
                (S (S (List.length (space_content w space)))) 0 0 [] w)
    as (Hc & Hf & Hs & Hh & _).
  unfold confined_at.
  change (discover_all_pages_in_space space max limit w)
    with (discover_loop (S (S (List.length (space_content w space)))) space
            max (if limit >? max then max else limit) 0 0 [] w) in *.
  repeat split; auto. rewrite Hrun. discriminate.
Qed.

Lemma confined_discover_page_labels (page_id : string) :
  confined (fun c => c = GetPageLabels page_id) never
    (discover_page_labels page_id).
Proof.
  intros w. unfold discover_page_labels. apply confined_at_bind.
  - now apply (confined_at_read _ _ (GetPageLabels page_id)).
  - intros ls w1 _. destruct (Py.len ls =? 0); apply confined_at_ret.
Qed.

Section Confinement.

Variable strptime : string -> option Z.
Variable parse : string -> option Z.
Variable target_labels : list string.

(** The classification of a page reads its history and does nothing else;
    it fails on a timestamp that does not read, on a threshold date out of
    range, and on a target label that is missing. *)
Lemma confined_discover_page_state (page_id : string)
  (rotten_days stale_days : Z) :
  confined (fun c => c = GetHistory page_id)
    (fun e => classification_error e \/
              (e = IndexError /\ (List.length target_labels < 3)%nat))
    (discover_page_state strptime target_labels page_id
       rotten_days stale_days).
Proof.
  set (E := fun e => classification_error e \/
                     (e = IndexError /\ (List.length target_labels < 3)%nat)).
  assert (Hindex : forall k w, (k < 3)%nat ->
            confined_at (fun c => c = GetHistory page_id) E
              (index target_labels k) w).
  { intros k w Hk. unfold index.
    destruct (nth_error target_labels k) eqn:En; [apply confined_at_ret |].
    apply confined_at_raise. right. split; [reflexivity |].
    apply nth_error_None in En. lia. }
  intros w. unfold discover_page_state.
  apply confined_at_bind;
    [now apply (confined_at_read _ _ (GetHistory page_id)) |].
  intros h w1 _. apply confined_at_bind.
  { unfold datetime_strptime. destruct (strptime _);
      [apply confined_at_ret | apply confined_at_raise].
    left. now left. }
  intros last w2 _.
  apply confined_at_bind; [apply confined_at_datetime_now |].
  intros n1 w3 _. apply confined_at_bind.
  { apply confined_at_minus_days. left. now right. }
  intros d1 w4 _.
  apply confined_at_bind; [apply confined_at_datetime_now |].
  intros n2 w5 _. apply confined_at_bind.
  { apply confined_at_minus_days. left. now right. }
  intros d2 w6 _. apply confined_at_bind; [apply Hindex; lia |].
  intros st w7 _. apply confined_at_bind.
  - destruct (last <? d1); [apply Hindex; lia |].
    destruct (last <? d2); [apply Hindex; lia | apply confined_at_ret].
  - intros st' w8 _. apply confined_at_ret.
Qed.

(** The test for a lifecycle-ignore label makes no call and lets no
    exception out. *)
Lemma confined_check_lifecycle_ignore (P : Call -> Prop) (E : exn -> Prop)
  (current_label : string) (st : Scan) (w : World) :
  confined_at P E (check_lifecycle_ignore parse current_label st) w.
Proof.
  destruct (check_lifecycle_ignore_cases parse current_label st w)
    as (fl & st' & w' & Hrun & Hext & _).
  eapply confined_at_silent; eassumption.
Qed.

Variable page_id : string.
Variable desired_label : string.

Section Removals.

(** The first loop and the scan make no call but removals of deprecated
    and of undesirable labels of the page: [P] is any property of calls
    that these removals have. *)
Variable P : Call -> Prop.

Hypothesis P_removal :
  forall l,
    In l deprecated_labels \/
    In l (undesirable target_labels desired_label) ->
    P (RemovePageLabel page_id l).

Lemma confined_remove_deprecated_in (results : list Label) (w : World) :
  confined_at P never (remove_deprecated page_id results) w.
Proof.
  unfold remove_deprecated. apply confined_at_for_each.
  intros lbl w1 _. apply confined_at_for_each.
  intros deprecated w2 Hd.
  destruct (String.eqb_spec deprecated (label lbl)) as [<- | _];
    [| apply confined_at_ret].
  apply confined_at_remove_page_label. apply P_removal. now left.
Qed.

Lemma confined_scan_label_in (x : Label) (st : Scan) (w : World) :
  confined_at P never
    (scan_label parse page_id desired_label
       (undesirable target_labels desired_label) x st) w.
Proof.
  unfold scan_label. apply confined_at_bind;
    [apply confined_check_lifecycle_ignore |].
  intros [[|] st1] w1 _; [apply confined_at_ret |].
  apply confined_at_bind.
  - destruct (labelling_required st1 &&
              Py.mem (label x) (undesirable target_labels desired_label))
      eqn:Hc; [| apply confined_at_ret].
    apply andb_true_iff in Hc as [_ Hmem]. apply mem_In in Hmem.
    apply (confined_at_try_except _ never).
    + apply confined_at_bind.
      * apply confined_at_remove_page_label. apply P_removal. now right.
      * intros _ w2 _. apply confined_at_ret.
    + intros e [].
    + intros e w2 _ _. apply confined_at_ret.
  - intros continue w2 _. destruct continue; [apply confined_at_ret |].
    destruct (labelling_required st1 && String.eqb (label x) desired_label);
      apply confined_at_ret.
Qed.

Lemma confined_scan_labels_in (results : list Label) :
  forall (st : Scan) (w : World),
    confined_at P never
      (scan_labels parse page_id desired_label
         (undesirable target_labels desired_label) results st) w.
Proof.
  induction results as [| x rest IH]; intros st w; cbn [scan_labels].
  - apply confined_at_ret.
  - apply confined_at_bind; [apply confined_scan_label_in |].
    intros [[|] st1] w1 _; [apply confined_at_ret | apply IH].
Qed.

End Removals.

Lemma label_call_removal (l : string) :
  In l deprecated_labels \/
  In l (undesirable target_labels desired_label) ->
  label_call target_labels page_id desired_label
    (RemovePageLabel page_id l).
Proof. intros H. cbn. now split. Qed.

Lemma confined_action_set_page_label :
  confined (label_call target_labels page_id desired_label) never
    (action_set_page_label parse target_labels page_id desired_label).
Proof.
  intros w. unfold action_set_page_label. apply confined_at_bind.
  - now apply (confined_at_read _ _ (GetPageLabels page_id)).
  - intros results w1 _. unfold set_page_label_from.
    fold (undesirable target_labels desired_label).
    apply confined_at_bind;
      [apply confined_remove_deprecated_in, label_call_removal |].
    intros _ w2 _. apply confined_at_bind;
      [apply confined_scan_labels_in, label_call_removal |].
    intros st w3 _. destruct (labelling_required st).
    + apply (confined_at_try_except _ never).
      * apply confined_at_bind.
        -- apply confined_at_set_page_label. now cbn.
        -- intros _ w4 _. apply confined_at_ret.
      * intros e [].
      * intros e w4 _ _. apply confined_at_ret.
    + destruct (triggered_lifecycle_exception st); apply confined_at_ret.
Qed.

End Confinement.

(** ** The classification phase *)

Lemma for_list_map {A B C : Type} (f : A -> M B) (g : B -> C) (h : A -> C) :
  (forall x w y w', f x w = (Ok y, w') -> g y = h x) ->
  forall l w ys w', for_list l f w = (Ok ys, w') -> map g ys = map h l.
Proof.
  intros Hf. induction l as [| x l IH]; intros w ys w' H; cbn [for_list] in H.
  - now injection H as <- _.
  - bind_inv H. bind_inv H. injection H as <- _. cbn [map].
    f_equal; [eapply Hf; eassumption | eapply IH; eassumption].
Qed.

(** What a list comprehension over calls that each make the one call
    [c x] adds to the calls, when it succeeds. *)
Lemma for_list_calls {A B : Type} (f : A -> M B) (c : A -> Call) :
  (forall x w y w', f x w = (Ok y, w') -> calls w' = (calls w ++ [c x])%list) ->
  forall l w ys w',
    for_list l f w = (Ok ys, w') -> calls w' = (calls w ++ map c l)%list.
Proof.
  intros Hf. induction l as [| x l IH]; intros w ys w' H; cbn [for_list] in H.
  - injection H as _ <-. cbn. now rewrite app_nil_r.
  - bind_inv H. bind_inv H. injection H as _ <-. cbn [map].
    rewrite (IH _ _ _ H1), (Hf _ _ _ _ H0), <- app_assoc. reflexivity.
Qed.

Lemma discover_page_labels_ok (page_id : string) (w : World)
  (y : PageLabels) (w' : World) :
  discover_page_labels page_id w = (Ok y, w') ->
  pl_page_id y = page_id /\ calls w' = (calls w ++ [GetPageLabels page_id])%list.
Proof.
  unfold discover_page_labels, bind, client.get_page_labels.
  destruct (Py.len (page_labels w page_id) =? 0);
    intros [= <- <-]; now split.
Qed.

Lemma quiet_ret {A : Type} (a : A) : quiet (ret a).
Proof. intros w a' w' [= _ <-]. reflexivity. Qed.

Lemma quiet_raise {A : Type} (e : exn) : quiet (@raise A e).
Proof. intros w a' w' H. discriminate H. Qed.

Lemma quiet_bind {A B : Type} (m : M A) (k : A -> M B) :
  quiet m -> (forall a, quiet (k a)) -> quiet (bind m k).
Proof.
  intros Hm Hk w b w' H. bind_inv H.
  rewrite (Hk _ _ _ _ H), (Hm _ _ _ H0). reflexivity.
Qed.

Lemma quiet_datetime_now : quiet datetime_now.
Proof. intros w a w' [= _ <-]. reflexivity. Qed.

Lemma quiet_minus_days (d n : Z) : quiet (minus_days d n).
Proof.
  unfold minus_days. destruct (_ && _); [apply quiet_ret | apply quiet_raise].
Qed.

Lemma quiet_index {A : Type} (l : list A) (i : nat) : quiet (index l i).
Proof.
  unfold index. destruct (nth_error l i); [apply quiet_ret | apply quiet_raise].
Qed.

Section Classification.

Variable strptime : string -> option Z.
Variable target_labels : list string.

Lemma discover_page_state_ok (p : string) (rotten_days stale_days : Z)
  (w : World) (ps : PageState) (w' : World) :
  discover_page_state strptime target_labels p rotten_days stale_days w =
    (Ok ps, w') ->
  page_id ps = p /\ calls w' = (calls w ++ [GetHistory p])%list.
Proof.
  intros H. split.
  - unfold discover_page_state in H. do 8 bind_inv H.
    now injection H as <- _.
  - unfold discover_page_state in H. bind_inv H.
    injection H0 as _ <-.
    assert (Hq : calls w' = calls (record (GetHistory p) w)); [| exact Hq].
    revert H. apply quiet_bind.
    { unfold datetime_strptime. destruct (strptime _);
        [apply quiet_ret | apply quiet_raise]. }
    intros last. apply quiet_bind; [apply quiet_datetime_now | intros n1].
    apply quiet_bind; [apply quiet_minus_days | intros d1].
    apply quiet_bind; [apply quiet_datetime_now | intros n2].
    apply quiet_bind; [apply quiet_minus_days | intros d2].
    apply quiet_bind; [apply quiet_index | intros st].
    apply quiet_bind; [| intros st'; apply quiet_ret].
    destruct (_ <? _); [apply quiet_index |].
    destruct (_ <? _); [apply quiet_index | apply quiet_ret].
Qed.

(** The pages are classified one by one in the order they were discovered
    in, and the phase makes one call for the labels and one for the history
    of each page, although the labels are not used. *)
Lemma classify_pages_ok (arguments : Args) (w : World)
  (pages : list PageSummary) (w1 : World)
  (pages_with_states : list PageState) (w' : World) :
  discover_all_pages_in_space (space arguments) (maxpages arguments) 500 w =
    (Ok pages, w1) ->
  classify_pages strptime target_labels arguments w =
    (Ok pages_with_states, w') ->
  map page_id pages_with_states = map id pages /\
  calls w' =
    (calls w1 ++ map GetPageLabels (map id pages)
              ++ map GetHistory (map id pages))%list.
Proof.
  intros Hd H. unfold classify_pages in H.
  bind_inv H. rewrite Hd in H0. injection H0 as <- <-.
  bind_inv H. rename a into pls.
  assert (Hids : map pl_page_id pls = map id pages).
  { eapply for_list_map; [| exact H0].
    intros x w2 y w3 Hy. now apply discover_page_labels_ok in Hy. }
  assert (Hc1 : calls w0 = (calls w1 ++ map GetPageLabels (map id pages))%list).
  { rewrite map_map.
    eapply (for_list_calls _ (fun i => GetPageLabels (id i))); [| exact H0].
    intros x w2 y w3 Hy. now apply discover_page_labels_ok in Hy. }
  split.
  - rewrite <- Hids. eapply for_list_map; [| exact H].
    intros x w2 y w3 Hy. now apply discover_page_state_ok in Hy.
  - rewrite app_assoc, <- Hc1, <- Hids, map_map.
    eapply (for_list_calls _ (fun i => GetHistory (pl_page_id i)));
      [| exact H].
    intros x w2 y w3 Hy. now apply discover_page_state_ok in Hy.
Qed.

End Classification.

(** ** The calls and the exceptions of a run *)

Lemma discover_all_pages_in_space_found (space : string) (max limit : Z)
  (w : World) (found : list PageSummary) (w' : World) :
  discover_all_pages_in_space space max limit w = (Ok found, w') ->
  forall p, In p found -> In (id p) (map id (space_content w space)).
Proof.
  intros H p Hp. unfold discover_all_pages_in_space in H.
  apply discover_loop_prefix in H; [| lia | reflexivity].
  destruct H as [n ->]. apply in_map.
  rewrite <- (firstn_skipn n (space_content w space)).
  apply in_or_app. now left.
Qed.

(** The outcome of [action_set_page_label] is never both a change and a
    lifecycle trigger. *)
Lemma action_set_page_label_outcome (parse : string -> option Z)
  (target_labels : list string) (page_id desired_label : string) (w : World)
  (change lifecycle_trigger : bool) (w' : World) :
  action_set_page_label parse target_labels page_id desired_label w =
    (Ok (change, lifecycle_trigger), w') ->
  change && lifecycle_trigger = false.
Proof.
  unfold action_set_page_label, set_page_label_from. intros H.
  do 3 bind_inv H.
  destruct (labelling_required a1).
  - unfold try_except, bind in H.
    destruct (client.set_page_label page_id desired_label w2) as [[[] | e] w3].
    + now injection H as <- <- _.
    + destruct (api_or_http e); [now injection H as <- <- _ | discriminate].
  - destruct (triggered_lifecycle_exception a1); now injection H as <- <- _.
Qed.

Section Run.

Variable strptime : string -> option Z.
Variable parse : string -> option Z.
Variables fresh stale rotten : string.
Variable arguments : Args.

Let target_labels : list string := [fresh; stale; rotten].

(** The identifiers of the pages of the space, in the world a run starts
    in. *)
Let ids (w : World) : list string :=
  map id (space_content w (space arguments)).

Lemma confined_classify_pages (w : World) :
  confined_at (run_call target_labels arguments (ids w)) classification_error
    (classify_pages strptime target_labels arguments) w.
Proof.
  unfold classify_pages. apply confined_at_bind.
  { eapply confined_at_weaken;
      [| | apply confined_discover_all_pages_in_space].
    - intros c (st & li & ->). now cbn.
    - intros e []. }
  intros pages w1 Hd.
  pose proof (discover_all_pages_in_space_found _ _ _ _ _ _ Hd) as Hin.
  apply confined_at_bind.
  { apply confined_at_for_list. intros x w2 Hx.
    eapply confined_at_weaken; [| | apply confined_discover_page_labels].
    - intros c ->. cbn. now apply Hin.
    - intros e []. }
  intros pls w2 Hpls.
  assert (Hids : map pl_page_id pls = map id pages).
  { eapply for_list_map; [| exact Hpls].
    intros x w3 y w4 Hy. now apply discover_page_labels_ok in Hy. }
  apply confined_at_for_list. intros x w3 Hx.
  eapply confined_at_weaken;
    [| | apply (confined_discover_page_state strptime target_labels)].
  - intros c ->. cbn.
    apply (in_map pl_page_id) in Hx. rewrite Hids in Hx.
    apply in_map_iff in Hx as (p & <- & Hp). now apply Hin.
  - intros e [He | [_ Hlen]]; [exact He |]. cbn in Hlen. lia.
Qed.

Lemma index_target_label (k : nat) (w : World) :
  (k < 3)%nat ->
  exists t, index target_labels k w = (Ok t, w) /\ In t target_labels.
Proof.
  intros Hk. unfold index, target_labels.
  destruct k as [| [| [| k]]]; [| | | lia]; cbn;
    eexists; (split; [reflexivity |]); auto.
Qed.

Lemma undesirable_in_targets (desired_label l : string) :
  In l (undesirable target_labels desired_label) -> In l target_labels.
Proof. unfold undesirable. rewrite filter_In. now intros [H _]. Qed.

Hypothesis not_readonly : readonly arguments = false.

Lemma confined_reconcile_pages (k : nat) (known : list string)
  (pages : list PageState) :
  (k < 3)%nat ->
  (forall p, In p pages -> In (page_id p) known) ->
  forall (updated triggers : Z) (w : World),
    confined_at (run_call target_labels arguments known) never
      (reconcile_pages parse target_labels k pages updated triggers) w.
Proof.
  intros Hk. induction pages as [| page rest IH];
    intros Hin updated triggers w; cbn [reconcile_pages].
  - apply confined_at_ret.
  - destruct (index_target_label k w Hk) as (t & Ht & Hint).
    apply confined_at_bind.
    { eapply confined_at_silent; [exact Ht | apply extends_refl]. }
    intros t' w1 Ht'. rewrite Ht in Ht'. injection Ht' as <- <-.
    apply confined_at_bind.
    + eapply confined_at_weaken;
        [| | apply (confined_action_set_page_label parse target_labels)].
      * assert (Hp : In (page_id page) known) by (apply Hin; now left).
        intros [] Hc; cbn [label_call run_call] in Hc |- *;
          try contradiction.
        -- now subst.
        -- destruct Hc as [-> Hl]. split; [exact not_readonly |].
           split; [exact Hp |].
           destruct Hl as [Hl | Hl];
             [now left | right; now apply undesirable_in_targets in Hl].
        -- destruct Hc as [-> ->]. split; [exact not_readonly |].
           left. now split.
      * intros e He. exact He.
    + intros [change lifecycle_trigger] w2 _. apply IH.
      intros p Hp. apply Hin. now right.
Qed.

Lemma reconcile_pages_counters (k : nat) (pages : list PageState) :
  forall (updated triggers : Z) (w : World) (updated' triggers' : Z)
         (w' : World),
    reconcile_pages parse target_labels k pages updated triggers w =
      (Ok (updated', triggers'), w') ->
    updated <= updated' /\ triggers <= triggers' /\
    (updated' - updated) + (triggers' - triggers) <= Py.len pages.
Proof.
  induction pages as [| page rest IH];
    intros updated triggers w updated' triggers' w' H;
    cbn [reconcile_pages] in H.
  - injection H as <- <- _. unfold Py.len; cbn. lia.
  - do 2 bind_inv H. destruct a0 as [change lifecycle_trigger].
    apply action_set_page_label_outcome in H1.
    apply IH in H. unfold Py.len in *. cbn [List.length].
    destruct change, lifecycle_trigger; cbn in H1; try discriminate; lia.
Qed.

End Run.

Section RunEffects.

Variable strptime : string -> option Z.
Variable parse : string -> option Z.
Variables fresh stale rotten : string.
Variable arguments : Args.

Let target_labels : list string := [fresh; stale; rotten].

Lemma classified_pages_known (w : World) (pages_with_states : list PageState)
  (w1 : World) :
  classify_pages strptime target_labels arguments w =
    (Ok pages_with_states, w1) ->
  forall p, In p pages_with_states ->
            In (page_id p) (map id (space_content w (space arguments))).
Proof.
  intros Hc p Hp.
  destruct (discover_all_pages_in_space_progress (space arguments)
              (maxpages arguments) 500 w) as (pages & w0 & Hd).
  destruct (classify_pages_ok strptime target_labels arguments w pages w0
              pages_with_states w1 Hd Hc) as [Hids _].
  apply (in_map page_id) in Hp. rewrite Hids in Hp.
  apply in_map_iff in Hp as (q & <- & Hq).
  eapply discover_all_pages_in_space_found; eassumption.
Qed.

Lemma confined_update_report (known : list string) (t : Tallies)
  (counters : Z * Z * (Z * Z) * (Z * Z)) (w : World) :
  readonly arguments = false -> updatepage arguments = true ->
  confined_at (run_call target_labels arguments known) never
    (update_report arguments t counters) w.
Proof.
  intros Hro Hup. destruct counters as [[r s] f]. unfold update_report.
  apply confined_at_bind.
  { apply confined_at_mutate; [now cbn |]. intros w0. now cbn. }
  intros _ w1 _. apply confined_at_bind.
  { apply confined_at_mutate; [now cbn |]. intros w0. now cbn. }
  intros _ w2 _. apply confined_at_set_page_label.
  cbn. split; [exact Hro |]. right. now repeat split.
Qed.

(** A run makes the calls of [run_call] only, and the only exceptions that
    leave it are those of the classification and the faults of the
    store. *)
Lemma confined_manage_pages_in_space (w : World) :
  confined_at
    (run_call target_labels arguments
       (map id (space_content w (space arguments))))
    classification_error
    (manage_pages_in_space strptime parse target_labels arguments) w.
Proof.
  unfold manage_pages_in_space.
  apply confined_at_bind;
    [apply (confined_classify_pages strptime fresh stale rotten) |].
  intros pws w1 Hc.
  pose proof (classified_pages_known w pws w1 Hc) as Hknown.
  apply confined_at_bind.
  { eapply confined_at_silent;
      [apply (partition_pages_buckets fresh stale rotten) |
       apply extends_refl]. }
  intros buckets w2 Hb.
  rewrite (partition_pages_buckets fresh stale rotten) in Hb.
  injection Hb as <- <-.
  assert (Hbucket : forall t p, In p (bucket t pws) ->
            In (page_id p) (map id (space_content w (space arguments)))).
  { intros t p Hp. apply In_bucket in Hp as [Hp _]. now apply Hknown. }
  apply confined_at_bind.
  { destruct (readonly arguments) eqn:Hro; cbn [negb];
      [apply confined_at_ret |].
    apply confined_at_bind; [| intros c w3 _; apply confined_at_ret].
    eapply confined_at_weaken with (E := never);
      [intros c Hc'; exact Hc' | intros e [] |].
    unfold reconcile_buckets.
    apply confined_at_bind;
      [apply (confined_reconcile_pages parse fresh stale rotten);
       [exact Hro | lia | apply Hbucket] |].
    intros r w3 _. apply confined_at_bind;
      [apply (confined_reconcile_pages parse fresh stale rotten);
       [exact Hro | lia | apply Hbucket] |].
    intros s w4 _. apply confined_at_bind;
      [apply (confined_reconcile_pages parse fresh stale rotten);
       [exact Hro | lia | apply Hbucket] |].
    intros f w5 _. apply confined_at_ret. }
  intros counters w3 _.
  apply confined_at_bind; [| intros _ w4 _; apply confined_at_ret].
  destruct (negb (readonly arguments) && updatepage arguments) eqn:Hup;
    [| apply confined_at_ret].
  destruct counters as [c |]; [| apply confined_at_ret].
  apply andb_true_iff in Hup as [Hro Hup]. apply negb_true_iff in Hro.
  eapply confined_at_weaken with (E := never);
    [intros c' Hc'; exact Hc' | intros e [] |].
  now apply confined_update_report.
Qed.

End RunEffects.

(** ** A run started by [main] *)

(** X4.  Every call of a run started by [main] is a call of [run_call]:
    requests for the pages of the space of the run; reads of the labels and
    the history of pages of that space; in a run that is not read-only,
    removals of deprecated or target labels from pages of that space and
    settings of target labels on them; and, when the report is asked for,
    the attachment of the chart to the report page, its update and its
    label [lifecycle_ignore].  No other label and no other page is
    touched, whatever the store answers. *)
Theorem main_calls (strptime parse : string -> option Z)
  (arguments : Namespace) (w : World) :
  exists cs,
    calls (snd (main strptime parse arguments w)) = (calls w ++ cs)%list /\
    Forall
      (run_call
         [freshlabel arguments; stalelabel arguments; rottenlabel arguments]
         (run arguments)
         (map id (space_content w (space (run arguments)))))
      cs.
Proof.
  unfold main.
  exact (proj1 (confined_manage_pages_in_space strptime parse
                  (freshlabel arguments) (stalelabel arguments)
                  (rottenlabel arguments) (run arguments) w)).
Qed.



(** ** The report of a run *)

Lemma mutate_ok_calls (c : Call) (effect : World -> World) (w : World)
  (u : unit) (w' : World) :
  (forall w0, calls (effect w0) = calls w0) ->
  client.mutate c effect w = (Ok u, w') ->
  calls w' = (calls w ++ [c])%list.
Proof.
  intros Heff. unfold client.mutate.
  destruct (mutation_fault w (List.length (calls w))); [discriminate |].
  intros [= _ <-]. now rewrite Heff.
Qed.

Ltac bind_inv_as H a w H1 :=
  apply bind_inv_ok in H; destruct H as (a & w & H1 & H).

Section Report.

Variable strptime : string -> option Z.
Variable parse : string -> option Z.
Variables fresh stale rotten : string.
Variable arguments : Args.

Let target_labels : list string := [fresh; stale; rotten].

Hypothesis not_readonly : readonly arguments = false.

(** The three loops over the buckets touch the pages of the buckets
    only. *)
Lemma confined_reconcile_buckets
  (all_rotten_pages all_stale_pages all_fresh_pages : list PageState)
  (w : World) :
  confined_at
    (run_call target_labels arguments
       (map page_id (all_rotten_pages ++ all_stale_pages ++ all_fresh_pages)))
    never
    (reconcile_buckets parse target_labels
       (all_rotten_pages, all_stale_pages, all_fresh_pages)) w.
Proof.
  unfold reconcile_buckets.
  apply confined_at_bind;
    [apply (confined_reconcile_pages parse fresh stale rotten);
     [exact not_readonly | lia |
      intros p Hp; apply in_map; apply in_or_app; now left] |].
  intros r w1 _. apply confined_at_bind;
    [apply (confined_reconcile_pages parse fresh stale rotten);
     [exact not_readonly | lia |
      intros p Hp; apply in_map; apply in_or_app; right;
      apply in_or_app; now left] |].
  intros s w2 _. apply confined_at_bind;
    [apply (confined_reconcile_pages parse fresh stale rotten);
     [exact not_readonly | lia |
      intros p Hp; apply in_map; apply in_or_app; right;
      apply in_or_app; now right] |].
  intros f w3 _. apply confined_at_ret.
Qed.

Hypothesis with_report : updatepage arguments = true.

(** X7.  In a run that writes the report and ends, the report is written
    last, by the attachment of the chart, the update of the page and its
    label [lifecycle_ignore]; the page counts in its body are the counts of
    the run, the total is their sum, and in every phase the pages changed
    and the pages held back by a lifecycle label are together no more than
    the pages of the phase. *)
Theorem report_is_consistent (w : World) (t : Tallies) (w' : World) :
  manage_pages_in_space strptime parse target_labels arguments w =
    (Ok t, w') ->
  exists cs body,
    calls w' =
      (calls w ++ cs ++
       [AttachFile "pie.png" (pageid arguments);
        UpdatePage (pageid arguments) "Confluence Page Lifecycle Report" body;
        SetPageLabel (pageid arguments) "lifecycle_ignore"])%list /\
    freshPages body = fresh_pages t /\
    stalePages body = stale_pages t /\
    rottenPages body = rotten_pages t /\
    totalPagesManaged body = total_pages_managed t /\
    totalPagesManaged body =
      freshPages body + stalePages body + rottenPages body /\
    (0 <= freshPagesChanged body /\ 0 <= freshPagesLifecycleTrigger body /\
     freshPagesChanged body + freshPagesLifecycleTrigger body
       <= freshPages body) /\
    (0 <= stalePagesChanged body /\ 0 <= stalePagesLifecycleTrigger body /\
     stalePagesChanged body + stalePagesLifecycleTrigger body
       <= stalePages body) /\
    (0 <= rottenPagesChanged body /\ 0 <= rottenPagesLifecycleTrigger body /\
     rottenPagesChanged body + rottenPagesLifecycleTrigger body
       <= rottenPages body).
Proof.
  intros H. unfold manage_pages_in_space in H.
  rewrite not_readonly, with_report in H. cbn [negb andb] in H.
  bind_inv_as H pws w1 Hclass.
  bind_inv_as H buckets w2 Hpart.
  rewrite (partition_pages_buckets fresh stale rotten) in Hpart.
  injection Hpart as <- <-.
  bind_inv_as H counters w3 Hrec.
  bind_inv_as Hrec c w3' Hrec'. injection Hrec as <- <-.
  bind_inv_as H u w4 Hrep. injection H as <- <-.
  (* the calls up to the report *)
  pose proof (confined_classify_pages strptime fresh stale rotten
                arguments w) as ((cs1 & Hc1 & _) & _).
  fold target_labels in Hc1. rewrite Hclass in Hc1. cbn [snd] in Hc1.
  pose proof (confined_reconcile_buckets (bucket rotten pws)
                (bucket stale pws) (bucket fresh pws) w1)
    as ((cs2 & Hc2 & _) & _).
  rewrite Hrec' in Hc2. cbn [snd] in Hc2.
  (* the counters *)
  unfold reconcile_buckets in Hrec'.
  bind_inv_as Hrec' r w5 Hr. destruct r as [ru rt].
  apply reconcile_pages_counters in Hr.
  bind_inv_as Hrec' s w6 Hs. destruct s as [su st].
  apply reconcile_pages_counters in Hs.
  bind_inv_as Hrec' f w7 Hf. destruct f as [fu ft].
  apply reconcile_pages_counters in Hf.
  injection Hrec' as <- _.
  (* the report *)
  unfold update_report in Hrep.
  bind_inv_as Hrep u1 w8 Hattach.
  apply mutate_ok_calls in Hattach; [| reflexivity].
  bind_inv_as Hrep u2 w9 Hupdate.
  apply mutate_ok_calls in Hupdate; [| reflexivity].
  apply mutate_ok_calls in Hrep; [| reflexivity].
  eexists (cs1 ++ cs2)%list, _.
  split.
  { rewrite Hrep, Hupdate, Hattach, Hc2, Hc1.
    rewrite <- !app_assoc. reflexivity. }
  cbn [freshPages stalePages rottenPages totalPagesManaged
         freshPagesChanged stalePagesChanged rottenPagesChanged
         freshPagesLifecycleTrigger stalePagesLifecycleTrigger
         rottenPagesLifecycleTrigger count_pages fresh_pages stale_pages
         rotten_pages total_pages_managed fst snd].
  repeat split; try reflexivity; lia.
Qed.

End Report.

(** The library: one page a phase; A is up to date, B is held back by its
    lifecycle label, and the label of C is changed. *)
Lemma report_is_consistent_witness :
  exists t w' cs body,
    manage_pages_in_space Sample.strptime Sample.parse Sample.target_labels
      (Sample.arguments false true) Sample.library = (Ok t, w') /\
    calls w' =
      (calls Sample.library ++ cs ++
       [AttachFile "pie.png" "R";
        UpdatePage "R" "Confluence Page Lifecycle Report" body;
        SetPageLabel "R" "lifecycle_ignore"])%list /\
    rottenPagesChanged body + rottenPagesLifecycleTrigger body
      <= rottenPages body.
Proof.
  do 2 eexists.
  assert (H : manage_pages_in_space Sample.strptime Sample.parse
                Sample.target_labels (Sample.arguments false true)
                Sample.library = (Ok _, _)) by (vm_compute; reflexivity).
  destruct (report_is_consistent Sample.strptime Sample.parse
              "lifecycle_phase=fresh" "lifecycle_phase=stale"
              "lifecycle_phase=rotten" (Sample.arguments false true)
              eq_refl eq_refl Sample.library _ _ H)
    as (cs & body & Hc & _ & _ & _ & _ & _ & _ & _ & _ & _ & Hr).
  exists cs, body. split; [exact H |]. split; [exact Hc | exact Hr].
Defined.

(** ** Runs that stop early *)

Lemma for_list_fails {A B : Type} (I : World -> Prop) (f : A -> M B) (x : A) :
  (forall y w, I w -> I (snd (f y w))) ->
  (forall w, I w -> exists e w', f x w = (Raise e, w')) ->
  forall l w, In x l -> I w -> exists e w', for_list l f w = (Raise e, w').
Proof.
  intros Hkeep Hfail. induction l as [| a l IH]; intros w Hin Hi;
    [now elim Hin |].
  cbn [for_list]. unfold bind at 1.
  destruct Hin as [<- | Hin].
  - destruct (Hfail w Hi) as (e & w' & ->). eauto.
  - destruct (f a w) as [[y | e] w1] eqn:E; [| eauto].
    assert (Hi1 : I w1) by (specialize (Hkeep a w Hi); now rewrite E in Hkeep).
    destruct (IH w1 Hin Hi1) as (e & w' & He).
    unfold bind. rewrite He. eauto.
Qed.

Section EarlyStop.

Variable strptime : string -> option Z.
Variable parse : string -> option Z.
Variable target_labels : list string.
Variable arguments : Args.

(** A timestamp that does not read: the classification of the page fails
    with [ValueError] once the history is fetched. *)
Lemma discover_page_state_bad_timestamp (p : string)
  (rotten_days stale_days : Z) (w : World) :
  strptime (cleaned_timestamp w p) = None ->
  discover_page_state strptime target_labels p rotten_days stale_days w =
  (Raise ValueError, record (GetHistory p) w).
Proof.
  intros H. unfold discover_page_state, bind at 1, client.history.
  unfold bind at 1, datetime_strptime. unfold cleaned_timestamp in H.
  now rewrite H.
Qed.

(** X8.  A page of the discovered pages whose timestamp does not read
    makes the whole run fail, and no mutation has been made by then: the
    labels of the pages classified before it are not touched either. *)
Theorem malformed_timestamp_aborts_run (w : World)
  (pages : list PageSummary) (w1 : World) (p : PageSummary) :
  discover_all_pages_in_space (space arguments) (maxpages arguments) 500 w =
    (Ok pages, w1) ->
  In p pages ->
  strptime (cleaned_timestamp w (id p)) = None ->
  exists e w',
    manage_pages_in_space strptime parse target_labels arguments w =
      (Raise e, w') /\
    mutations w' = mutations w.
Proof.
  intros Hd Hp Hts.
  assert (Hfail : exists e w',
            classify_pages strptime target_labels arguments w =
              (Raise e, w')).
  { unfold classify_pages. rewrite (bind_ok _ _ _ _ _ Hd).
    pose proof (confined_discover_all_pages_in_space (space arguments)
                  (maxpages arguments) 500 w) as (_ & _ & _ & Hh1 & _).
    rewrite Hd in Hh1. cbn [snd] in Hh1.
    unfold bind at 1.
    destruct (for_list pages (fun i => discover_page_labels (id i)) w1)
      as [[pls | e] w2] eqn:Epls; [| eauto].
    assert (Hh2 : page_history w2 = page_history w).
    { pose proof (confined_at_for_list (fun _ => True) never
                    (fun i => discover_page_labels (id i)) pages) as Hc.
      destruct (Hc (fun x w0 _ =>
                      confined_at_weaken _ _ never never _ w0
                        (fun _ _ => I) (fun _ H => H)
                        (confined_discover_page_labels (id x) w0)) w1)
        as (_ & _ & _ & Hh & _).
      rewrite Epls in Hh. cbn [snd] in Hh. congruence. }
    assert (Hids : map pl_page_id pls = map id pages).
    { eapply for_list_map; [| exact Epls].
      intros x w3 y w4 Hy. now apply discover_page_labels_ok in Hy. }
    assert (Hin : exists x, In x pls /\ pl_page_id x = id p).
    { apply (in_map id) in Hp. rewrite <- Hids in Hp.
      apply in_map_iff in Hp as (x & Hx & Hin). now exists x. }
    destruct Hin as (x & Hx & Hxp).
    apply (for_list_fails (fun w0 => page_history w0 = page_history w) _ x);
      [| | exact Hx | exact Hh2].
    - intros y w0 Hw0.
      pose proof (confined_discover_page_state strptime target_labels
                    (pl_page_id y) (rotten arguments) (stale arguments) w0)
        as (_ & _ & _ & Hh & _).
      cbn beta. congruence.
    - intros w0 Hw0. exists ValueError, (record (GetHistory (pl_page_id x)) w0).
      apply discover_page_state_bad_timestamp.
      unfold cleaned_timestamp in *. rewrite Hw0, Hxp. exact Hts. }
  destruct Hfail as (e & w' & He).
  exists e, w'. split.
  - unfold manage_pages_in_space. now apply bind_raise.
  - pose proof (reads_only_classify_pages strptime target_labels arguments w)
      as Hr.
    now rewrite He in Hr.
Qed.

(** X9.  With a maximum of pages of zero or less, a run that does not
    write the report makes no call at all and counts no page. *)
Theorem run_without_pages (w : World) :
  maxpages arguments <= 0 ->
  readonly arguments = true \/ updatepage arguments = false ->
  manage_pages_in_space strptime parse target_labels arguments w =
  (Ok {| fresh_pages := 0; stale_pages := 0; rotten_pages := 0;
         total_pages_managed := 0 |}, w).
Proof.
  intros Hmax Hflags.
  assert (Hd : discover_all_pages_in_space (space arguments)
                 (maxpages arguments) 500 w = (Ok [], w)).
  { unfold discover_all_pages_in_space. rewrite discover_loop_step.
    now replace (0 <? maxpages arguments) with false
      by (symmetry; apply Z.ltb_ge; lia). }
  unfold manage_pages_in_space, classify_pages.
  rewrite (bind_ok _ _ _ _ _ (bind_ok _ _ _ _ _ Hd)).
  cbn [for_list]. unfold bind at 1, ret at 1. cbn [for_list].
  unfold bind at 1, ret at 1.
  unfold partition_pages. cbn [pages_in_state].
  unfold bind at 1, ret at 1. unfold bind at 1, ret at 1.
  unfold bind at 1, ret at 1. unfold bind at 1, ret at 1.
  destruct Hflags as [-> | ->].
  - cbn. reflexivity.
  - rewrite andb_false_r. destruct (readonly arguments); reflexivity.
Qed.

End EarlyStop.

Lemma malformed_timestamp_aborts_run_witness :
  exists e w',
    manage_pages_in_space Sample.strptime Sample.parse Sample.target_labels
      (Sample.arguments false true) Runs.broken_library = (Raise e, w') /\
    mutations w' = mutations Runs.broken_library.
Proof.
  eapply (malformed_timestamp_aborts_run Sample.strptime Sample.parse
            Sample.target_labels (Sample.arguments false true)
            Runs.broken_library _ _ (Sample.page 1)).
  - vm_compute. reflexivity.
  - right. left. reflexivity.
  - vm_compute. reflexivity.
Defined.

Lemma run_without_pages_witness :
  manage_pages_in_space Sample.strptime Sample.parse Sample.target_labels
    {| space := "AA"; maxpages := 0; rotten := 180; stale := 90;
       readonly := false; updatepage := false; pageid := "R" |}
    Sample.library =
  (Ok {| fresh_pages := 0; stale_pages := 0; rotten_pages := 0;
         total_pages_managed := 0 |}, Sample.library).
Proof.
  apply (run_without_pages Sample.strptime Sample.parse Sample.target_labels).
  - cbn. lia.
  - now right.
Defined.

(** ** More on the state of a page *)

Section Phases.

Variable strptime : string -> option Z.
Variables fresh stale rotten : string.

(** X10.  When [stale_days] is not below [rotten_days] (by the time that
    passes between the two readings of the clock at least), the stale date
    is not after the rotten date and no page is found stale: every page is
    rotten or fresh. *)
Theorem no_stale_page_when_thresholds_cross (p : string)
  (rotten_days stale_days last_update : Z) (w : World) :
  strptime (cleaned_timestamp w p) = Some last_update ->
  0 <= clock w (ticks w) - rotten_days * DAY <= DATETIME_MAX ->
  0 <= clock w (S (ticks w)) - stale_days * DAY <= DATETIME_MAX ->
  clock w (S (ticks w)) - clock w (ticks w)
    <= (stale_days - rotten_days) * DAY ->
  exists ps,
    fst (discover_page_state strptime [fresh; stale; rotten] p
           rotten_days stale_days w) = Ok ps /\
    (state ps = rotten \/ state ps = fresh).
Proof.
  intros Hts Hr Hs Hcross.
  destruct (discover_page_state_eq strptime fresh stale rotten p
              rotten_days stale_days last_update w Hts Hr Hs)
    as (ps & Hrun & _ & Hstate).
  exists ps. split; [exact Hrun |]. rewrite Hstate.
  destruct (Z.ltb_spec last_update (clock w (ticks w) - rotten_days * DAY));
    [now left |].
  destruct (Z.ltb_spec last_update
              (clock w (S (ticks w)) - stale_days * DAY)); [lia | now right].
Qed.

(** X11.  The classification is monotone in the date of the last edit:
    of two pages classified from the same state of the clock, with distinct
    labels, the one edited earlier is rotten whenever the other is, and the
    one edited later is fresh whenever the other is. *)
Theorem older_page_is_not_fresher (p1 p2 : string)
  (rotten_days stale_days last1 last2 : Z) (w : World) :
  fresh <> stale -> fresh <> rotten -> stale <> rotten ->
  strptime (cleaned_timestamp w p1) = Some last1 ->
  strptime (cleaned_timestamp w p2) = Some last2 ->
  last1 <= last2 ->
  0 <= clock w (ticks w) - rotten_days * DAY <= DATETIME_MAX ->
  0 <= clock w (S (ticks w)) - stale_days * DAY <= DATETIME_MAX ->
  exists ps1 ps2,
    fst (discover_page_state strptime [fresh; stale; rotten] p1
           rotten_days stale_days w) = Ok ps1 /\
    fst (discover_page_state strptime [fresh; stale; rotten] p2
           rotten_days stale_days w) = Ok ps2 /\
    (state ps2 = rotten -> state ps1 = rotten) /\
    (state ps1 = fresh -> state ps2 = fresh).
Proof.
  intros Hfs Hfr Hsr Ht1 Ht2 Hle Hr Hs.
  destruct (discover_page_state_eq strptime fresh stale rotten p1
              rotten_days stale_days last1 w Ht1 Hr Hs)
    as (ps1 & Hrun1 & _ & Hst1).
  destruct (discover_page_state_eq strptime fresh stale rotten p2
              rotten_days stale_days last2 w Ht2 Hr Hs)
    as (ps2 & Hrun2 & _ & Hst2).
  exists ps1, ps2. split; [exact Hrun1 |]. split; [exact Hrun2 |].
  rewrite Hst1, Hst2.
  destruct (Z.ltb_spec last1 (clock w (ticks w) - rotten_days * DAY));
    destruct (Z.ltb_spec last2 (clock w (ticks w) - rotten_days * DAY));
    destruct (Z.ltb_spec last1 (clock w (S (ticks w)) - stale_days * DAY));
    destruct (Z.ltb_spec last2 (clock w (S (ticks w)) - stale_days * DAY));
    split; intros; try reflexivity; try congruence; lia.
Qed.

(** X12.  A threshold that puts the rotten date outside the range of
    [datetime] makes the classification of every page fail with
    [OverflowError], however recent the page. *)
Theorem threshold_out_of_range (target_labels : list string) (p : string)
  (rotten_days stale_days last_update : Z) (w : World) :
  strptime (cleaned_timestamp w p) = Some last_update ->
  clock w (ticks w) - rotten_days * DAY < 0 \/
  DATETIME_MAX < clock w (ticks w) - rotten_days * DAY ->
  fst (discover_page_state strptime target_labels p rotten_days stale_days w)
  = Raise OverflowError.
Proof.
  intros Hts Hout.
  unfold discover_page_state, bind at 1, client.history.
  unfold bind at 1, datetime_strptime. unfold cleaned_timestamp in Hts.
  rewrite Hts. unfold ret at 1. unfold bind at 1, datetime_now.
  unfold bind at 1, minus_days.
  change (clock (record (GetHistory p) w) (ticks (record (GetHistory p) w)))
    with (clock w (ticks w)).
  replace ((0 <=? clock w (ticks w) - rotten_days * DAY) &&
           (clock w (ticks w) - rotten_days * DAY <=? DATETIME_MAX))
    with false; [reflexivity |].
  symmetry. apply andb_false_iff.
  destruct Hout; [left; apply Z.leb_gt | right; apply Z.leb_gt]; lia.
Qed.

(** X13.  With [target_labels] left as the module defines it, empty, the
    classification of a page fails with [IndexError], after the history
    is fetched and the clock is read twice. *)
Theorem no_target_labels (p : string)
  (rotten_days stale_days last_update : Z) (w : World) :
  strptime (cleaned_timestamp w p) = Some last_update ->
  0 <= clock w (ticks w) - rotten_days * DAY <= DATETIME_MAX ->
  0 <= clock w (S (ticks w)) - stale_days * DAY <= DATETIME_MAX ->
  discover_page_state strptime [] p rotten_days stale_days w =
  (Raise IndexError, tick (tick (record (GetHistory p) w))).
Proof.
  intros Hts Hr Hs.
  unfold discover_page_state, bind at 1, client.history.
  unfold bind at 1, datetime_strptime. unfold cleaned_timestamp in Hts.
  rewrite Hts. unfold ret at 1. unfold bind at 1, datetime_now.
  unfold bind at 1.
  change (clock (record (GetHistory p) w) (ticks (record (GetHistory p) w)))
    with (clock w (ticks w)).
  rewrite (minus_days_in_range _ _ _ Hr).
  unfold bind at 1. unfold bind at 1.
  change (clock (tick (record (GetHistory p) w))
            (ticks (tick (record (GetHistory p) w))))
    with (clock w (S (ticks w))).
  rewrite (minus_days_in_range _ _ _ Hs).
  reflexivity.
Qed.

End Phases.

(** The thresholds swapped, 90 days for rotten and 180 for stale: page B
    of the library, 118 days old, is rotten. *)
Lemma no_stale_page_when_thresholds_cross_witness :
  exists ps,
    fst (discover_page_state Sample.strptime Sample.target_labels "B" 90 180
           Sample.library) = Ok ps /\
    (state ps = "lifecycle_phase=rotten" \/ state ps = "lifecycle_phase=fresh").
Proof.
  eapply (no_stale_page_when_thresholds_cross Sample.strptime
            "lifecycle_phase=fresh" "lifecycle_phase=stale"
            "lifecycle_phase=rotten" "B" 90 180 _ Sample.library).
  - vm_compute. reflexivity.
  - vm_compute. split; discriminate.
  - vm_compute. split; discriminate.
  - vm_compute. discriminate.
Defined.

(** Pages C and A of the library, the older one first. *)
Lemma older_page_is_not_fresher_witness :
  exists ps1 ps2,
    fst (discover_page_state Sample.strptime Sample.target_labels "C" 180 90
           Sample.library) = Ok ps1 /\
    fst (discover_page_state Sample.strptime Sample.target_labels "A" 180 90
           Sample.library) = Ok ps2 /\
    (state ps2 = "lifecycle_phase=rotten" ->
     state ps1 = "lifecycle_phase=rotten") /\
    (state ps1 = "lifecycle_phase=fresh" ->
     state ps2 = "lifecycle_phase=fresh").
Proof.
  eapply (older_page_is_not_fresher Sample.strptime
            "lifecycle_phase=fresh" "lifecycle_phase=stale"
            "lifecycle_phase=rotten" "C" "A" 180 90 _ _ Sample.library).
  - discriminate.
  - discriminate.
  - discriminate.
  - vm_compute. reflexivity.
  - vm_compute. reflexivity.
  - vm_compute. discriminate.
  - vm_compute. split; discriminate.
  - vm_compute. split; discriminate.
Defined.

(** A million days, some 2700 years, for the rotten threshold. *)
Lemma threshold_out_of_range_witness :
  fst (discover_page_state Sample.strptime Sample.target_labels "A"
         1000000 90 Sample.library) = Raise OverflowError.
Proof.
  eapply (threshold_out_of_range Sample.strptime Sample.target_labels "A"
            1000000 90 _ Sample.library).
  - vm_compute. reflexivity.
  - left. vm_compute. reflexivity.
Defined.

Lemma no_target_labels_witness :
  discover_page_state Sample.strptime [] "A" 180 90 Sample.library =
  (Raise IndexError, tick (tick (record (GetHistory "A") Sample.library))).
Proof.
  eapply (no_target_labels Sample.strptime "A" 180 90 _ Sample.library).
  - vm_compute. reflexivity.
  - vm_compute. split; discriminate.
  - vm_compute. split; discriminate.
Defined.

(** X14.  When the classification succeeds, the classified pages are the
    discovered pages in the order of their discovery, none left out and
    none twice.  After the discovery the phase fetches the labels of every
    page, in that order, and then the history of every page, once each;
    the histories are read by a pool of threads, and the order of their
    calls is left open. *)
Theorem classification_follows_discovery (strptime : string -> option Z)
  (target_labels : list string) (arguments : Args) (w : World)
  (pages : list PageSummary) (w1 : World)
  (pages_with_states : list PageState) (w' : World) :
  discover_all_pages_in_space (space arguments) (maxpages arguments) 500 w =
    (Ok pages, w1) ->
  classify_pages strptime target_labels arguments w =
    (Ok pages_with_states, w') ->
  map page_id pages_with_states = map id pages /\
  exists histories,
    calls w' =
      (calls w1 ++ map GetPageLabels (map id pages) ++ histories)%list /\
    Permutation histories (map GetHistory (map id pages)).
Proof.
  intros Hd Hc.
  destruct (classify_pages_ok strptime target_labels arguments w pages w1
              pages_with_states w' Hd Hc) as [Hids Hcalls].
  split; [exact Hids |].
  exists (map GetHistory (map id pages)).
  split; [exact Hcalls | apply Permutation_refl].
Qed.

Lemma classification_follows_discovery_witness :
  exists pages_with_states w',
    classify_pages Sample.strptime Sample.target_labels
      (Sample.arguments true false) Sample.library =
      (Ok pages_with_states, w') /\
    map page_id pages_with_states = ["A"; "B"; "C"] /\
    exists histories,
      calls w' =
        ([GetAllPagesFromSpace "AA" 0 500; GetAllPagesFromSpace "AA" 500 500;
          GetPageLabels "A"; GetPageLabels "B"; GetPageLabels "C"] ++
         histories)%list /\
      Permutation histories [GetHistory "A"; GetHistory "B"; GetHistory "C"].
Proof.
  do 2 eexists.
  assert (Hd : discover_all_pages_in_space "AA" 2500 500 Sample.library =
               (Ok _, _)) by (vm_compute; reflexivity).
  assert (Hc : classify_pages Sample.strptime Sample.target_labels
                 (Sample.arguments true false) Sample.library = (Ok _, _))
    by (vm_compute; reflexivity).
  split; [exact Hc |].
  exact (classification_follows_discovery Sample.strptime Sample.target_labels
           (Sample.arguments true false) Sample.library _ _ _ _ Hd Hc).
Defined.

(** ** More on the lifecycle-ignore test *)

(** X15.  With a date parser that returns a date without time zone or
    raises [ParserError], and nothing else, the test for a lifecycle-ignore
    label cannot fail and makes no call, whatever the label: the part
    after [=] is there whenever it is looked at, and the [ParserError] is
    caught.  It stops the scan as suppressed or leaves the scan as it was,
    and reads the clock once at most. *)
Theorem check_lifecycle_ignore_never_fails (parse : string -> option Z)
  (current_label : string) (st : Scan) (w : World) :
  exists fl st' w',
    check_lifecycle_ignore parse current_label st w = (Ok (fl, st'), w') /\
    (w' = w \/ w' = tick w) /\
    ((fl = Next /\ st' = st) \/ (fl = Break /\ suppressed st')).
Proof.
  unfold check_lifecycle_ignore, suppressed.
  destruct (Py.startswith current_label lifecycle_ignore_tag).
  2:{ exists Next, st, w. auto. }
  destruct (Z.gtb_spec (Py.count current_label "="%char) 0) as [Hc | Hc];
    cbn [negb].
  2:{ do 3 eexists. split; [reflexivity |]. auto. }
  destruct (split_second current_label "="%char) as [s1 Hs1]; [lia |].
  unfold bind at 1, index. rewrite Hs1. unfold ret at 1.
  destruct (String.eqb s1 "").
  { do 3 eexists. split; [reflexivity |]. auto. }
  unfold try_except, bind, dateutil_parse, datetime_now.
  destruct (parse s1) as [d |]; cbn.
  - destruct (clock w (ticks w) >? d); cbn;
      do 3 eexists; (split; [reflexivity |]); auto.
  - exists Next, st, w. auto.
Qed.

Lemma keeps_clock_remove_deprecated (page_id : string) (results : list Label) :
  keeps_clock (remove_deprecated page_id results).
Proof.
  assert (Hrm : forall l, keeps_clock (client.remove_page_label page_id l)).
  { intros l w. unfold client.remove_page_label, client.mutate.
    destruct (mutation_fault w (List.length (calls w))); now cbn. }
  assert (Hret : keeps_clock (ret tt)) by (intros w; now cbn).
  assert (Hbind : forall (m : M unit) (k : unit -> M unit),
            keeps_clock m -> (forall u, keeps_clock (k u)) ->
            keeps_clock (bind m k)).
  { intros m k Hm Hk w. unfold bind. specialize (Hm w).
    destruct (m w) as [[u | e] w1]; cbn [snd] in *; [| exact Hm].
    destruct (Hk u w1) as [H1 H2]. destruct Hm as [Hm1 Hm2].
    split; congruence. }
  assert (Hfor : forall A (l : list A) (body : A -> M unit),
            (forall x, keeps_clock (body x)) -> keeps_clock (for_each l body)).
  { intros A l body Hb. induction l as [| x l IH]; cbn [for_each];
      [exact Hret |].
    apply Hbind; [apply Hb | intros _; exact IH]. }
  unfold remove_deprecated. apply Hfor. intros lbl. apply Hfor.
  intros deprecated. destruct (String.eqb deprecated (label lbl));
    [apply Hrm | exact Hret].
Qed.

(** X16.  The comparison with the date of [lifecycle_ignore=<D>] is
    inclusive: a page whose first label is the directive is still held
    back when the clock reads exactly the date, the outcome being
    (no change, suppressed), and all the more before the date. *)
Theorem ignore_until_includes_the_date (parse : string -> option Z)
  (target_labels : list string) (page_id desired_label D : string) (d : Z)
  (x : Label) (after : list Label) (w : World) :
  label x = ignore_until D ->
  D <> "" ->
  Py.count D "="%char = 0 ->
  parse D = Some d ->
  page_labels w page_id = x :: after ->
  no_faults w ->
  clock w (ticks w) <= d ->
  fst (action_set_page_label parse target_labels page_id desired_label w) =
  Ok (false, true).
Proof.
  intros Hx Hne Hc Hp Hl Hnf Hnow.
  unfold action_set_page_label, bind at 1, client.get_page_labels.
  rewrite Hl. unfold set_page_label_from.
  set (w0 := record (GetPageLabels page_id) w).
  destruct (remove_deprecated_accepted page_id (x :: after) w0)
    as (w1 & Hrd & H1);
    [exact (extends_no_faults _ _ _ (extends_record _ w) Hnf) |].
  destruct (keeps_clock_remove_deprecated page_id (x :: after) w0)
    as [Ht Hk].
  rewrite Hrd in Ht, Hk. cbn [snd] in Ht, Hk.
  rewrite (bind_ok _ _ _ _ _ Hrd).
  cbn [scan_labels]. unfold bind at 1, bind at 1, scan_label, bind at 1.
  rewrite Hx, (check_ignore_until parse D _ _ Hne Hc), Hp.
  replace (clock w1 (ticks w1) >? d) with false; [reflexivity |].
  rewrite Hk, Ht. cbn [w0 record with_calls clock ticks].
  symmetry. destruct (Z.gtb_spec (clock w (ticks w)) d); [lia | reflexivity].
Qed.

(** On 2024-01-01 at midnight, a page ignored until 20240101. *)
Lemma ignore_until_includes_the_date_witness :
  clock (Runs.labelled ["lifecycle_ignore=20240101"]) 0 = 63839664000000000 /\
  fst (action_set_page_label Sample.parse Sample.target_labels "A"
         "lifecycle_phase=rotten"
         (Runs.labelled ["lifecycle_ignore=20240101"])) = Ok (false, true).
Proof.
  split; [reflexivity |].
  eapply (ignore_until_includes_the_date Sample.parse Sample.target_labels
            "A" "lifecycle_phase=rotten" "20240101" 63839664000000000
            (Sample.lbl "lifecycle_ignore=20240101") []).
  - reflexivity.
  - discriminate.
  - reflexivity.
  - vm_compute. reflexivity.
  - reflexivity.
  - intros n. reflexivity.
  - vm_compute. discriminate.
Defined.

(** ** More on the reconciliation of a page *)


Section Reconciliation.

Variable parse : string -> option Z.
Variable target_labels : list string.
Variable page_id : string.
Variable desired_label : string.



(** X18.  Whatever the labels of the page and whatever the store answers
    to a mutation, [action_set_page_label] calls the store for its own
    page only: it fetches the labels, removes deprecated labels and target
    labels other than the desired one, and sets the desired label; it
    makes no other call, whether it returns or an exception leaves it. *)
Theorem action_set_page_label_effects (w : World) :
  exists cs,
    calls (snd (action_set_page_label parse target_labels page_id
                  desired_label w)) = (calls w ++ cs)%list /\
    Forall (label_call target_labels page_id desired_label) cs.
Proof.
  exact (proj1 (confined_action_set_page_label parse target_labels page_id
                  desired_label w)).
Qed.

(** What [action_set_page_label] does before it decides on the desired
    label: it fetches the labels and removes labels, and then either an
    exception leaves it or the scan ends in a state [st]. *)
Lemma action_set_page_label_shape (w : World) :
  exists w3 cs,
    calls w3 = (calls w ++ cs)%list /\
    Forall fetch_or_removal cs /\
    mutation_fault w3 = mutation_fault w /\
    ((exists e,
        action_set_page_label parse target_labels page_id desired_label w =
          (Raise e, w3)) \/
     (exists st,
        action_set_page_label parse target_labels page_id desired_label w =
          (if labelling_required st then
             try_except
               (client.set_page_label page_id desired_label ;;;
                ret (true, false))%py
               api_or_http
               (ret (false, false))
           else if triggered_lifecycle_exception st then ret (false, true)
           else ret (false, false)) w3)).
Proof.
  set (pre := bind (client.get_page_labels page_id) (fun results =>
              bind (remove_deprecated page_id results) (fun _ =>
                scan_labels parse page_id desired_label
                  (undesirable target_labels desired_label) results
                  {| labelling_required := true;
                     triggered_lifecycle_exception := false;
                     lifecycle_exception_until := "" |}))).
  assert (Hpre : confined_at fetch_or_removal never pre w).
  { unfold pre. apply confined_at_bind.
    - now apply (confined_at_read _ _ (GetPageLabels page_id)).
    - intros results w1 _. apply confined_at_bind.
      + apply (confined_remove_deprecated_in target_labels page_id
                 desired_label). now intros l _.
      + intros _ w2 _.
        apply (confined_scan_labels_in parse target_labels page_id
                 desired_label). now intros l _. }
  destruct Hpre as ((cs & Hc & Hp) & Hf & _).
  assert (Heq : action_set_page_label parse target_labels page_id
                  desired_label w =
                bind pre (fun st =>
                  if labelling_required st then
                    try_except
                      (client.set_page_label page_id desired_label ;;;
                       ret (true, false))%py
                      api_or_http
                      (ret (false, false))
                  else if triggered_lifecycle_exception st
                       then ret (false, true)
                       else ret (false, false)) w).
  { unfold action_set_page_label, set_page_label_from, pre, bind.
    destruct (client.get_page_labels page_id w) as [[results | e] w1];
      [| reflexivity].
    destruct (remove_deprecated page_id results w1) as [[[] | e] w2];
      [| reflexivity].
    reflexivity. }
  exists (snd (pre w)), cs. split; [exact Hc |]. split; [exact Hp |].
  split; [exact Hf |]. rewrite Heq. unfold bind.
  destruct (pre w) as [[st | e] w3]; cbn [snd]; [right | left]; eauto.
Qed.

(** X19.  The outcome is "label changed" exactly when the last call of
    [action_set_page_label] is the setting of the desired label and the
    store accepts it; the lifecycle trigger is then not reported. *)
Theorem label_changed_iff_set_accepted (w : World) :
  let r := action_set_page_label parse target_labels page_id desired_label w in
  fst r = Ok (true, false) <->
  exists cs,
    calls (snd r) =
      (calls w ++ cs ++ [SetPageLabel page_id desired_label])%list /\
    mutation_fault w (List.length (calls w ++ cs)) = None.
Proof.
  cbv zeta.
  destruct (action_set_page_label_shape w)
    as (w3 & cs3 & Hc3 & Hp3 & Hf3 & [[e ->] | [st ->]]); cbn [fst snd].
  - split; [discriminate |].
    intros (cs & Hc & _). rewrite Hc3 in Hc.
    apply app_inv_head in Hc. subst cs3.
    apply Forall_app in Hp3 as [_ Hp3].
    inversion Hp3 as [| c l Hbad _]. now elim Hbad.
  - destruct (labelling_required st).
    + unfold try_except, bind, client.set_page_label, client.mutate.
      destruct (mutation_fault w3 (List.length (calls w3))) as [e |] eqn:Ef;
        cbn [fst snd].
      * split.
        -- destruct (api_or_http e); cbn; discriminate.
        -- intros (cs & Hc & Hnone). exfalso.
           assert (Hcalls : calls (if api_or_http e
                                   then snd (@ret (bool * bool) (false, false)
                                               (record (SetPageLabel page_id
                                                          desired_label) w3))
                                   else record (SetPageLabel page_id
                                                  desired_label) w3) =
                            (calls w3 ++
                             [SetPageLabel page_id desired_label])%list)
             by (destruct (api_or_http e); reflexivity).
           assert (Hc' : (calls w ++ cs3 ++
                          [SetPageLabel page_id desired_label])%list =
                         (calls w ++ cs ++
                          [SetPageLabel page_id desired_label])%list).
           { rewrite <- Hc. rewrite app_assoc, <- Hc3.
             destruct (api_or_http e); reflexivity. }
           apply app_inv_head, app_inj_tail in Hc' as [-> _].
           rewrite <- Hc3, <- Hf3 in Hnone. congruence.
      * split; [intros _ | reflexivity].
        exists cs3. split.
        -- cbn. rewrite Hc3, <- app_assoc. reflexivity.
        -- rewrite <- Hc3, <- Hf3. exact Ef.
    + assert (Hno : forall b,
                ~ exists cs,
                    calls (snd (@ret (bool * bool) (false, b) w3)) =
                      (calls w ++ cs ++
                       [SetPageLabel page_id desired_label])%list /\
                    mutation_fault w (List.length (calls w ++ cs)) = None).
      { intros b (cs & Hc & _). cbn in Hc. rewrite Hc3 in Hc.
        apply app_inv_head in Hc. subst cs3.
        apply Forall_app in Hp3 as [_ Hp3].
    inversion Hp3 as [| c l Hbad _]. now elim Hbad. }
      destruct (triggered_lifecycle_exception st); cbn [fst];
        (split; [discriminate | intros H; now apply Hno in H]).
Qed.

End Reconciliation.


Section Relabelling.

Variable parse : string -> option Z.
Variable target_labels : list string.
Variable page_id : string.
Variable desired_label : string.

(** The removals the scan asks for on labels that are neither
    lifecycle-ignore labels nor the desired label. *)
Lemma scan_labels_removes_undesirable (results : list Label) (st : Scan) :
  forall w : World,
    labelling_required st = true ->
    no_faults w ->
    Forall plain results ->
    ~ In desired_label (map label results) ->
    exists w',
      scan_labels parse page_id desired_label
        (undesirable target_labels desired_label) results st w =
        (Ok st, w') /\
      extends w w'
        (map (RemovePageLabel page_id)
           (filter
              (fun l => Py.mem l (undesirable target_labels desired_label))
              (map label results))).
Proof.
  induction results as [| x rest IH]; intros w Hreq Hnf Hall Hnot.
  - exists w. split; [reflexivity | apply extends_refl].
  - inversion Hall as [| ? ? Hx Hrest]; subst.
    cbn [map In] in Hnot.
    assert (Hneq : String.eqb (label x) desired_label = false).
    { apply String.eqb_neq. intros E. apply Hnot. now left. }
    cbn [scan_labels map filter]. unfold bind at 1, scan_label, bind at 1.
    unfold check_lifecycle_ignore. unfold plain in Hx. rewrite Hx.
    unfold ret at 1. rewrite Hreq, Hneq. cbn [andb].
    destruct (Py.mem (label x) (undesirable target_labels desired_label)).
    + destruct (remove_page_label_accepted page_id (label x) w Hnf)
        as (w1 & Hrm & H1).
      unfold bind at 1, try_except, bind at 1. rewrite Hrm.
      unfold ret at 1.
      destruct (IH w1 Hreq (extends_no_faults _ _ _ H1 Hnf) Hrest)
        as (w2 & Hscan & H2); [tauto |].
      exists w2. split; [exact Hscan |].
      exact (extends_trans _ _ _ _ _ H1 H2).
    + unfold bind at 1, ret at 1.
      destruct (IH w Hreq Hnf Hrest) as (w2 & Hscan & H2); [tauto |].
      exists w2. now split.
Qed.

(** X20.  A page without lifecycle-ignore labels and without the desired
    label, on a store that accepts the mutations: the calls are, in this
    order, the fetch of the labels, the removal of every deprecated label,
    the removal of every target label other than the desired one, and the
    setting of the desired label; the outcome is "label changed". *)
Theorem relabelling_a_page (w : World) :
  Forall plain (page_labels w page_id) ->
  ~ In desired_label (map label (page_labels w page_id)) ->
  no_faults w ->
  exists w',
    action_set_page_label parse target_labels page_id desired_label w =
      (Ok (true, false), w') /\
    calls w' =
      (calls w ++ GetPageLabels page_id ::
         deprecated_calls page_id (page_labels w page_id) ++
         map (RemovePageLabel page_id)
           (filter
              (fun l => Py.mem l (undesirable target_labels desired_label))
              (map label (page_labels w page_id))) ++
         [SetPageLabel page_id desired_label])%list.
Proof.
  intros Hall Hnot Hnf.
  unfold action_set_page_label, bind at 1, client.get_page_labels.
  unfold set_page_label_from.
  fold (undesirable target_labels desired_label).
  set (w0 := record (GetPageLabels page_id) w).
  assert (H0 : extends w w0 [GetPageLabels page_id])
    by apply extends_record.
  destruct (remove_deprecated_accepted page_id (page_labels w page_id) w0)
    as (w1 & Hrd & H1); [exact (extends_no_faults _ _ _ H0 Hnf) |].
  pose proof (extends_trans _ _ _ _ _ H0 H1) as H01.
  destruct (scan_labels_removes_undesirable (page_labels w page_id)
              {| labelling_required := true;
                 triggered_lifecycle_exception := false;
                 lifecycle_exception_until := "" |} w1 eq_refl
              (extends_no_faults _ _ _ H01 Hnf) Hall Hnot)
    as (w2 & Hscan & H2).
  pose proof (extends_trans _ _ _ _ _ H01 H2) as H02.
  rewrite (bind_ok _ _ _ _ _ Hrd), (bind_ok _ _ _ _ _ Hscan).
  cbn [labelling_required].
  unfold try_except, bind, client.set_page_label.
  rewrite mutate_accepted by apply (extends_no_faults _ _ _ H02 Hnf).
  eexists. split; [reflexivity |].
  cbn [with_labels record with_calls calls].
  destruct H02 as (Hc & _). rewrite Hc.
  rewrite <- !app_assoc. reflexivity.
Qed.

End Relabelling.

(** The example of a rotten page that carries the label of a fresh one
    and a deprecated label. *)
Lemma relabelling_a_page_witness :
  exists w',
    action_set_page_label Sample.parse Sample.target_labels "A"
      "lifecycle_phase=rotten"
      (Runs.labelled ["lifecycle_phase=fresh"; "fresh"]) =
      (Ok (true, false), w') /\
    calls w' =
      [GetPageLabels "A"; RemovePageLabel "A" "fresh";
       RemovePageLabel "A" "lifecycle_phase=fresh";
       SetPageLabel "A" "lifecycle_phase=rotten"].
Proof.
  apply (relabelling_a_page Sample.parse Sample.target_labels "A"
           "lifecycle_phase=rotten"
           (Runs.labelled ["lifecycle_phase=fresh"; "fresh"])).
  - repeat constructor.
  - cbn. intros [H | [H | []]]; discriminate H.
  - intros n. reflexivity.
Defined.

(** A page that is to become rotten and whose labels are fetched and
    changed without a fault. *)
Lemma label_changed_iff_set_accepted_witness :
  fst (action_set_page_label Sample.parse Sample.target_labels "A"
         "lifecycle_phase=rotten"
         (Runs.labelled ["lifecycle_phase=fresh"])) = Ok (true, false).
Proof.
  apply (proj2 (label_changed_iff_set_accepted Sample.parse
                  Sample.target_labels "A" "lifecycle_phase=rotten"
                  (Runs.labelled ["lifecycle_phase=fresh"]))).
  exists [GetPageLabels "A"; RemovePageLabel "A" "lifecycle_phase=fresh"].
  split; [vm_compute; reflexivity | reflexivity].
Defined.

(** X21.  The removal of a deprecated label is not guarded: when the
    first label of a page is deprecated and the store refuses its removal,
    whatever the exception, [action_set_page_label] ends with that
    exception right there; the scan is not started and the desired label
    is not set. *)
Theorem refused_deprecated_removal (parse : string -> option Z)
  (target_labels : list string) (page_id desired_label : string)
  (x : Label) (rest : list Label) (e : exn) (w : World) :
  page_labels w page_id = x :: rest ->
  Py.mem (label x) deprecated_labels = true ->
  mutation_fault w (S (List.length (calls w))) = Some e ->
  action_set_page_label parse target_labels page_id desired_label w =
  (Raise e,
   record (RemovePageLabel page_id (label x))
     (record (GetPageLabels page_id) w)).
Proof.
  intros Hl Hdep Hf.
  unfold action_set_page_label, bind at 1, client.get_page_labels.
  rewrite Hl. unfold set_page_label_from, bind at 1.
  unfold remove_deprecated. cbn [for_each]. unfold bind at 1.
  assert (Hrm : client.remove_page_label page_id (label x)
                  (record (GetPageLabels page_id) w) =
                (Raise e,
                 record (RemovePageLabel page_id (label x))
                   (record (GetPageLabels page_id) w))).
  { unfold client.remove_page_label. apply mutate_refused.
    cbn [record with_calls calls]. rewrite length_app, Nat.add_1_r.
    exact Hf. }
  unfold Py.mem, deprecated_labels in Hdep. cbn [existsb] in Hdep.
  rewrite !(String.eqb_sym (label x)) in Hdep.
  unfold deprecated_labels. cbn [for_each]. unfold bind.
  destruct (String.eqb_spec "fresh" (label x)) as [E | _].
  { rewrite Hrm. reflexivity. }
  unfold ret at 1.
  destruct (String.eqb_spec "stale" (label x)) as [E | _].
  { rewrite Hrm. reflexivity. }
  unfold ret at 1.
  destruct (String.eqb_spec "rotten" (label x)) as [E | _].
  { rewrite Hrm. reflexivity. }
  discriminate Hdep.
Qed.

(** A connection that drops on the removal of the label [stale]. *)
Lemma refused_deprecated_removal_witness :
  let w := Sample.store [] [Sample.lbl "stale"; Sample.lbl "documentation"]
             "2023-07-05T00:00:00.000Z" Sample.new_year_2024
             (fun _ => Some ConnectionError) in
  action_set_page_label Sample.parse Sample.target_labels "A"
    "lifecycle_phase=rotten" w =
  (Raise ConnectionError,
   record (RemovePageLabel "A" "stale") (record (GetPageLabels "A") w)).
Proof.
  apply (refused_deprecated_removal Sample.parse Sample.target_labels "A"
           "lifecycle_phase=rotten" (Sample.lbl "stale")
           [Sample.lbl "documentation"] ConnectionError).
  - reflexivity.
  - reflexivity.
  - reflexivity.
Defined.
